(** * crazyfileDemo: swarm path planner and mock drone simulator

    A shallow embedding of
    - [backend/algorithms/trajectory_planner.py] (class [SimpleCollisionAvoidance]),
    - [backend/simulators/mock_simulator.py] (class [DroneSimulator]),
    - the handlers of [backend/main.py] that call them,
    and the properties of the specification that concern them.

    Numbers.  Python's [float] is idealised as a real number ([R]); the one
    non-real value the code uses, [float('inf')], is the constructor [PInf]
    of [xfloat].  Comparisons are the decidable ones of the reals, wrapped as
    booleans, so every branch of the source is a branch here.

    Effects.  [time.time()] is an argument ([current_time], [now]); the six
    [random.gauss] samples a drone receives per tick are a [Noise] record
    supplied by an oracle indexed by the drone's place in the iteration;
    mutation of the registry [self.drones] is explicit state passing; running
    out of Python's recursion depth is running out of fuel. *)

From Stdlib Require Import Reals Lra String DecimalString DecimalNat List Bool Arith ZArith Lia.
Import ListNotations.

Open Scope R_scope.

(** ** Numbers *)

Definition Rltb (a b : R) : bool := if Rlt_dec a b then true else false.
Definition Rleb (a b : R) : bool := if Rle_dec a b then true else false.
Definition Reqb (a b : R) : bool := if Req_dec_T a b then true else false.

(** A float that may be [float('inf')]. *)
Inductive xfloat : Type :=
| Fin (r : R)
| PInf.

(** [a < b] on floats that may be infinite. *)
Definition xltb (a b : xfloat) : bool :=
  match a, b with
  | Fin r, Fin s => Rltb r s
  | Fin _, PInf => true
  | PInf, _ => false
  end.

(** [a >= b], the right operand finite. *)
Definition xgeb (a : xfloat) (b : R) : bool :=
  match a with
  | Fin r => Rleb b r
  | PInf => true
  end.

(** Python's two-argument [min(a, b)]: [b] when [b < a], otherwise [a]. *)
Definition xmin (a b : xfloat) : xfloat := if xltb b a then b else a.

(** [x ** 2] *)
Definition sq (x : R) : R := x * x.

(** ** The path planner *)

Module Planner.

(** A waypoint or an obstacle: the tuple [(p[0], p[1], p[2])]. *)
Definition Point : Type := (R * R * R)%type.

Definition c0 (p : Point) : R := fst (fst p).
Definition c1 (p : Point) : R := snd (fst p).
Definition c2 (p : Point) : R := snd p.

Record SimpleCollisionAvoidance : Type := mkPlanner {
  safety_radius : R
}.

(** [__init__]'s default argument. *)
Definition default_planner : SimpleCollisionAvoidance := mkPlanner (3 / 10).

Definition _cross_product (a b : Point) : Point :=
  (c1 a * c2 b - c2 a * c1 b,
   c2 a * c0 b - c0 a * c2 b,
   c0 a * c1 b - c1 a * c0 b).

Definition _point_to_line_distance (line_start line_end point : Point) : R :=
  let line_vec : Point := (c0 line_end - c0 line_start,
                           c1 line_end - c1 line_start,
                           c2 line_end - c2 line_start) in
  let point_vec : Point := (c0 point - c0 line_start,
                            c1 point - c1 line_start,
                            c2 point - c2 line_start) in
  let line_length_sq := sq (c0 line_vec) + sq (c1 line_vec) + sq (c2 line_vec) in
  if Reqb line_length_sq 0 then
    sqrt (sq (c0 point_vec) + sq (c1 point_vec) + sq (c2 point_vec))
  else
    let t := Rmax 0 (Rmin 1 ((c0 point_vec * c0 line_vec +
                              c1 point_vec * c1 line_vec +
                              c2 point_vec * c2 line_vec) / line_length_sq)) in
    let closest_point : Point := (c0 line_start + t * c0 line_vec,
                                  c1 line_start + t * c1 line_vec,
                                  c2 line_start + t * c2 line_vec) in
    let dx := c0 point - c0 closest_point in
    let dy := c1 point - c1 closest_point in
    let dz := c2 point - c2 closest_point in
    sqrt (sq dx + sq dy + sq dz).

(** The [for] loop with its early [return False]. *)
Fixpoint _is_path_clear (self : SimpleCollisionAvoidance) (start goal : Point)
    (obstacles : list Point) : bool :=
  match obstacles with
  | [] => true
  | obstacle :: rest =>
      let distance := _point_to_line_distance start goal obstacle in
      if Rltb distance (safety_radius self) then false
      else _is_path_clear self start goal rest
  end.

Definition _calculate_detour_midpoint (self : SimpleCollisionAvoidance)
    (start goal obstacle : Point) : Point :=
  let goal_vec : Point := (c0 goal - c0 start, c1 goal - c1 start, c2 goal - c2 start) in
  let obs_vec : Point :=
    (c0 obstacle - c0 start, c1 obstacle - c1 start, c2 obstacle - c2 start) in
  let goal_length_sq := sq (c0 goal_vec) + sq (c1 goal_vec) + sq (c2 goal_vec) in
  if Reqb goal_length_sq 0 then start
  else
    let t := (c0 obs_vec * c0 goal_vec + c1 obs_vec * c1 goal_vec +
              c2 obs_vec * c2 goal_vec) / goal_length_sq in
    let t := Rmax 0 (Rmin 1 t) in
    let projected : Point := (c0 start + t * c0 goal_vec,
                              c1 start + t * c1 goal_vec,
                              c2 start + t * c2 goal_vec) in
    let offset_vec : Point := (c0 obstacle - c0 projected,
                               c1 obstacle - c1 projected,
                               c2 obstacle - c2 projected) in
    let perpendicular := _cross_product goal_vec offset_vec in
    let perpendicular_length :=
      sqrt (sq (c0 perpendicular) + sq (c1 perpendicular) + sq (c2 perpendicular)) in
    let '(perpendicular, perpendicular_length) :=
      if Reqb perpendicular_length 0
      then ((if Reqb (c2 goal_vec) 0 then (0, 0, 1) else (1, 0, 0)) : Point, 1)
      else (perpendicular, perpendicular_length) in
    let perpendicular : Point := (c0 perpendicular / perpendicular_length,
                                  c1 perpendicular / perpendicular_length,
                                  c2 perpendicular / perpendicular_length) in
    let detour_distance := safety_radius self * (15 / 10) in
    (c0 projected + detour_distance * c0 perpendicular,
     c1 projected + detour_distance * c1 perpendicular,
     c2 projected + detour_distance * c2 perpendicular).

(** The first loop of [_find_detour_path]: the state is the pair
    [(closest_obstacle, min_distance)], initially [(None, inf)]. *)
Fixpoint closest_loop (start goal : Point) (obstacles : list Point)
    (acc : option Point * xfloat) : option Point * xfloat :=
  match obstacles with
  | [] => acc
  | obstacle :: rest =>
      let distance := _point_to_line_distance start goal obstacle in
      closest_loop start goal rest
        (if xltb (Fin distance) (snd acc) then (Some obstacle, Fin distance) else acc)
  end.

(** [_find_detour_path], the depth of the recursion bounded by [fuel];
    [None] is the recursion limit reached. *)
Fixpoint _find_detour_path (fuel : nat) (self : SimpleCollisionAvoidance)
    (start goal : Point) (obstacles : list Point) : option (list Point) :=
  match fuel with
  | O => None
  | S fuel' =>
      match fst (closest_loop start goal obstacles (None, PInf)) with
      | None => Some [start; goal]
      | Some closest_obstacle =>
          let midpoint := _calculate_detour_midpoint self start goal closest_obstacle in
          let path1_clear := _is_path_clear self start midpoint obstacles in
          let path2_clear := _is_path_clear self midpoint goal obstacles in
          if path1_clear && path2_clear then Some [start; midpoint; goal]
          else
            match (if negb path1_clear
                   then _find_detour_path fuel' self start midpoint obstacles
                   else Some [start; midpoint]) with
            | None => None
            | Some detour1 =>
                match (if negb path2_clear
                       then _find_detour_path fuel' self midpoint goal obstacles
                       else Some [midpoint; goal]) with
                | None => None
                | Some detour2 => Some (removelast detour1 ++ detour2)
                end
            end
      end
  end.

Definition plan_path (fuel : nat) (self : SimpleCollisionAvoidance)
    (start goal : Point) (obstacles : list Point) : option (list Point) :=
  let start_point : Point := (c0 start, c1 start, c2 start) in
  let goal_point : Point := (c0 goal, c1 goal, c2 goal) in
  if _is_path_clear self start_point goal_point obstacles
  then Some [start_point; goal_point]
  else _find_detour_path fuel self start_point goal_point obstacles.

(** The dictionary [validate_path] returns; a key that a branch leaves out
    is [None]. *)
Record Report : Type := mkReport {
  valid : bool;
  reason : option string;
  pathLength : R;
  minSeparation : xfloat;
  success : bool;
  waypoints : option nat
}.

(** [path[i]]; every index the code uses is in range. *)
Definition item (path : list Point) (i : nat) : Point := nth i path (0, 0, 0).

Definition validate_path (self : SimpleCollisionAvoidance) (path : list Point)
    (obstacles : list Point) : Report :=
  if (length path <? 2)%nat then
    mkReport false (Some "Path too short"%string) 0 PInf false None
  else
    let path_length :=
      fold_left (fun path_length i =>
                   let dx := c0 (item path i) - c0 (item path (i - 1)) in
                   let dy := c1 (item path i) - c1 (item path (i - 1)) in
                   let dz := c2 (item path i) - c2 (item path (i - 1)) in
                   path_length + sqrt (sq dx + sq dy + sq dz))
                (seq 1 (length path - 1)) 0 in
    let min_separation :=
      fold_left (fun min_separation i =>
                   fold_left (fun min_separation obstacle =>
                                let distance :=
                                  _point_to_line_distance (item path i) (item path (i + 1))
                                                          obstacle in
                                xmin min_separation (Fin distance))
                             obstacles min_separation)
                (seq 0 (length path - 1)) PInf in
    let safe := xgeb min_separation (safety_radius self) in
    mkReport safe None path_length min_separation safe (Some (length path)).

End Planner.

(** ** The mock simulator *)

Module Simulator.

Definition Rgtb (a b : R) : bool := Rltb b a.
Definition Rgeb (a b : R) : bool := Rleb b a.

Inductive DroneStatus : Type :=
| IDLE
| TAKING_OFF
| FLYING
| LANDING
| ERROR.

Definition status_eqb (a b : DroneStatus) : bool :=
  match a, b with
  | IDLE, IDLE | TAKING_OFF, TAKING_OFF | FLYING, FLYING
  | LANDING, LANDING | ERROR, ERROR => true
  | _, _ => false
  end.

(** The dataclass, with the attribute [run_id] that [create_swarm] adds. *)
Record DroneState : Type := mkDrone {
  id : string;
  x : R;
  y : R;
  z : R;
  vx : R;
  vy : R;
  vz : R;
  battery : R;
  status : DroneStatus;
  target_x : R;
  target_y : R;
  target_z : R;
  takeoff_height : R;
  takeoff_start : R;
  takeoff_duration : R;
  land_start : R;
  last_update : R;
  run_id : option string
}.

(** [DroneState(id=drone_id)]: the dataclass defaults. *)
Definition new_drone (drone_id : string) : DroneState :=
  mkDrone drone_id 0 0 0 0 0 0 100 IDLE 0 0 0 0 0 0 0 0 None.

(** Attribute assignments [drone.f = v]. *)
Definition set_x (d : DroneState) (v : R) : DroneState :=
  mkDrone (id d) v (y d) (z d) (vx d) (vy d) (vz d) (battery d) (status d)
          (target_x d) (target_y d) (target_z d) (takeoff_height d) (takeoff_start d)
          (takeoff_duration d) (land_start d) (last_update d) (run_id d).
Definition set_y (d : DroneState) (v : R) : DroneState :=
  mkDrone (id d) (x d) v (z d) (vx d) (vy d) (vz d) (battery d) (status d)
          (target_x d) (target_y d) (target_z d) (takeoff_height d) (takeoff_start d)
          (takeoff_duration d) (land_start d) (last_update d) (run_id d).
Definition set_z (d : DroneState) (v : R) : DroneState :=
  mkDrone (id d) (x d) (y d) v (vx d) (vy d) (vz d) (battery d) (status d)
          (target_x d) (target_y d) (target_z d) (takeoff_height d) (takeoff_start d)
          (takeoff_duration d) (land_start d) (last_update d) (run_id d).
Definition set_vx (d : DroneState) (v : R) : DroneState :=
  mkDrone (id d) (x d) (y d) (z d) v (vy d) (vz d) (battery d) (status d)
          (target_x d) (target_y d) (target_z d) (takeoff_height d) (takeoff_start d)
          (takeoff_duration d) (land_start d) (last_update d) (run_id d).
Definition set_vy (d : DroneState) (v : R) : DroneState :=
  mkDrone (id d) (x d) (y d) (z d) (vx d) v (vz d) (battery d) (status d)
          (target_x d) (target_y d) (target_z d) (takeoff_height d) (takeoff_start d)
          (takeoff_duration d) (land_start d) (last_update d) (run_id d).
Definition set_vz (d : DroneState) (v : R) : DroneState :=
  mkDrone (id d) (x d) (y d) (z d) (vx d) (vy d) v (battery d) (status d)
          (target_x d) (target_y d) (target_z d) (takeoff_height d) (takeoff_start d)
          (takeoff_duration d) (land_start d) (last_update d) (run_id d).
Definition set_battery (d : DroneState) (v : R) : DroneState :=
  mkDrone (id d) (x d) (y d) (z d) (vx d) (vy d) (vz d) v (status d)
          (target_x d) (target_y d) (target_z d) (takeoff_height d) (takeoff_start d)
          (takeoff_duration d) (land_start d) (last_update d) (run_id d).
Definition set_status (d : DroneState) (v : DroneStatus) : DroneState :=
  mkDrone (id d) (x d) (y d) (z d) (vx d) (vy d) (vz d) (battery d) v
          (target_x d) (target_y d) (target_z d) (takeoff_height d) (takeoff_start d)
          (takeoff_duration d) (land_start d) (last_update d) (run_id d).
Definition set_target_x (d : DroneState) (v : R) : DroneState :=
  mkDrone (id d) (x d) (y d) (z d) (vx d) (vy d) (vz d) (battery d) (status d)
          v (target_y d) (target_z d) (takeoff_height d) (takeoff_start d)
          (takeoff_duration d) (land_start d) (last_update d) (run_id d).
Definition set_target_y (d : DroneState) (v : R) : DroneState :=
  mkDrone (id d) (x d) (y d) (z d) (vx d) (vy d) (vz d) (battery d) (status d)
          (target_x d) v (target_z d) (takeoff_height d) (takeoff_start d)
          (takeoff_duration d) (land_start d) (last_update d) (run_id d).
Definition set_target_z (d : DroneState) (v : R) : DroneState :=
  mkDrone (id d) (x d) (y d) (z d) (vx d) (vy d) (vz d) (battery d) (status d)
          (target_x d) (target_y d) v (takeoff_height d) (takeoff_start d)
          (takeoff_duration d) (land_start d) (last_update d) (run_id d).
Definition set_takeoff_height (d : DroneState) (v : R) : DroneState :=
  mkDrone (id d) (x d) (y d) (z d) (vx d) (vy d) (vz d) (battery d) (status d)
          (target_x d) (target_y d) (target_z d) v (takeoff_start d)
          (takeoff_duration d) (land_start d) (last_update d) (run_id d).
Definition set_takeoff_start (d : DroneState) (v : R) : DroneState :=
  mkDrone (id d) (x d) (y d) (z d) (vx d) (vy d) (vz d) (battery d) (status d)
          (target_x d) (target_y d) (target_z d) (takeoff_height d) v
          (takeoff_duration d) (land_start d) (last_update d) (run_id d).
Definition set_takeoff_duration (d : DroneState) (v : R) : DroneState :=
  mkDrone (id d) (x d) (y d) (z d) (vx d) (vy d) (vz d) (battery d) (status d)
          (target_x d) (target_y d) (target_z d) (takeoff_height d) (takeoff_start d)
          v (land_start d) (last_update d) (run_id d).
Definition set_land_start (d : DroneState) (v : R) : DroneState :=
  mkDrone (id d) (x d) (y d) (z d) (vx d) (vy d) (vz d) (battery d) (status d)
          (target_x d) (target_y d) (target_z d) (takeoff_height d) (takeoff_start d)
          (takeoff_duration d) v (last_update d) (run_id d).
Definition set_last_update (d : DroneState) (v : R) : DroneState :=
  mkDrone (id d) (x d) (y d) (z d) (vx d) (vy d) (vz d) (battery d) (status d)
          (target_x d) (target_y d) (target_z d) (takeoff_height d) (takeoff_start d)
          (takeoff_duration d) (land_start d) v (run_id d).
Definition set_run_id (d : DroneState) (v : string) : DroneState :=
  mkDrone (id d) (x d) (y d) (z d) (vx d) (vy d) (vz d) (battery d) (status d)
          (target_x d) (target_y d) (target_z d) (takeoff_height d) (takeoff_start d)
          (takeoff_duration d) (land_start d) (last_update d) (Some v).

(** The constants [__init__] sets. *)
Definition tick_rate : R := 20.
Definition dt : R := 1 / tick_rate.
Definition max_speed : R := 1.
Definition max_height : R := 1.
Definition workspace_bounds : R := 2.
Definition battery_drain_rate : R := 1 / 10.

(** [self.drones]: a Python dict, which iterates in insertion order; keys
    are looked up and updated at their first (in a dict: only) entry. *)
Definition registry : Type := list (string * DroneState).

Fixpoint get (drones : registry) (drone_id : string) : option DroneState :=
  match drones with
  | [] => None
  | (k, d) :: rest => if String.eqb k drone_id then Some d else get rest drone_id
  end.

(** A method applied to the object [self.drones[drone_id]]. *)
Fixpoint modify (drones : registry) (drone_id : string)
    (f : DroneState -> DroneState) : registry :=
  match drones with
  | [] => []
  | (k, d) :: rest =>
      if String.eqb k drone_id then (k, f d) :: rest
      else (k, d) :: modify rest drone_id f
  end.

(** [self.drones[drone_id] = drone]: an existing key keeps its place. *)
Fixpoint dict_set (drones : registry) (drone_id : string) (drone : DroneState) : registry :=
  match drones with
  | [] => [(drone_id, drone)]
  | (k, d) :: rest =>
      if String.eqb k drone_id then (k, drone) :: rest
      else (k, d) :: dict_set rest drone_id drone
  end.

(** *** One tick *)

(** The quotient [elapsed / takeoff_duration] is formed only when
    [elapsed < takeoff_duration]; with a duration of 0 and a clock that ran
    backwards Python raises [ZeroDivisionError] there and the tick has no
    result, where the reals give the quotient some value. *)
Definition _update_takeoff (drone : DroneState) (current_time : R) : DroneState :=
  let elapsed := current_time - takeoff_start drone in
  if Rgeb elapsed (takeoff_duration drone) then
    let drone := set_z drone (takeoff_height drone) in
    let drone := set_vz drone 0 in
    set_status drone FLYING
  else
    let progress := elapsed / takeoff_duration drone in
    let target_z := takeoff_height drone * progress in
    let error := target_z - z drone in
    let drone := set_vz drone (Rmin max_speed (Rmax (- max_speed) (error * 2))) in
    set_z drone (z drone + vz drone * dt).

Definition _update_flying (drone : DroneState) (current_time : R) : DroneState :=
  let dx := target_x drone - x drone in
  let dy := target_y drone - y drone in
  let dz := target_z drone - z drone in
  let distance := sqrt (sq dx + sq dy + sq dz) in
  if Rgtb distance (5 / 100) then
    let speed_factor := Rmin 1 (distance / (1 / 10)) in
    let target_speed := max_speed * speed_factor in
    let drone := set_vx drone ((dx / distance) * target_speed) in
    let drone := set_vy drone ((dy / distance) * target_speed) in
    let drone := set_vz drone ((dz / distance) * target_speed) in
    let drone := set_x drone (x drone + vx drone * dt) in
    let drone := set_y drone (y drone + vy drone * dt) in
    set_z drone (z drone + vz drone * dt)
  else
    let drone := set_vx drone 0 in
    let drone := set_vy drone 0 in
    set_vz drone 0.

Definition _update_landing (drone : DroneState) (current_time : R) : DroneState :=
  let target_z := 0 in
  let dz := target_z - z drone in
  if Rgtb (Rabs dz) (5 / 100) then
    let drone := set_vz drone (Rmin max_speed (Rmax (- max_speed) (dz * 2))) in
    set_z drone (z drone + vz drone * dt)
  else
    let drone := set_z drone 0 in
    let drone := set_vz drone 0 in
    set_status drone IDLE.

(** The six [random.gauss] samples of one drone in one tick. *)
Record Noise : Type := mkNoise {
  noise_x : R; noise_y : R; noise_z : R;
  noise_vx : R; noise_vy : R; noise_vz : R
}.

Definition no_noise : Noise := mkNoise 0 0 0 0 0 0.

(** The body of the loop of [_update_drones]. *)
Definition update_drone (current_time : R) (n : Noise) (drone : DroneState) : DroneState :=
  let drone := set_battery drone (Rmax 0 (battery drone - battery_drain_rate * dt)) in
  let drone :=
    match status drone with
    | TAKING_OFF => _update_takeoff drone current_time
    | FLYING => _update_flying drone current_time
    | LANDING => _update_landing drone current_time
    | _ => drone
    end in
  let drone := set_x drone (x drone + noise_x n) in
  let drone := set_y drone (y drone + noise_y n) in
  let drone := set_z drone (z drone + noise_z n) in
  let drone := set_vx drone (vx drone + noise_vx n) in
  let drone := set_vy drone (vy drone + noise_vy n) in
  let drone := set_vz drone (vz drone + noise_vz n) in
  let drone :=
    if Rleb (battery drone) 0 then set_status drone ERROR
    else if Rgtb (Rabs (x drone)) workspace_bounds
            || Rgtb (Rabs (y drone)) workspace_bounds
            || Rgtb (z drone) max_height
         then set_status drone ERROR
         else drone in
  set_last_update drone current_time.

(** [for drone in self.drones.values()]: the drone at place [k] of the
    iteration receives the samples [noise k]. *)
Fixpoint update_loop (current_time : R) (noise : nat -> Noise) (k : nat)
    (drones : registry) : registry :=
  match drones with
  | [] => []
  | (key, drone) :: rest =>
      (key, update_drone current_time (noise k) drone)
        :: update_loop current_time noise (S k) rest
  end.

Definition _update_drones (current_time : R) (noise : nat -> Noise)
    (drones : registry) : registry :=
  update_loop current_time noise 0 drones.

(** *** Commands *)

(** [f"d{i+1}"] *)
Definition string_of_nat (n : nat) : string := NilEmpty.string_of_uint (Nat.to_uint n).

Definition create_swarm (count : nat) (run_id : string) (drones : registry)
    : list string * registry :=
  fold_left (fun (st : list string * registry) (i : nat) =>
               let drone_id := ("d" ++ string_of_nat (i + 1))%string in
               let drone := new_drone drone_id in
               let drone := set_run_id drone run_id in
               (fst st ++ [drone_id], dict_set (snd st) drone_id drone))
            (seq 0 count) ([], drones).

(** [now] is the value [time.time()] returns. *)
Definition takeoff (drones : registry) (drone_id : string) (height duration : R) (now : R)
    : bool * registry :=
  match get drones drone_id with
  | None => (false, drones)
  | Some drone =>
      if negb (status_eqb (status drone) IDLE) then (false, drones)
      else
        (true, modify drones drone_id (fun drone =>
                 let drone := set_status drone TAKING_OFF in
                 let drone := set_takeoff_height drone height in
                 let drone := set_takeoff_duration drone duration in
                 set_takeoff_start drone now))
  end.

Definition goto (drones : registry) (drone_id : string) (gx gy gz : R) (speed : R)
    : bool * registry :=
  match get drones drone_id with
  | None => (false, drones)
  | Some drone =>
      if negb (status_eqb (status drone) FLYING || status_eqb (status drone) TAKING_OFF)
      then (false, drones)
      else
        (true, modify drones drone_id (fun drone =>
                 let drone := set_target_x drone gx in
                 let drone := set_target_y drone gy in
                 set_target_z drone gz))
  end.

Definition land (drones : registry) (drone_id : string) (now : R) : bool * registry :=
  match get drones drone_id with
  | None => (false, drones)
  | Some drone =>
      if negb (status_eqb (status drone) FLYING || status_eqb (status drone) TAKING_OFF)
      then (false, drones)
      else
        (true, modify drones drone_id (fun drone =>
                 let drone := set_status drone LANDING in
                 set_land_start drone now))
  end.

(** *** Formations *)

Definition Position : Type := (R * R * R)%type.

(** The [parameters] dictionary and its [get(key, default)]. *)
Definition Parameters : Type := list (string * R).

Fixpoint parameters_get (parameters : Parameters) (key : string) (default : R) : R :=
  match parameters with
  | [] => default
  | (k, v) :: rest => if String.eqb k key then v else parameters_get rest key default
  end.

(** [int(math.ceil(math.sqrt(count)))] *)
Definition ceil_sqrt (count : nat) : nat :=
  let s := Nat.sqrt count in
  if (s * s =? count)%nat then s else S s.

Definition _calculate_formation_positions (formation : string) (count : nat)
    (parameters : Parameters) : list Position :=
  if String.eqb formation "line" then
    let spacing := parameters_get parameters "spacing" (5 / 10) in
    map (fun i : nat =>
           let px := (INR i - (INR count - 1) / 2) * spacing in
           (px, 0, 6 / 10))
        (seq 0 count)
  else if String.eqb formation "circle" then
    let radius := parameters_get parameters "radius" 1 in
    let height := parameters_get parameters "height" (6 / 10) in
    map (fun i : nat =>
           let angle := 2 * PI * INR i / INR count in
           (radius * cos angle, radius * sin angle, height))
        (seq 0 count)
  else if String.eqb formation "grid" then
    let cols := ceil_sqrt count in
    let spacing := parameters_get parameters "spacing" (5 / 10) in
    let height := parameters_get parameters "height" (6 / 10) in
    map (fun i : nat =>
           let row := (i / cols)%nat in
           let col := (i mod cols)%nat in
           let px := (INR col - (INR cols - 1) / 2) * spacing in
           let py := (INR row - (INR (count / cols) - 1) / 2) * spacing in
           (px, py, height))
        (seq 0 count)
  else if String.eqb formation "vshape" then
    let spacing := parameters_get parameters "spacing" (5 / 10) in
    let height := parameters_get parameters "height" (6 / 10) in
    map (fun i : nat =>
           if (i =? 0)%nat then (0, 0, height)
           else
             let side := if (i mod 2 =? 1)%nat then 1 else -1 in
             let row := ((i + 1) / 2)%nat in
             (INR row * spacing, side * INR row * spacing * (5 / 10), height))
        (seq 0 count)
  else [].

(** [for i, drone in enumerate(flying_drones): if i < len(positions): ...]:
    the flying drones, in the order of the registry, take the positions in
    order until the positions run out. *)
Fixpoint assign_targets (positions : list Position) (drones : registry) : registry :=
  match drones with
  | [] => []
  | (k, drone) :: rest =>
      if status_eqb (status drone) FLYING then
        match positions with
        | p :: positions' =>
            let drone := set_target_x drone (fst (fst p)) in
            let drone := set_target_y drone (snd (fst p)) in
            let drone := set_target_z drone (snd p) in
            (k, drone) :: assign_targets positions' rest
        | [] => (k, drone) :: assign_targets [] rest
        end
      else (k, drone) :: assign_targets positions rest
  end.

Definition set_formation (drones : registry) (formation : string)
    (parameters : Parameters) : bool * registry :=
  let flying_drones :=
    filter (fun kd : string * DroneState => status_eqb (status (snd kd)) FLYING) drones in
  match flying_drones with
  | [] => (false, drones)
  | _ :: _ =>
      let positions :=
        _calculate_formation_positions formation (length flying_drones) parameters in
      (true, assign_targets positions drones)
  end.

Definition emergency_stop (drones : registry) : registry :=
  map (fun kd : string * DroneState =>
         let drone := snd kd in
         let drone := set_vx drone 0 in
         let drone := set_vy drone 0 in
         let drone := set_vz drone 0 in
         (fst kd, set_status drone IDLE))
      drones.

(** [self.drones.clear()] *)
Definition reset (drones : registry) : registry := [].

(** *** A run: ticks and commands interleaved *)

Inductive Operation : Type :=
| Tick (current_time : R) (noise : nat -> Noise)
| CreateSwarm (count : nat) (run_id : string)
| Takeoff (drone_id : string) (height duration now : R)
| Goto (drone_id : string) (gx gy gz speed : R)
| Land (drone_id : string) (now : R)
| SetFormation (formation : string) (parameters : Parameters)
| EmergencyStop
| Reset.

Definition apply_operation (drones : registry) (op : Operation) : registry :=
  match op with
  | Tick current_time noise => _update_drones current_time noise drones
  | CreateSwarm count run => snd (create_swarm count run drones)
  | Takeoff drone_id height duration now => snd (takeoff drones drone_id height duration now)
  | Goto drone_id gx gy gz speed => snd (goto drones drone_id gx gy gz speed)
  | Land drone_id now => snd (land drones drone_id now)
  | SetFormation formation parameters => snd (set_formation drones formation parameters)
  | EmergencyStop => emergency_stop drones
  | Reset => reset drones
  end.

Definition run (drones : registry) (ops : list Operation) : registry :=
  fold_left apply_operation ops drones.

(** Registries a session can be in: the empty one [__init__] makes, and
    whatever ticks and commands make of it. *)
Inductive reachable : registry -> Prop :=
| reachable_init : reachable []
| reachable_step : forall drones op,
    reachable drones -> reachable (apply_operation drones op).

End Simulator.

(** ** Vocabulary of the specification *)

Module PlannerSpec.
Import Planner.

(** The consecutive waypoint pairs of a path. *)
Fixpoint segments (path : list Point) : list (Point * Point) :=
  match path with
  | [] => []
  | a :: rest =>
      match rest with
      | [] => []
      | b :: _ => (a, b) :: segments rest
      end
  end.

(** Euclidean distance between two points. *)
Definition euclid (a b : Point) : R :=
  sqrt (sq (c0 a - c0 b) + sq (c1 a - c1 b) + sq (c2 a - c2 b)).

(** The sum of the Euclidean distances between consecutive waypoints. *)
Fixpoint sum_consecutive (path : list Point) : R :=
  match path with
  | [] => 0
  | a :: rest =>
      match rest with
      | [] => 0
      | b :: _ => euclid a b + sum_consecutive rest
      end
  end.

(** The point of the segment from [a] to [b] at the parameter [u] in [0,1]. *)
Definition point_on (a b : Point) (u : R) : Point :=
  (c0 a + u * (c0 b - c0 a), c1 a + u * (c1 b - c1 a), c2 a + u * (c2 b - c2 a)).

(** A segment keeps at least the safety radius from every obstacle. *)
Definition keeps_clearance (self : SimpleCollisionAvoidance) (obstacles : list Point)
    (seg : Point * Point) : Prop :=
  Forall (fun obstacle =>
            safety_radius self <= _point_to_line_distance (fst seg) (snd seg) obstacle)
         obstacles.

(** The specification's scenario: one obstacle in the middle of the way. *)
Definition scenario_start : Point := (0, 0, 5 / 10).
Definition scenario_goal : Point := (2, 0, 5 / 10).
Definition scenario_obstacles : list Point := [(1, 0, 5 / 10)].

End PlannerSpec.

Module SimulatorSpec.
Import Simulator.

(** The status of the drone registered under an identifier, if any. *)
Definition status_of (drones : registry) (drone_id : string) : option DroneStatus :=
  option_map status (get drones drone_id).

(** The battery of the drone registered under an identifier, if any. *)
Definition battery_of (drones : registry) (drone_id : string) : option R :=
  option_map battery (get drones drone_id).

(** The operations whose guards leave a drone in [ERROR] alone: the tick
    and the commands [takeoff], [goto], [land] and [set_formation]. *)
Definition respects_error (op : Operation) : bool :=
  match op with
  | Tick _ _ | Takeoff _ _ _ _ | Goto _ _ _ _ _ | Land _ _ | SetFormation _ _ => true
  | CreateSwarm _ _ | EmergencyStop | Reset => false
  end.

(** The operations that keep the drones of the registry: all but
    [create_swarm], which registers fresh drones under [d1], [d2], ..., and
    [reset]. *)
Definition keeps_drones (op : Operation) : bool :=
  match op with
  | CreateSwarm _ _ | Reset => false
  | _ => true
  end.

(** The bounds the tick checks after the noise. *)
Definition outside_checked_bounds (drone : DroneState) : Prop :=
  Rabs (x drone) > workspace_bounds \/
  Rabs (y drone) > workspace_bounds \/
  z drone > max_height.

(** The workspace invariant of the specification. *)
Definition within_workspace (drone : DroneState) : Prop :=
  Rabs (x drone) <= workspace_bounds /\
  Rabs (y drone) <= workspace_bounds /\
  0 <= z drone <= max_height.

(** Everything of a drone but its target. *)
Definition same_but_target (a b : DroneState) : Prop :=
  id a = id b /\ x a = x b /\ y a = y b /\ z a = z b /\
  vx a = vx b /\ vy a = vy b /\ vz a = vz b /\
  battery a = battery b /\ status a = status b /\
  takeoff_height a = takeoff_height b /\ takeoff_start a = takeoff_start b /\
  takeoff_duration a = takeoff_duration b /\ land_start a = land_start b /\
  last_update a = last_update b /\ run_id a = run_id b.

(** The phase-specific motion a tick selects by the status. *)
Definition phase_update (current_time : R) (drone : DroneState) : DroneState :=
  match status drone with
  | TAKING_OFF => _update_takeoff drone current_time
  | FLYING => _update_flying drone current_time
  | LANDING => _update_landing drone current_time
  | _ => drone
  end.

(** The six samples added to position and velocity. *)
Definition add_noise (n : Noise) (drone : DroneState) : DroneState :=
  let drone := set_x drone (x drone + noise_x n) in
  let drone := set_y drone (y drone + noise_y n) in
  let drone := set_z drone (z drone + noise_z n) in
  let drone := set_vx drone (vx drone + noise_vx n) in
  let drone := set_vy drone (vy drone + noise_vy n) in
  set_vz drone (vz drone + noise_vz n).

(** The error check that ends the loop body. *)
Definition check_errors (drone : DroneState) : DroneState :=
  if Rleb (battery drone) 0 then set_status drone ERROR
  else if Rgtb (Rabs (x drone)) workspace_bounds
          || Rgtb (Rabs (y drone)) workspace_bounds
          || Rgtb (z drone) max_height
       then set_status drone ERROR
       else drone.

(** The battery after one tick. *)
Definition drained (b : R) : R := Rmax 0 (b - battery_drain_rate * dt).

(** A drone that went out of bounds earlier in the run. *)
Definition errored_drone : DroneState := set_status (new_drone "d1") ERROR.

(** One centimetre of downward sensor noise on the first drone. *)
Definition noise_down (k : nat) : Noise := mkNoise 0 0 (- (1 / 100)) 0 0 0.

(** Three metres of noise along x. *)
Definition noise_far (k : nat) : Noise := mkNoise 3 0 0 0 0 0.

(** A drone halfway through a takeoff to 0.6 m in 2 s, started at time 10. *)
Definition climbing_drone : DroneState :=
  set_takeoff_start
    (set_takeoff_duration
       (set_takeoff_height (set_status (set_z (new_drone "d1") (3 / 10)) TAKING_OFF) (6 / 10))
       2)
    10.

(** A flying drone. *)
Definition flying_drone : DroneState := set_status (set_z (new_drone "d1") (6 / 10)) FLYING.

(** The parameters of a line one metre up. *)
Definition line_parameters : Parameters := [("spacing"%string, 5 / 10); ("height"%string, 1)].

End SimulatorSpec.

(** ** Further vocabulary: the planner *)

Module PlannerTerms.
Import Planner PlannerSpec.

(** [m <= d], where [m] may be infinite. *)
Definition xle (m : xfloat) (d : R) : Prop :=
  match m with
  | Fin r => r <= d
  | PInf => False
  end.

(** The distances [validate_path] looks at: every segment of the path
    against every obstacle, in the order of its two loops. *)
Definition pair_distances (path obstacles : list Point) : list R :=
  flat_map (fun seg : Point * Point =>
              map (fun obstacle => _point_to_line_distance (fst seg) (snd seg) obstacle)
                  obstacles)
           (segments path).

(** The parameter at which [_calculate_detour_midpoint] projects an
    obstacle on the line from [start] to [goal], before it is clamped. *)
Definition projection_parameter (start goal obstacle : Point) : R :=
  ((c0 obstacle - c0 start) * (c0 goal - c0 start) +
   (c1 obstacle - c1 start) * (c1 goal - c1 start) +
   (c2 obstacle - c2 start) * (c2 goal - c2 start)) /
  (sq (c0 goal - c0 start) + sq (c1 goal - c1 start) + sq (c2 goal - c2 start)).

End PlannerTerms.

(** ** Further vocabulary: the simulator *)

Module SimulatorTerms.
Import Simulator SimulatorSpec.

(** The identifier [create_swarm] gives its i-th drone (from 0): [f"d{i+1}"]. *)
Definition swarm_id (i : nat) : string := ("d" ++ string_of_nat (i + 1))%string.

(** The drone [create_swarm] registers under an identifier. *)
Definition fresh_drone (drone_id run : string) : DroneState :=
  set_run_id (new_drone drone_id) run.

(** The distance [_update_flying] measures to the target. *)
Definition distance_to_target (drone : DroneState) : R :=
  sqrt (sq (target_x drone - x drone) + sq (target_y drone - y drone)
        + sq (target_z drone - z drone)).

(** The target of a drone, as a position. *)
Definition target_of (drone : DroneState) : Position :=
  (target_x drone, target_y drone, target_z drone).

(** The entries [set_formation] selects. *)
Definition is_flying (kd : string * DroneState) : bool :=
  status_eqb (status (snd kd)) FLYING.

(** The pattern names [_calculate_formation_positions] knows. *)
Definition known_formation (formation : string) : bool :=
  String.eqb formation "line" || String.eqb formation "circle"
  || String.eqb formation "grid" || String.eqb formation "vshape".



End SimulatorTerms.

(** ** The HTTP layer ([backend/main.py])

    The handlers as functions of the global [simulator] ([None] before the
    startup event), of the credentials the bearer scheme extracted ([None]
    without an Authorization header) and of the fields of the request body.
    A handler's [Depends(verify_token)] runs before its body; what a handler
    raises is its reply, and the simulator is as the handler left it. *)

Module Api.
Import Planner Simulator.

(** The two environment settings the handlers read. *)
Record Config : Type := mkConfig {
  MAX_DRONES : Z;
  BEARER_TOKEN : string
}.

Inductive Reply (A : Type) : Type :=
| Returned (value : A)
| HTTPException (status_code : nat) (detail : string).

Arguments Returned {A} value.
Arguments HTTPException {A} status_code detail.

Definition verify_token (config : Config) (credentials : option string) : Reply string :=
  match credentials with
  | None => HTTPException 401 "Authorization header required"
  | Some token =>
      if negb (String.eqb token (BEARER_TOKEN config))
      then HTTPException 401 "Invalid token"
      else Returned token
  end.

(** [f"{MAX_DRONES}"] *)
Definition string_of_Z (n : Z) : string := NilEmpty.string_of_int (Z.to_int n).

Definition create_swarm (config : Config) (simulator : option registry)
    (credentials : option string) (count : Z) (run_id : string)
    : Reply (string * list string) * option registry :=
  match verify_token config credentials with
  | HTTPException code detail => (HTTPException code detail, simulator)
  | Returned _ =>
      if (count >? MAX_DRONES config)%Z then
        (HTTPException 400
           ("Maximum " ++ string_of_Z (MAX_DRONES config) ++ " drones allowed")%string,
         simulator)
      else
        match simulator with
        | None => (HTTPException 500 "Simulator not initialized", simulator)
        | Some drones =>
            let result := Simulator.create_swarm (Z.to_nat count) run_id drones in
            (Returned (run_id, fst result), Some (snd result))
        end
  end.

Definition takeoff (config : Config) (simulator : option registry)
    (credentials : option string) (drone_id : string) (height duration : R) (now : R)
    : Reply unit * option registry :=
  match verify_token config credentials with
  | HTTPException code detail => (HTTPException code detail, simulator)
  | Returned _ =>
      match simulator with
      | None => (HTTPException 500 "Simulator not initialized", simulator)
      | Some drones =>
          if Rgtb height 1 then (HTTPException 400 "Height must be <= 1.0m", simulator)
          else
            let result := Simulator.takeoff drones drone_id height duration now in
            if negb (fst result) then (HTTPException 400 "Takeoff failed", Some (snd result))
            else (Returned tt, Some (snd result))
      end
  end.

Definition goto (config : Config) (simulator : option registry)
    (credentials : option string) (drone_id : string) (gx gy gz speed : R)
    : Reply unit * option registry :=
  match verify_token config credentials with
  | HTTPException code detail => (HTTPException code detail, simulator)
  | Returned _ =>
      match simulator with
      | None => (HTTPException 500 "Simulator not initialized", simulator)
      | Some drones =>
          if Rgtb (Rabs gx) 1 || Rgtb (Rabs gy) 1 || Rgtb gz 1
          then (HTTPException 400 "Position out of bounds", simulator)
          else if Rgtb speed 1
          then (HTTPException 400 "Speed must be <= 1.0 m/s", simulator)
          else
            let result := Simulator.goto drones drone_id gx gy gz speed in
            if negb (fst result) then (HTTPException 400 "Goto failed", Some (snd result))
            else (Returned tt, Some (snd result))
      end
  end.

Definition land (config : Config) (simulator : option registry)
    (credentials : option string) (drone_id : string) (now : R)
    : Reply unit * option registry :=
  match verify_token config credentials with
  | HTTPException code detail => (HTTPException code detail, simulator)
  | Returned _ =>
      match simulator with
      | None => (HTTPException 500 "Simulator not initialized", simulator)
      | Some drones =>
          let result := Simulator.land drones drone_id now in
          if negb (fst result) then (HTTPException 400 "Land failed", Some (snd result))
          else (Returned tt, Some (snd result))
      end
  end.

Definition set_formation (config : Config) (simulator : option registry)
    (credentials : option string) (formation : string) (parameters : Parameters)
    : Reply unit * option registry :=
  match verify_token config credentials with
  | HTTPException code detail => (HTTPException code detail, simulator)
  | Returned _ =>
      match simulator with
      | None => (HTTPException 500 "Simulator not initialized", simulator)
      | Some drones =>
          let result := Simulator.set_formation drones formation parameters in
          if negb (fst result) then (HTTPException 400 "Formation failed", Some (snd result))
          else (Returned tt, Some (snd result))
      end
  end.

Definition emergency_stop (config : Config) (simulator : option registry)
    (credentials : option string) : Reply unit * option registry :=
  match verify_token config credentials with
  | HTTPException code detail => (HTTPException code detail, simulator)
  | Returned _ =>
      match simulator with
      | None => (HTTPException 500 "Simulator not initialized", simulator)
      | Some drones => (Returned tt, Some (Simulator.emergency_stop drones))
      end
  end.

Definition reset_simulation (config : Config) (simulator : option registry)
    (credentials : option string) : Reply unit * option registry :=
  match verify_token config credentials with
  | HTTPException code detail => (HTTPException code detail, simulator)
  | Returned _ =>
      match simulator with
      | None => (HTTPException 500 "Simulator not initialized", simulator)
      | Some drones => (Returned tt, Some (Simulator.reset drones))
      end
  end.

(** *** [validate_algorithm] *)

(** [planner = SimpleCollisionAvoidance()] *)
Definition planner : SimpleCollisionAvoidance := default_planner.

(** A test case: the keys ["start"] and ["goal"], and ["obstacles"] when
    it is there. *)
Record TestCase : Type := mkTestCase {
  start : Point;
  goal : Point;
  obstacles : option (list Point)
}.

Record CaseResult : Type := mkCaseResult {
  testCase : TestCase;
  path : list Point;
  planningTimeMs : R;
  pathLengthM : R;
  success : bool
}.

(** The length the handler computes for a path; [v ** 0.5] is [sqrt v]. *)
Definition handler_path_length (path : list Point) : R :=
  if (1 <? length path)%nat then
    fold_left (fun path_length i =>
                 let dx := c0 (item path i) - c0 (item path (i - 1)) in
                 let dy := c1 (item path i) - c1 (item path (i - 1)) in
                 let dz := c2 (item path i) - c2 (item path (i - 1)) in
                 path_length + sqrt (sq dx + sq dy + sq dz))
              (seq 1 (length path - 1)) 0
  else 0.

(** [test_case.get("obstacles", [])] *)
Definition get_obstacles (test_case : TestCase) : list Point :=
  match obstacles test_case with
  | Some l => l
  | None => []
  end.

(** The loop over the test cases; [clock k] is the pair of times read
    around the planning of the k-th case, and [None] is the planner not
    coming back within the recursion depth [fuel]. *)
Fixpoint validate_cases (fuel : nat) (clock : nat -> R * R) (k : nat)
    (testCases : list TestCase) : option (list CaseResult) :=
  match testCases with
  | [] => Some []
  | test_case :: rest =>
      let obstacles := get_obstacles test_case in
      let start_time := fst (clock k) in
      match plan_path fuel planner (start test_case) (goal test_case) obstacles with
      | None => None
      | Some path =>
          let planning_time := (snd (clock k) - start_time) * 1000 in
          let path_length := handler_path_length path in
          match validate_cases fuel clock (S k) rest with
          | None => None
          | Some results =>
              Some (mkCaseResult test_case path planning_time path_length
                                 (0 <? length path)%nat :: results)
          end
      end
  end.

Definition validate_algorithm (fuel : nat) (config : Config) (credentials : option string)
    (algorithm : string) (testCases : list TestCase) (clock : nat -> R * R)
    : option (Reply (list CaseResult)) :=
  match verify_token config credentials with
  | HTTPException code detail => Some (HTTPException code detail)
  | Returned _ =>
      if negb (String.eqb algorithm "simple_collision_avoidance")
      then Some (HTTPException 400 "Unknown algorithm")
      else
        match validate_cases fuel clock 0 testCases with
        | None => None
        | Some results => Some (Returned results)
        end
  end.

End Api.

(** ** Comparisons *)

Lemma Rltb_true (a b : R) : Rltb a b = true <-> a < b.
Proof. unfold Rltb. destruct (Rlt_dec a b); split; intros; try easy. Qed.

Lemma Rltb_false (a b : R) : Rltb a b = false <-> b <= a.
Proof. unfold Rltb. destruct (Rlt_dec a b); split; intros; try easy; lra. Qed.

Lemma Rleb_true (a b : R) : Rleb a b = true <-> a <= b.
Proof. unfold Rleb. destruct (Rle_dec a b); split; intros; try easy. Qed.

Lemma Rleb_false (a b : R) : Rleb a b = false <-> b < a.
Proof. unfold Rleb. destruct (Rle_dec a b); split; intros; try easy; lra. Qed.

Lemma Reqb_true (a b : R) : Reqb a b = true <-> a = b.
Proof. unfold Reqb. destruct (Req_dec_T a b); split; intros; try easy. Qed.

Lemma Reqb_false (a b : R) : Reqb a b = false <-> a <> b.
Proof. unfold Reqb. destruct (Req_dec_T a b); split; intros; try easy. Qed.

Lemma xgeb_xmin (acc : xfloat) (d r : R) :
  xgeb acc r = true -> r <= d -> xgeb (xmin acc (Fin d)) r = true.
Proof.
  intros Hacc Hd. unfold xmin.
  destruct (xltb (Fin d) acc); [ simpl; now apply Rleb_true | exact Hacc ].
Qed.

(** ** The path planner: properties *)

Module PlannerProofs.
Import Planner PlannerSpec.

Lemma point_eta (p : Point) : (c0 p, c1 p, c2 p) = p.
Proof. destruct p as [[a b] c]. reflexivity. Qed.

Lemma is_path_clear_spec self start goal obstacles :
  _is_path_clear self start goal obstacles = true <->
  keeps_clearance self obstacles (start, goal).
Proof.
  unfold keeps_clearance. simpl.
  induction obstacles as [| o rest IH]; simpl.
  - split; [ constructor | reflexivity ].
  - destruct (Rltb (_point_to_line_distance start goal o) (safety_radius self)) eqn:E.
    + split; [ discriminate | ].
      intros H. inversion H as [| ? ? Ho _]; subst.
      apply Rltb_true in E. lra.
    + apply Rltb_false in E. rewrite IH.
      split; [ intros H; now constructor | intros H; now inversion H ].
Qed.

(** *** Index loops over a path are loops over its segments *)

Lemma fold_left_map_seq {A B : Type} (f : A -> B -> A) (g : nat -> B) (l : list nat) (a : A) :
  fold_left (fun acc i => f acc (g i)) l a = fold_left f (map g l) a.
Proof. revert a. induction l as [| i l IH]; intros a; simpl; [ reflexivity | apply IH ]. Qed.

Lemma segments_by_index (path : list Point) :
  map (fun i => (item path i, item path (i + 1))) (seq 0 (length path - 1)) = segments path.
Proof.
  induction path as [| a rest IH]; [ reflexivity | ].
  destruct rest as [| b rest']; [ reflexivity | ].
  replace (length (a :: b :: rest') - 1)%nat with (S (length (b :: rest') - 1))
    by (simpl; lia).
  change (segments (a :: b :: rest')) with ((a, b) :: segments (b :: rest')).
  cbn [seq map]. f_equal.
  rewrite <- seq_shift, map_map, <- IH.
  apply map_ext. intros i. reflexivity.
Qed.

Lemma fold_left_plus_acc {A : Type} (f : A -> R) (l : list A) (acc : R) :
  fold_left (fun s a => s + f a) l acc = acc + fold_left (fun s a => s + f a) l 0.
Proof.
  revert acc. induction l as [| a l IH]; intros acc; simpl; [ lra | ].
  rewrite IH, (IH (0 + f a)). lra.
Qed.

Lemma sum_by_segments (path : list Point) :
  fold_left (fun s seg => s + euclid (fst seg) (snd seg)) (segments path) 0
  = sum_consecutive path.
Proof.
  induction path as [| a rest IH]; [ reflexivity | ].
  destruct rest as [| b rest']; [ reflexivity | ].
  change (segments (a :: b :: rest')) with ((a, b) :: segments (b :: rest')).
  change (sum_consecutive (a :: b :: rest'))
    with (euclid a b + sum_consecutive (b :: rest')).
  cbn [fold_left fst snd].
  rewrite fold_left_plus_acc, IH. lra.
Qed.

Lemma sq_minus_sym (a b : R) : sq (a - b) = sq (b - a).
Proof. unfold sq. lra. Qed.

Lemma length_loop_by_segments (path : list Point) :
  fold_left (fun path_length i =>
               let dx := c0 (item path i) - c0 (item path (i - 1)) in
               let dy := c1 (item path i) - c1 (item path (i - 1)) in
               let dz := c2 (item path i) - c2 (item path (i - 1)) in
               path_length + sqrt (sq dx + sq dy + sq dz))
            (seq 1 (length path - 1)) 0
  = sum_consecutive path.
Proof.
  rewrite <- sum_by_segments, <- segments_by_index.
  rewrite <- seq_shift.
  rewrite <- (fold_left_map_seq (fun s seg => s + euclid (fst seg) (snd seg))).
  rewrite <- (fold_left_map_seq
                (fun s i => s + sqrt (sq (c0 (item path i) - c0 (item path (i - 1))) +
                                      sq (c1 (item path i) - c1 (item path (i - 1))) +
                                      sq (c2 (item path i) - c2 (item path (i - 1))))) S).
  generalize (seq 0 (length path - 1)) (0 : R).
  intros l. induction l as [| i l IH]; intros acc; [ reflexivity | ].
  cbn [fold_left]. rewrite <- IH. f_equal. f_equal.
  cbn [fst snd]. unfold euclid.
  replace (S i - 1)%nat with i by lia. replace (i + 1)%nat with (S i) by lia.
  now rewrite (sq_minus_sym (c0 (item path i))), (sq_minus_sym (c1 (item path i))),
    (sq_minus_sym (c2 (item path i))).
Qed.

Lemma separation_loop_by_segments (path obstacles : list Point) :
  fold_left (fun min_separation i =>
               fold_left (fun min_separation obstacle =>
                            let distance :=
                              _point_to_line_distance (item path i) (item path (i + 1))
                                                      obstacle in
                            xmin min_separation (Fin distance))
                         obstacles min_separation)
            (seq 0 (length path - 1)) PInf
  = fold_left (fun min_separation seg =>
                 fold_left (fun min_separation obstacle =>
                              xmin min_separation
                                   (Fin (_point_to_line_distance (fst seg) (snd seg) obstacle)))
                           obstacles min_separation)
              (segments path) PInf.
Proof.
  rewrite <- segments_by_index.
  now rewrite <- (fold_left_map_seq
                    (fun min_separation seg =>
                       fold_left (fun min_separation obstacle =>
                                    xmin min_separation
                                         (Fin (_point_to_line_distance (fst seg) (snd seg)
                                                                       obstacle)))
                                 obstacles min_separation)).
Qed.

Lemma separation_of_clear_segment self obstacles seg :
  keeps_clearance self obstacles seg ->
  forall acc, xgeb acc (safety_radius self) = true ->
  xgeb (fold_left (fun min_separation obstacle =>
                     xmin min_separation
                          (Fin (_point_to_line_distance (fst seg) (snd seg) obstacle)))
                  obstacles acc) (safety_radius self) = true.
Proof.
  unfold keeps_clearance.
  induction 1 as [| o os Ho _ IH]; intros acc Hacc; [ exact Hacc | ].
  cbn [fold_left]. apply IH. now apply xgeb_xmin.
Qed.

Lemma separation_of_clear_segments self obstacles segs :
  Forall (keeps_clearance self obstacles) segs ->
  forall acc, xgeb acc (safety_radius self) = true ->
  xgeb (fold_left (fun min_separation seg =>
                     fold_left (fun min_separation obstacle =>
                                  xmin min_separation
                                       (Fin (_point_to_line_distance (fst seg) (snd seg)
                                                                     obstacle)))
                               obstacles min_separation)
                  segs acc) (safety_radius self) = true.
Proof.
  induction 1 as [| seg segs Hseg _ IH]; intros acc Hacc; [ exact Hacc | ].
  cbn [fold_left]. apply IH. now apply separation_of_clear_segment.
Qed.

(** *** The distance the planner computes is the distance to the segment *)

Lemma sum_squares_zero (a b c : R) : sq a + sq b + sq c = 0 -> a = 0 /\ b = 0 /\ c = 0.
Proof. unfold sq. intros H. repeat split; nra. Qed.

(** The computed distance is that to a point of the segment. *)
Lemma distance_attained (line_start line_end point : Point) :
  exists t, 0 <= t <= 1 /\
    _point_to_line_distance line_start line_end point
    = euclid point (point_on line_start line_end t).
Proof.
  unfold _point_to_line_distance. cbn [c0 c1 c2 fst snd].
  destruct (Reqb _ 0).
  - exists 0. split; [ lra | ].
    unfold euclid, point_on. cbn [c0 c1 c2 fst snd]. f_equal. unfold sq. ring.
  - eexists. split; [ | reflexivity ].
    split; [ apply Rmax_l | ].
    apply Rmax_lub; [ lra | apply Rmin_l ].
Qed.

(** No point of the segment is closer than the computed distance. *)
Lemma distance_minimal (line_start line_end point : Point) (u : R) :
  0 <= u <= 1 ->
  _point_to_line_distance line_start line_end point
  <= euclid point (point_on line_start line_end u).
Proof.
  intros Hu. unfold _point_to_line_distance, euclid, point_on. cbn [c0 c1 c2 fst snd].
  set (v0 := c0 line_end - c0 line_start).
  set (v1 := c1 line_end - c1 line_start).
  set (v2 := c2 line_end - c2 line_start).
  set (w0 := c0 point - c0 line_start).
  set (w1 := c1 point - c1 line_start).
  set (w2 := c2 point - c2 line_start).
  set (L := sq v0 + sq v1 + sq v2).
  destruct (Reqb L 0) eqn:E.
  - apply Reqb_true in E. apply sum_squares_zero in E. destruct E as (E0 & E1 & E2).
    rewrite E0, E1, E2. apply Req_le. f_equal. unfold w0, w1, w2, sq. ring.
  - apply Reqb_false in E.
    assert (HL : 0 < L).
    { assert (0 <= L) by (unfold L, sq; nra). lra. }
    set (q := (w0 * v0 + w1 * v1 + w2 * v2) / L).
    assert (Hq : w0 * v0 + w1 * v1 + w2 * v2 = q * L) by (unfold q; field; lra).
    set (t := Rmax 0 (Rmin 1 q)).
    apply sqrt_le_1_alt.
    assert (Hdiff :
              sq (c0 point - (c0 line_start + u * v0)) +
              sq (c1 point - (c1 line_start + u * v1)) +
              sq (c2 point - (c2 line_start + u * v2)) -
              (sq (c0 point - (c0 line_start + t * v0)) +
               sq (c1 point - (c1 line_start + t * v1)) +
               sq (c2 point - (c2 line_start + t * v2)))
              = L * ((u - t) * (u + t - 2 * q))).
    { transitivity (- 2 * (u - t) * (w0 * v0 + w1 * v1 + w2 * v2) + (u * u - t * t) * L).
      - unfold L, w0, w1, w2, sq. ring.
      - rewrite Hq. ring. }
    assert (Hprod : 0 <= (u - t) * (u + t - 2 * q)).
    { unfold t, Rmax, Rmin.
      destruct (Rle_dec 1 q) as [Hq1 | Hq1]; destruct (Rle_dec 0 _) as [Hq0 | Hq0];
        try lra.
      - replace ((u - 1) * (u + 1 - 2 * q)) with ((1 - u) * (2 * q - 1 - u)) by ring.
        apply Rmult_le_pos; lra.
      - replace ((u - q) * (u + q - 2 * q)) with ((u - q) * (u - q)) by ring.
        apply Rle_0_sqr.
      - apply Rmult_le_pos; lra. }
    assert (0 <= L * ((u - t) * (u + t - 2 * q))) by (apply Rmult_le_pos; lra).
    lra.
Qed.

(** *** The detour search *)

Lemma segments_app (l1 l2 : list Point) (x : Point) :
  segments (l1 ++ x :: l2) = segments (l1 ++ [x]) ++ segments (x :: l2).
Proof.
  induction l1 as [| a l1 IH]; [ reflexivity | ].
  destruct l1 as [| b l1'].
  - reflexivity.
  - change (segments ((a :: b :: l1') ++ x :: l2))
      with ((a, b) :: segments ((b :: l1') ++ x :: l2)).
    change (segments ((a :: b :: l1') ++ [x]))
      with ((a, b) :: segments ((b :: l1') ++ [x])).
    now rewrite IH.
Qed.

Lemma closest_loop_some start goal obstacles o m :
  exists o' m', closest_loop start goal obstacles (Some o, m) = (Some o', m').
Proof.
  revert o m. induction obstacles as [| ob rest IH]; intros o m; cbn [closest_loop snd].
  - now exists o, m.
  - destruct (xltb (Fin (_point_to_line_distance start goal ob)) m); apply IH.
Qed.

(** The search finds no closest obstacle only when there is no obstacle. *)
Lemma closest_loop_none start goal obstacles :
  fst (closest_loop start goal obstacles (None, PInf)) = None -> obstacles = [].
Proof.
  destruct obstacles as [| ob rest]; [ reflexivity | ].
  cbn [closest_loop snd xltb].
  destruct (closest_loop_some start goal rest ob
              (Fin (_point_to_line_distance start goal ob))) as (o' & m' & E).
  rewrite E. discriminate.
Qed.

(** A path the search returns leads from [start] to [goal], and every one
    of its segments passed [_is_path_clear]. *)
Lemma find_detour_path_sound fuel self obstacles :
  forall start goal path,
  _find_detour_path fuel self start goal obstacles = Some path ->
  (exists middle, path = start :: middle ++ [goal]) /\
  Forall (keeps_clearance self obstacles) (segments path).
Proof.
  induction fuel as [| fuel IH]; intros start goal path; [ discriminate | ].
  cbn [_find_detour_path].
  destruct (fst (closest_loop start goal obstacles (None, PInf))) as [closest |] eqn:Ec.
  2:{ intros [= <-]. apply closest_loop_none in Ec. subst obstacles. split.
      - now exists [].
      - repeat constructor. }
  set (midpoint := _calculate_detour_midpoint self start goal closest).
  cbv zeta.
  destruct (_is_path_clear self start midpoint obstacles) eqn:E1;
    destruct (_is_path_clear self midpoint goal obstacles) eqn:E2; cbn [andb negb].
  - intros [= <-]. split; [ now exists [midpoint] | ].
    cbn [segments]. repeat constructor; now apply is_path_clear_spec.
  - destruct (_find_detour_path fuel self midpoint goal obstacles) as [detour2 |] eqn:D2;
      [ | discriminate ].
    intros [= <-]. apply IH in D2. destruct D2 as [[m2 ->] C2].
    split; [ now exists (midpoint :: m2) | ].
    cbn [removelast app]. 
    change (start :: midpoint :: m2 ++ [goal])
      with ([start] ++ midpoint :: m2 ++ [goal]).
    rewrite segments_app. apply Forall_app. split; [ | exact C2 ].
    cbn [segments app]. repeat constructor. now apply is_path_clear_spec.
  - destruct (_find_detour_path fuel self start midpoint obstacles) as [detour1 |] eqn:D1;
      [ | discriminate ].
    intros [= <-]. apply IH in D1. destruct D1 as [[m1 ->] C1].
    rewrite app_comm_cons, removelast_last.
    split; [ exists (m1 ++ [midpoint]); now rewrite <- app_assoc | ].
    change ([midpoint; goal]) with (midpoint :: [goal]).
    rewrite segments_app. apply Forall_app. split; [ exact C1 | ].
    cbn [segments]. repeat constructor. now apply is_path_clear_spec.
  - destruct (_find_detour_path fuel self start midpoint obstacles) as [detour1 |] eqn:D1;
      [ | discriminate ].
    destruct (_find_detour_path fuel self midpoint goal obstacles) as [detour2 |] eqn:D2;
      [ | discriminate ].
    intros [= <-]. apply IH in D1, D2.
    destruct D1 as [[m1 ->] C1]. destruct D2 as [[m2 ->] C2].
    rewrite app_comm_cons, removelast_last.
    split.
    + exists (m1 ++ midpoint :: m2). cbn [app]. now rewrite <- app_assoc.
    + rewrite segments_app. apply Forall_app. now split.
Qed.

Lemma plan_path_sound fuel self start goal obstacles path :
  plan_path fuel self start goal obstacles = Some path ->
  (exists middle, path = start :: middle ++ [goal]) /\
  Forall (keeps_clearance self obstacles) (segments path).
Proof.
  unfold plan_path. rewrite !point_eta.
  destruct (_is_path_clear self start goal obstacles) eqn:E.
  - intros [= <-]. split; [ now exists [] | ].
    cbn [segments]. repeat constructor. now apply is_path_clear_spec.
  - apply find_detour_path_sound.
Qed.

(** A result does not depend on the depth that was available. *)
Lemma find_detour_path_more_fuel fuel self obstacles :
  forall start goal path,
  _find_detour_path fuel self start goal obstacles = Some path ->
  forall fuel', (fuel <= fuel')%nat ->
  _find_detour_path fuel' self start goal obstacles = Some path.
Proof.
  induction fuel as [| fuel IH]; intros start goal path H fuel' Hle; [ discriminate | ].
  destruct fuel' as [| fuel']; [ lia | ].
  assert (Hle' : (fuel <= fuel')%nat) by lia.
  cbn [_find_detour_path] in *.
  destruct (fst (closest_loop start goal obstacles (None, PInf))) as [closest |];
    [ | exact H ].
  cbv zeta in *.
  destruct (_is_path_clear self start _ obstacles);
    destruct (_is_path_clear self _ goal obstacles); cbn [andb negb] in *.
  - exact H.
  - destruct (_find_detour_path fuel self _ goal obstacles) as [d2 |] eqn:D2;
      [ | discriminate ].
    now rewrite (IH _ _ _ D2 fuel' Hle').
  - destruct (_find_detour_path fuel self start _ obstacles) as [d1 |] eqn:D1;
      [ | discriminate ].
    now rewrite (IH _ _ _ D1 fuel' Hle').
  - destruct (_find_detour_path fuel self start _ obstacles) as [d1 |] eqn:D1;
      [ | discriminate ].
    destruct (_find_detour_path fuel self _ goal obstacles) as [d2 |] eqn:D2;
      [ | discriminate ].
    now rewrite (IH _ _ _ D1 fuel' Hle'), (IH _ _ _ D2 fuel' Hle').
Qed.

(** C1.  Whenever [plan_path] returns a path (the detour search came back
    within the depth [fuel]), [validate_path] reports
    [minSeparation >= safety_radius] for it, the report is valid, and every
    waypoint-to-waypoint segment of the path keeps at least the safety
    radius from every obstacle of the list: in the planner's measure, and
    so at each of its points. *)
Theorem planned_path_min_separation :
  forall fuel self start goal obstacles path,
  plan_path fuel self start goal obstacles = Some path ->
  xgeb (minSeparation (validate_path self path obstacles)) (safety_radius self) = true /\
  valid (validate_path self path obstacles) = true /\
  Forall (keeps_clearance self obstacles) (segments path) /\
  forall a b obstacle u,
    In (a, b) (segments path) -> In obstacle obstacles -> 0 <= u <= 1 ->
    safety_radius self <= euclid obstacle (point_on a b u).
Proof.
  intros fuel self start goal obstacles path H.
  apply plan_path_sound in H. destruct H as [[middle ->] H].
  assert (L : (length (start :: middle ++ [goal]) <? 2)%nat = false).
  { apply Nat.ltb_ge. cbn [length]. rewrite length_app. simpl. lia. }
  assert (G : xgeb (minSeparation (validate_path self (start :: middle ++ [goal]) obstacles))
                   (safety_radius self) = true).
  { unfold validate_path. rewrite L.
    cbn [minSeparation]. rewrite separation_loop_by_segments.
    now apply separation_of_clear_segments. }
  split; [ exact G | split; [ | split; [ exact H | ] ] ].
  - revert G. unfold validate_path. rewrite L. now cbn [minSeparation valid].
  - intros a b obstacle u Hseg Hobs Hu.
    rewrite Forall_forall in H. specialize (H (a, b) Hseg).
    unfold keeps_clearance in H. rewrite Forall_forall in H.
    specialize (H obstacle Hobs). cbn [fst snd] in H.
    eapply Rle_trans; [ exact H | now apply distance_minimal ].
Qed.

(** *** The scenario of the specification, evaluated *)

Lemma sqrt_lower (r v : R) : 0 <= r -> r * r <= v -> r <= sqrt v.
Proof.
  intros Hr Hv. rewrite <- (sqrt_square r) by exact Hr. now apply sqrt_le_1_alt.
Qed.

Lemma scenario_direct_distance :
  _point_to_line_distance scenario_start scenario_goal (1, 0, 5 / 10) = 0.
Proof.
  unfold _point_to_line_distance, scenario_start, scenario_goal. cbn [c0 c1 c2 fst snd].
  replace (Reqb _ 0) with false by (symmetry; apply Reqb_false; unfold sq; lra).
  replace (((1 - 0) * (2 - 0) + (0 - 0) * (0 - 0) + (5 / 10 - 5 / 10) * (5 / 10 - 5 / 10)) /
           (sq (2 - 0) + sq (0 - 0) + sq (5 / 10 - 5 / 10)))
    with (1 / 2) by (unfold sq; field).
  rewrite Rmin_right, Rmax_right by lra.
  replace (sq _ + sq _ + sq _) with 0 by (unfold sq; lra).
  apply sqrt_0.
Qed.

Lemma scenario_midpoint :
  _calculate_detour_midpoint default_planner scenario_start scenario_goal (1, 0, 5 / 10)
  = (1, 0, 95 / 100).
Proof.
  unfold _calculate_detour_midpoint, scenario_start, scenario_goal, default_planner.
  cbn [c0 c1 c2 fst snd safety_radius].
  replace (Reqb (sq (2 - 0) + sq (0 - 0) + sq (5 / 10 - 5 / 10)) 0) with false
    by (symmetry; apply Reqb_false; unfold sq; lra).
  replace (((1 - 0) * (2 - 0) + (0 - 0) * (0 - 0) + (5 / 10 - 5 / 10) * (5 / 10 - 5 / 10)) /
           (sq (2 - 0) + sq (0 - 0) + sq (5 / 10 - 5 / 10)))
    with (1 / 2) by (unfold sq; field).
  rewrite Rmin_right, Rmax_right by lra.
  unfold _cross_product. cbn [c0 c1 c2 fst snd].
  replace (sq _ + sq _ + sq _) with 0 by (unfold sq; lra).
  rewrite sqrt_0.
  replace (Reqb 0 0) with true by (symmetry; now apply Reqb_true).
  replace (Reqb (5 / 10 - 5 / 10) 0) with true by (symmetry; apply Reqb_true; lra).
  cbn [c0 c1 c2 fst snd].
  f_equal; [ f_equal | ]; lra.
Qed.

Lemma scenario_first_leg :
  3 / 10 <= _point_to_line_distance scenario_start (1, 0, 95 / 100) (1, 0, 5 / 10).
Proof.
  unfold _point_to_line_distance, scenario_start. cbn [c0 c1 c2 fst snd].
  replace (Reqb _ 0) with false by (symmetry; apply Reqb_false; unfold sq; lra).
  replace (((1 - 0) * (1 - 0) + (0 - 0) * (0 - 0) +
            (5 / 10 - 5 / 10) * (95 / 100 - 5 / 10)) /
           (sq (1 - 0) + sq (0 - 0) + sq (95 / 100 - 5 / 10)))
    with (400 / 481) by (unfold sq; field).
  rewrite Rmin_right, Rmax_right by lra.
  apply sqrt_lower; unfold sq; lra.
Qed.

Lemma scenario_second_leg :
  3 / 10 <= _point_to_line_distance (1, 0, 95 / 100) scenario_goal (1, 0, 5 / 10).
Proof.
  unfold _point_to_line_distance, scenario_goal. cbn [c0 c1 c2 fst snd].
  replace (Reqb _ 0) with false by (symmetry; apply Reqb_false; unfold sq; lra).
  replace (((1 - 1) * (2 - 1) + (0 - 0) * (0 - 0) +
            (5 / 10 - 95 / 100) * (5 / 10 - 95 / 100)) /
           (sq (2 - 1) + sq (0 - 0) + sq (5 / 10 - 95 / 100)))
    with (81 / 481) by (unfold sq; field).
  rewrite Rmin_right, Rmax_right by lra.
  apply sqrt_lower; unfold sq; lra.
Qed.

(** The scenario of the specification: the planner answers with three
    waypoints, the middle one [1.5 * safety_radius] above the obstacle, after
    one level of the detour search. *)
Lemma scenario_plan :
  plan_path 1 default_planner scenario_start scenario_goal scenario_obstacles
  = Some [scenario_start; (1, 0, 95 / 100); scenario_goal].
Proof.
  unfold plan_path. rewrite !point_eta.
  unfold scenario_obstacles at 1. cbn [_is_path_clear].
  rewrite scenario_direct_distance.
  replace (Rltb 0 (safety_radius default_planner)) with true
    by (symmetry; apply Rltb_true; simpl; lra).
  unfold scenario_obstacles. cbn [_find_detour_path closest_loop fst snd xltb].
  rewrite scenario_midpoint. cbn [_is_path_clear].
  replace (Rltb (_point_to_line_distance scenario_start (1, 0, 95 / 100) (1, 0, 5 / 10))
                (safety_radius default_planner)) with false
    by (symmetry; apply Rltb_false, scenario_first_leg).
  replace (Rltb (_point_to_line_distance (1, 0, 95 / 100) scenario_goal (1, 0, 5 / 10))
                (safety_radius default_planner)) with false
    by (symmetry; apply Rltb_false, scenario_second_leg).
  reflexivity.
Qed.

(** The planner applied to the scenario and validated: an instance of C1 on
    which the detour search does run. *)
Lemma planned_path_min_separation_witness :
  plan_path 1 default_planner scenario_start scenario_goal scenario_obstacles
  = Some [scenario_start; (1, 0, 95 / 100); scenario_goal] /\
  xgeb (minSeparation (validate_path default_planner
                         [scenario_start; (1, 0, 95 / 100); scenario_goal]
                         scenario_obstacles))
       (safety_radius default_planner) = true.
Proof.
  split; [ exact scenario_plan | ].
  exact (proj1 (planned_path_min_separation 1 default_planner scenario_start scenario_goal
                  scenario_obstacles _ scenario_plan)).
Defined.

(** The search need not come back: with start and goal at one point and an
    obstacle on it, the detour point is the start again, and every depth is
    exhausted. *)
Lemma detour_search_exhausted :
  forall fuel, plan_path fuel default_planner (0, 0, 0) (0, 0, 0) [(0, 0, 0)] = None.
Proof.
  assert (D : _point_to_line_distance (0, 0, 0) (0, 0, 0) (0, 0, 0) = 0).
  { unfold _point_to_line_distance. cbn [c0 c1 c2 fst snd].
    replace (Reqb _ 0) with true by (symmetry; apply Reqb_true; unfold sq; lra).
    replace (sq _ + sq _ + sq _) with 0 by (unfold sq; lra). apply sqrt_0. }
  assert (M : _calculate_detour_midpoint default_planner (0, 0, 0) (0, 0, 0) (0, 0, 0)
              = (0, 0, 0)).
  { unfold _calculate_detour_midpoint. cbn [c0 c1 c2 fst snd].
    now replace (Reqb _ 0) with true by (symmetry; apply Reqb_true; unfold sq; lra). }
  assert (C : _is_path_clear default_planner (0, 0, 0) (0, 0, 0) [(0, 0, 0)] = false).
  { cbn [_is_path_clear]. rewrite D.
    now replace (Rltb 0 (safety_radius default_planner)) with true
      by (symmetry; apply Rltb_true; simpl; lra). }
  intros fuel. unfold plan_path. cbn [c0 c1 c2 fst snd]. rewrite C.
  induction fuel as [| fuel IH]; [ reflexivity | ].
  cbn [_find_detour_path closest_loop fst snd xltb].
  rewrite M, C. cbn [andb negb]. now rewrite IH.
Qed.

(** *** The direct path *)

(** C4.  When every obstacle is at least the safety radius away from the
    segment from start to goal (the distance being the one the planner
    computes: to the projection on the segment, its parameter clamped to
    [0,1]), [plan_path] returns the two-point path [start, goal], whatever
    the recursion depth available. *)
Theorem plan_path_direct :
  forall fuel self start goal obstacles,
  Forall (fun obstacle =>
            ~ _point_to_line_distance start goal obstacle < safety_radius self) obstacles ->
  plan_path fuel self start goal obstacles = Some [start; goal].
Proof.
  intros fuel self start goal obstacles H.
  unfold plan_path. rewrite !point_eta.
  replace (_is_path_clear self start goal obstacles) with true; [ reflexivity | ].
  symmetry. apply is_path_clear_spec. unfold keeps_clearance. cbn [fst snd].
  induction H as [| o os Ho _ IH]; constructor; [ lra | exact IH ].
Qed.

Lemma scenario_far_obstacle :
  _point_to_line_distance scenario_start scenario_goal (1, 1, 5 / 10) = 1.
Proof.
  unfold _point_to_line_distance, scenario_start, scenario_goal. cbn [c0 c1 c2 fst snd].
  replace (Reqb _ 0) with false by (symmetry; apply Reqb_false; unfold sq; lra).
  replace (((1 - 0) * (2 - 0) + (1 - 0) * (0 - 0) + (5 / 10 - 5 / 10) * (5 / 10 - 5 / 10)) /
           (sq (2 - 0) + sq (0 - 0) + sq (5 / 10 - 5 / 10)))
    with (1 / 2) by (unfold sq; field).
  rewrite Rmin_right, Rmax_right by lra.
  replace (sq _ + sq _ + sq _) with (1 * 1) by (unfold sq; lra).
  apply sqrt_square. lra.
Qed.

(** C4 at the scenario's end points with the obstacle one metre aside. *)
Lemma plan_path_direct_witness :
  plan_path 0 default_planner scenario_start scenario_goal [(1, 1, 5 / 10)]
  = Some [scenario_start; scenario_goal].
Proof.
  apply plan_path_direct.
  constructor; [ | constructor ].
  rewrite scenario_far_obstacle. simpl. lra.
Defined.

(** *** Validation without obstacles *)

Lemma separation_loop_no_obstacles (l : list nat) (path : list Point) :
  fold_left (fun min_separation i =>
               fold_left (fun min_separation obstacle =>
                            let distance :=
                              _point_to_line_distance (item path i) (item path (i + 1))
                                                      obstacle in
                            xmin min_separation (Fin distance))
                         [] min_separation)
            l PInf = PInf.
Proof. induction l as [| i l IH]; [ reflexivity | exact IH ]. Qed.

(** C10.  For a path of at least two waypoints and no obstacle,
    [validate_path] reports [valid] and [success] true, [minSeparation]
    infinite, [waypoints] the number of waypoints, and [pathLength] the sum
    of the Euclidean distances between consecutive waypoints. *)
Theorem validate_path_no_obstacles :
  forall self path,
  (2 <= length path)%nat ->
  valid (validate_path self path []) = true /\
  success (validate_path self path []) = true /\
  minSeparation (validate_path self path []) = PInf /\
  waypoints (validate_path self path []) = Some (length path) /\
  pathLength (validate_path self path []) = sum_consecutive path.
Proof.
  intros self path H.
  unfold validate_path.
  replace (length path <? 2)%nat with false by (symmetry; now apply Nat.ltb_ge).
  cbn [valid success minSeparation waypoints pathLength].
  rewrite separation_loop_no_obstacles, length_loop_by_segments.
  repeat split; reflexivity.
Qed.

(** C10 on the straight path of the scenario, two metres long. *)
Lemma validate_path_no_obstacles_witness :
  valid (validate_path default_planner [scenario_start; scenario_goal] []) = true /\
  minSeparation (validate_path default_planner [scenario_start; scenario_goal] []) = PInf /\
  pathLength (validate_path default_planner [scenario_start; scenario_goal] []) = 2.
Proof.
  destruct (validate_path_no_obstacles default_planner [scenario_start; scenario_goal])
    as (Hv & _ & Hm & _ & Hl); [ simpl; lia | ].
  split; [ exact Hv | split; [ exact Hm | ] ].
  rewrite Hl. unfold sum_consecutive, euclid, scenario_start, scenario_goal.
  cbn [c0 c1 c2 fst snd].
  replace (sq _ + sq _ + sq _) with (2 * 2) by (unfold sq; lra).
  rewrite sqrt_square; lra.
Defined.

End PlannerProofs.

(** ** The simulator: properties *)

Module SimulatorProofs.
Import Simulator SimulatorSpec.

(** *** The registry *)

Lemma get_modify_same drones drone_id f :
  get (modify drones drone_id f) drone_id = option_map f (get drones drone_id).
Proof.
  induction drones as [| [k d] rest IH]; [ reflexivity | ].
  cbn [modify get]. destruct (String.eqb k drone_id) eqn:E; cbn [get]; rewrite E.
  - reflexivity.
  - exact IH.
Qed.

Lemma get_modify_other drones drone_id f other :
  other <> drone_id ->
  get (modify drones drone_id f) other = get drones other.
Proof.
  intros Hne. induction drones as [| [k d] rest IH]; [ reflexivity | ].
  cbn [modify get]. destruct (String.eqb k drone_id) eqn:E; cbn [get].
  - apply String.eqb_eq in E. subst k.
    destruct (String.eqb drone_id other) eqn:E'; [ | reflexivity ].
    apply String.eqb_eq in E'. congruence.
  - now rewrite IH.
Qed.

Lemma get_dict_set_same drones drone_id drone :
  get (dict_set drones drone_id drone) drone_id = Some drone.
Proof.
  induction drones as [| [k d] rest IH]; cbn [dict_set get].
  - now rewrite String.eqb_refl.
  - destruct (String.eqb k drone_id) eqn:E; cbn [get]; rewrite E; [ reflexivity | exact IH ].
Qed.

Lemma get_dict_set_other drones drone_id drone other :
  other <> drone_id ->
  get (dict_set drones drone_id drone) other = get drones other.
Proof.
  intros Hne. induction drones as [| [k d] rest IH]; cbn [dict_set get].
  - destruct (String.eqb drone_id other) eqn:E; [ | reflexivity ].
    apply String.eqb_eq in E. congruence.
  - destruct (String.eqb k drone_id) eqn:E; cbn [get].
    + apply String.eqb_eq in E. subst k.
      destruct (String.eqb drone_id other) eqn:E'; [ | reflexivity ].
      apply String.eqb_eq in E'. congruence.
    + now rewrite IH.
Qed.

(** After a tick, an identifier holds the update of the drone it held. *)
Lemma get_update_loop current_time noise drones drone_id :
  forall k,
  match get drones drone_id with
  | None => get (update_loop current_time noise k drones) drone_id = None
  | Some drone =>
      exists j, get (update_loop current_time noise k drones) drone_id
                = Some (update_drone current_time (noise j) drone)
  end.
Proof.
  induction drones as [| [key d] rest IH]; intros k; [ reflexivity | ].
  cbn [update_loop get]. destruct (String.eqb key drone_id).
  - now exists k.
  - apply IH.
Qed.

Lemma get_emergency_stop drones drone_id :
  get (emergency_stop drones) drone_id
  = option_map (fun drone => set_status (set_vz (set_vy (set_vx drone 0) 0) 0) IDLE)
               (get drones drone_id).
Proof.
  induction drones as [| [k d] rest IH]; [ reflexivity | ].
  cbn [emergency_stop map get fst snd]. destruct (String.eqb k drone_id); [ reflexivity | ].
  exact IH.
Qed.

Lemma same_but_target_refl drone : same_but_target drone drone.
Proof. unfold same_but_target. repeat split. Qed.

(** [set_formation] touches targets only. *)
Lemma get_assign_targets drones drone_id :
  forall positions,
  match get drones drone_id with
  | None => get (assign_targets positions drones) drone_id = None
  | Some drone =>
      exists drone', get (assign_targets positions drones) drone_id = Some drone' /\
                     same_but_target drone drone'
  end.
Proof.
  induction drones as [| [k d] rest IH]; intros positions; [ reflexivity | ].
  cbn [get assign_targets].
  destruct (status_eqb (status d) FLYING); [ destruct positions as [| p ps] | ];
    cbn [get]; destruct (String.eqb k drone_id); try apply IH.
  - exists d. split; [ reflexivity | apply same_but_target_refl ].
  - eexists. split; [ reflexivity | ]. unfold same_but_target. cbn. repeat split.
  - exists d. split; [ reflexivity | apply same_but_target_refl ].
Qed.

(** *** One drone, one tick *)

Ltac case_branches :=
  repeat match goal with
  | |- context [if ?c then _ else _] => destruct c eqn:?
  end.

Lemma update_takeoff_keeps drone current_time :
  battery (_update_takeoff drone current_time) = battery drone /\
  x (_update_takeoff drone current_time) = x drone /\
  y (_update_takeoff drone current_time) = y drone.
Proof. unfold _update_takeoff. cbv zeta. case_branches; cbn; auto. Qed.

Lemma update_flying_keeps drone current_time :
  battery (_update_flying drone current_time) = battery drone /\
  status (_update_flying drone current_time) = status drone.
Proof. unfold _update_flying. cbv zeta. case_branches; cbn; auto. Qed.

Lemma update_landing_keeps drone current_time :
  battery (_update_landing drone current_time) = battery drone /\
  x (_update_landing drone current_time) = x drone /\
  y (_update_landing drone current_time) = y drone.
Proof. unfold _update_landing. cbv zeta. case_branches; cbn; auto. Qed.

(** The loop body, stage by stage. *)
Lemma update_drone_stages current_time n drone :
  update_drone current_time n drone
  = set_last_update
      (check_errors
         (add_noise n
            (phase_update current_time (set_battery drone (drained (battery drone))))))
      current_time.
Proof. reflexivity. Qed.

Lemma phase_update_battery current_time drone :
  battery (phase_update current_time drone) = battery drone.
Proof.
  unfold phase_update. destruct (status drone); try reflexivity.
  - apply update_takeoff_keeps.
  - apply update_flying_keeps.
  - apply update_landing_keeps.
Qed.

Lemma phase_update_error current_time drone :
  status drone = ERROR -> status (phase_update current_time drone) = ERROR.
Proof. intros H. unfold phase_update. rewrite H. exact H. Qed.

Lemma check_errors_keeps drone :
  battery (check_errors drone) = battery drone /\
  x (check_errors drone) = x drone /\
  y (check_errors drone) = y drone /\
  z (check_errors drone) = z drone /\
  vz (check_errors drone) = vz drone.
Proof. unfold check_errors. case_branches; cbn; auto. Qed.

Lemma check_errors_error drone :
  status drone = ERROR -> status (check_errors drone) = ERROR.
Proof. unfold check_errors. case_branches; cbn; auto. Qed.

Lemma check_errors_outside drone :
  outside_checked_bounds drone -> status (check_errors drone) = ERROR.
Proof.
  unfold outside_checked_bounds, check_errors, Rgtb. intros H.
  destruct (Rleb (battery drone) 0); [ reflexivity | ].
  destruct (Rltb workspace_bounds (Rabs (x drone))) eqn:Ex; [ reflexivity | ].
  destruct (Rltb workspace_bounds (Rabs (y drone))) eqn:Ey; [ reflexivity | ].
  destruct (Rltb max_height (z drone)) eqn:Ez; [ reflexivity | ].
  apply Rltb_false in Ex, Ey, Ez. lra.
Qed.

Lemma update_drone_battery current_time n drone :
  battery (update_drone current_time n drone) = drained (battery drone).
Proof.
  rewrite update_drone_stages. cbn [battery set_last_update].
  rewrite (proj1 (check_errors_keeps _)). cbn [battery add_noise set_vz set_vy set_vx set_z set_y set_x].
  now rewrite phase_update_battery.
Qed.

Lemma update_drone_error current_time n drone :
  status drone = ERROR -> status (update_drone current_time n drone) = ERROR.
Proof.
  intros H. rewrite update_drone_stages. cbn [status set_last_update].
  apply check_errors_error. cbn [status add_noise set_vz set_vy set_vx set_z set_y set_x].
  now apply phase_update_error.
Qed.

Lemma update_drone_outside current_time n drone :
  outside_checked_bounds (update_drone current_time n drone) ->
  status (update_drone current_time n drone) = ERROR.
Proof.
  rewrite update_drone_stages. intros H. cbn [status set_last_update].
  apply check_errors_outside.
  unfold outside_checked_bounds in *. cbn [x y z set_last_update] in H.
  destruct (check_errors_keeps
              (add_noise n (phase_update current_time
                              (set_battery drone (drained (battery drone))))))
    as (_ & Hx & Hy & Hz & _).
  now rewrite Hx, Hy, Hz in H.
Qed.

Lemma drained_le (b : R) : 0 <= b -> drained b <= b.
Proof.
  intros Hb. unfold drained, battery_drain_rate, dt, tick_rate.
  apply Rmax_lub; lra.
Qed.

Lemma drained_nonneg (b : R) : 0 <= drained b.
Proof. unfold drained. apply Rmax_l. Qed.

(** *** What the operations do to one identifier *)

Lemma get_modify drones drone_id f other :
  get (modify drones drone_id f) other
  = if String.eqb other drone_id then option_map f (get drones other) else get drones other.
Proof.
  destruct (String.eqb other drone_id) eqn:E.
  - apply String.eqb_eq in E. subst other. apply get_modify_same.
  - apply String.eqb_neq in E. now apply get_modify_other.
Qed.

Lemma status_of_tick current_time noise drones drone_id :
  status_of drones drone_id = Some ERROR ->
  status_of (_update_drones current_time noise drones) drone_id = Some ERROR.
Proof.
  unfold status_of, _update_drones. intros H.
  pose proof (get_update_loop current_time noise drones drone_id 0%nat) as G.
  destruct (get drones drone_id) as [d |]; [ | discriminate ].
  destruct G as [j ->]. cbn [option_map] in *. injection H as H.
  now rewrite update_drone_error.
Qed.

Lemma status_of_set_formation drones formation parameters drone_id :
  status_of (snd (set_formation drones formation parameters)) drone_id
  = status_of drones drone_id.
Proof.
  unfold status_of, set_formation.
  destruct (filter _ drones) as [| kd rest]; [ reflexivity | ].
  cbn [snd].
  pose proof (get_assign_targets drones drone_id
                (_calculate_formation_positions formation (length (kd :: rest)) parameters))
    as G.
  destruct (get drones drone_id) as [d |].
  - destruct G as (d' & -> & S). cbn [option_map]. f_equal. symmetry. apply S.
  - now rewrite G.
Qed.

(** A tick or a guarded command leaves an [ERROR] status in place. *)
Lemma error_kept_by_operation drones op drone_id :
  respects_error op = true ->
  status_of drones drone_id = Some ERROR ->
  status_of (apply_operation drones op) drone_id = Some ERROR.
Proof.
  intros Hop H. destruct op; try discriminate; cbn [apply_operation].
  - now apply status_of_tick.
  - (* takeoff *)
    unfold takeoff. destruct (get drones drone_id0) as [d |] eqn:G; [ | exact H ].
    destruct (status_eqb (status d) IDLE) eqn:S; [ | exact H ].
    cbn [negb snd]. unfold status_of in *. rewrite get_modify.
    destruct (String.eqb drone_id drone_id0) eqn:E; [ | exact H ].
    apply String.eqb_eq in E. subst drone_id0. rewrite G in *. cbn [option_map] in H.
    injection H as H. rewrite H in S. discriminate.
  - (* goto *)
    unfold goto. destruct (get drones drone_id0) as [d |] eqn:G; [ | exact H ].
    destruct (negb _); [ exact H | ].
    cbn [snd]. unfold status_of in *. rewrite get_modify.
    destruct (String.eqb drone_id drone_id0); [ | exact H ].
    destruct (get drones drone_id); [ exact H | discriminate ].
  - (* land *)
    unfold land. destruct (get drones drone_id0) as [d |] eqn:G; [ | exact H ].
    destruct (status_eqb (status d) FLYING || status_eqb (status d) TAKING_OFF) eqn:S;
      [ | exact H ].
    cbn [negb snd]. unfold status_of in *. rewrite get_modify.
    destruct (String.eqb drone_id drone_id0) eqn:E; [ | exact H ].
    apply String.eqb_eq in E. subst drone_id0. rewrite G in *. cbn [option_map] in H.
    injection H as H. rewrite H in S. discriminate.
  - now rewrite status_of_set_formation.
Qed.

(** C2, amended.  A drone in [ERROR] stays in [ERROR] through every
    sequence of ticks and of the commands [takeoff], [goto], [land] and
    [set_formation]. *)
Theorem error_is_terminal :
  forall ops drones drone_id,
  forallb respects_error ops = true ->
  status_of drones drone_id = Some ERROR ->
  status_of (run drones ops) drone_id = Some ERROR.
Proof.
  unfold run.
  induction ops as [| op ops IH]; intros drones drone_id Hops H; [ exact H | ].
  cbn [forallb] in Hops. apply andb_true_iff in Hops. destruct Hops as [Hop Hops].
  cbn [fold_left]. apply IH; [ exact Hops | ].
  now apply error_kept_by_operation.
Qed.

(** An errored drone is sent to take off, to move and to land, a formation
    is set and a tick passes: it is still in [ERROR]. *)
Lemma error_is_terminal_witness :
  status_of (run [("d1"%string, errored_drone)]
                 [Takeoff "d1" (6 / 10) 2 0; Goto "d1" 1 0 (6 / 10) (5 / 10); Land "d1" 1;
                  SetFormation "line" []; Tick 2 (fun _ => no_noise)])
            "d1" = Some ERROR.
Proof.
  apply error_is_terminal; reflexivity.
Defined.

(** C2 as stated fails: [emergency_stop] is one of the commands it names,
    and it puts an errored drone back to [IDLE]. *)
Lemma emergency_stop_leaves_error :
  status_of [("d1"%string, errored_drone)] "d1" = Some ERROR /\
  status_of (apply_operation [("d1"%string, errored_drone)] EmergencyStop) "d1" = Some IDLE.
Proof. split; reflexivity. Qed.

(** *** [goto] *)

Lemma goto_cases drones drone_id gx gy gz speed :
  match get drones drone_id with
  | None => goto drones drone_id gx gy gz speed = (false, drones)
  | Some drone =>
      match status drone with
      | FLYING | TAKING_OFF =>
          goto drones drone_id gx gy gz speed
          = (true, modify drones drone_id
                     (fun drone => set_target_z (set_target_y (set_target_x drone gx) gy) gz))
      | _ => goto drones drone_id gx gy gz speed = (false, drones)
      end
  end.
Proof.
  unfold goto. destruct (get drones drone_id) as [d |]; [ | reflexivity ].
  destruct (status d); reflexivity.
Qed.

(** C5.  [goto] returns true exactly when the identifier is registered and
    its drone is [FLYING] or [TAKING_OFF]; it then sets that drone's target
    to the given point and changes nothing else; in every other case it
    returns false and the registry is the one it was given. *)
Theorem goto_contract :
  forall drones drone_id gx gy gz speed,
  (fst (goto drones drone_id gx gy gz speed) = true <->
   exists drone, get drones drone_id = Some drone /\
                 (status drone = FLYING \/ status drone = TAKING_OFF)) /\
  (fst (goto drones drone_id gx gy gz speed) = true ->
   exists drone drone',
     get drones drone_id = Some drone /\
     get (snd (goto drones drone_id gx gy gz speed)) drone_id = Some drone' /\
     target_x drone' = gx /\ target_y drone' = gy /\ target_z drone' = gz /\
     same_but_target drone drone' /\
     forall other, other <> drone_id ->
       get (snd (goto drones drone_id gx gy gz speed)) other = get drones other) /\
  (fst (goto drones drone_id gx gy gz speed) = false ->
   snd (goto drones drone_id gx gy gz speed) = drones).
Proof.
  intros drones drone_id gx gy gz speed.
  pose proof (goto_cases drones drone_id gx gy gz speed) as C.
  assert (Accepted : forall d,
            get drones drone_id = Some d ->
            goto drones drone_id gx gy gz speed
            = (true, modify drones drone_id
                       (fun drone =>
                          set_target_z (set_target_y (set_target_x drone gx) gy) gz)) ->
            exists drone drone',
              get drones drone_id = Some drone /\
              get (snd (goto drones drone_id gx gy gz speed)) drone_id = Some drone' /\
              target_x drone' = gx /\ target_y drone' = gy /\ target_z drone' = gz /\
              same_but_target drone drone' /\
              forall other, other <> drone_id ->
                get (snd (goto drones drone_id gx gy gz speed)) other = get drones other).
  { intros d G E. rewrite E. cbn [snd].
    exists d, (set_target_z (set_target_y (set_target_x d gx) gy) gz).
    rewrite get_modify_same, G. cbn [option_map].
    repeat split; intros other Hne; now apply get_modify_other. }
  destruct (get drones drone_id) as [d |] eqn:G.
  - destruct (status d) eqn:S; try (rewrite C; cbn [fst snd]; repeat split;
      try discriminate; intros (d' & [= <-] & [H | H]); congruence).
    + split; [ | split ].
      * rewrite C. cbn [fst]. split; [ | reflexivity ].
        intros _. exists d. auto.
      * intros _. now apply (Accepted d).
      * rewrite C. discriminate.
    + split; [ | split ].
      * rewrite C. cbn [fst]. split; [ | reflexivity ].
        intros _. exists d. auto.
      * intros _. now apply (Accepted d).
      * rewrite C. discriminate.
  - rewrite C. cbn [fst snd]. repeat split; try discriminate.
    intros (d & [=] & _).
Qed.

(** An idle drone refuses [goto] and a flying one takes the target. *)
Lemma goto_examples :
  goto [("d1"%string, new_drone "d1")] "d1" 1 0 (6 / 10) (5 / 10)
  = (false, [("d1"%string, new_drone "d1")]) /\
  goto [("d1"%string, flying_drone)] "d1" 1 0 (6 / 10) (5 / 10)
  = (true, [("d1"%string,
             set_target_z (set_target_y (set_target_x flying_drone 1) 0) (6 / 10))]).
Proof. split; reflexivity. Qed.

(** The speed a flying drone is given never exceeds [max_speed]. *)
Lemma flying_speed_bounded drone current_time :
  sqrt (sq (vx (_update_flying drone current_time)) +
        sq (vy (_update_flying drone current_time)) +
        sq (vz (_update_flying drone current_time))) <= max_speed.
Proof.
  unfold _update_flying. cbv zeta.
  set (dx := target_x drone - x drone).
  set (dy := target_y drone - y drone).
  set (dz := target_z drone - z drone).
  set (D := sqrt (sq dx + sq dy + sq dz)).
  destruct (Rgtb D (5 / 100)) eqn:E; cbn [vx vy vz set_vx set_vy set_vz set_x set_y set_z].
  - apply Rltb_true in E.
    set (ts := max_speed * Rmin 1 (D / (1 / 10))).
    assert (Hts : 0 <= ts <= max_speed).
    { unfold ts, max_speed. unfold Rmin. destruct (Rle_dec 1 (D / (1 / 10))); lra. }
    assert (HS : 0 <= sq dx + sq dy + sq dz).
    { unfold sq. nra. }
    assert (HD : D * D = sq dx + sq dy + sq dz) by now apply sqrt_sqrt.
    replace (sq (dx / D * ts) + sq (dy / D * ts) + sq (dz / D * ts))
      with ((sq dx + sq dy + sq dz) / (D * D) * (ts * ts))
      by (unfold sq; field; lra).
    rewrite <- HD.
    replace (D * D / (D * D) * (ts * ts)) with (ts * ts) by (field; lra).
    rewrite sqrt_square; lra.
  - replace (sq 0 + sq 0 + sq 0) with 0 by (unfold sq; lra).
    rewrite sqrt_0. unfold max_speed. lra.
Qed.

(** C6.  The [speed] argument of [goto] flows nowhere: two calls that
    differ in it only return the same result and the same registry, and
    every continuation of the run, ticks included, is the same; the speed
    of a flying drone is set from [max_speed] and never exceeds it. *)
Theorem goto_speed_irrelevant :
  forall drones drone_id gx gy gz speed1 speed2 ops,
  goto drones drone_id gx gy gz speed1 = goto drones drone_id gx gy gz speed2 /\
  run (snd (goto drones drone_id gx gy gz speed1)) ops
  = run (snd (goto drones drone_id gx gy gz speed2)) ops /\
  run drones (Goto drone_id gx gy gz speed1 :: ops)
  = run drones (Goto drone_id gx gy gz speed2 :: ops) /\
  forall drone current_time,
    sqrt (sq (vx (_update_flying drone current_time)) +
          sq (vy (_update_flying drone current_time)) +
          sq (vz (_update_flying drone current_time))) <= max_speed.
Proof.
  intros. split; [ reflexivity | split; [ reflexivity | split; [ reflexivity | ] ] ].
  apply flying_speed_bounded.
Qed.

(** *** Takeoff *)

Lemma update_takeoff_done drone current_time :
  current_time - takeoff_start drone >= takeoff_duration drone ->
  _update_takeoff drone current_time
  = set_status (set_vz (set_z drone (takeoff_height drone)) 0) FLYING.
Proof.
  intros H. unfold _update_takeoff, Rgeb. cbv zeta.
  replace (Rleb (takeoff_duration drone) (current_time - takeoff_start drone)) with true
    by (symmetry; apply Rleb_true; lra).
  reflexivity.
Qed.

(** C7.  For a drone in [TAKING_OFF] whose time since [takeoff_start] has
    reached [takeoff_duration], the takeoff update sets [z] to
    [takeoff_height] and [vz] to 0 and makes it [FLYING]; the tick that
    calls it then adds that tick's noise to [z] and [vz]. *)
Theorem takeoff_completion :
  forall drone current_time n,
  status drone = TAKING_OFF ->
  current_time - takeoff_start drone >= takeoff_duration drone ->
  z (_update_takeoff drone current_time) = takeoff_height drone /\
  vz (_update_takeoff drone current_time) = 0 /\
  status (_update_takeoff drone current_time) = FLYING /\
  z (update_drone current_time n drone) = takeoff_height drone + noise_z n /\
  vz (update_drone current_time n drone) = 0 + noise_vz n.
Proof.
  intros drone current_time n S H.
  rewrite update_takeoff_done by exact H.
  split; [ reflexivity | split; [ reflexivity | split; [ reflexivity | ] ] ].
  rewrite update_drone_stages. cbn [z vz set_last_update].
  destruct (check_errors_keeps
              (add_noise n (phase_update current_time
                              (set_battery drone (drained (battery drone))))))
    as (_ & _ & _ & -> & ->).
  unfold phase_update. cbn [status set_battery]. rewrite S.
  rewrite update_takeoff_done by exact H.
  split; reflexivity.
Qed.

(** The climbing drone, two seconds after its takeoff began. *)
Lemma takeoff_completion_witness :
  z (_update_takeoff climbing_drone 12) = 6 / 10 /\
  vz (_update_takeoff climbing_drone 12) = 0 /\
  status (_update_takeoff climbing_drone 12) = FLYING.
Proof.
  destruct (takeoff_completion climbing_drone 12 no_noise) as (Hz & Hvz & Hs & _).
  - reflexivity.
  - cbn. lra.
  - split; [ exact Hz | split; [ exact Hvz | exact Hs ] ].
Defined.

(** *** The error check *)

(** C3, amended.  After a tick, every drone whose position, noise
    included, has [|x|] or [|y|] above the workspace bound or [z] above the
    maximum height is in [ERROR]. *)
Theorem tick_forces_error_outside :
  forall current_time noise drones drone_id drone,
  get (_update_drones current_time noise drones) drone_id = Some drone ->
  outside_checked_bounds drone ->
  status drone = ERROR.
Proof.
  intros current_time noise drones drone_id drone G H.
  unfold _update_drones in G.
  pose proof (get_update_loop current_time noise drones drone_id 0%nat) as U.
  destruct (get drones drone_id) as [d |].
  - destruct U as [j U]. rewrite U in G. injection G as <-.
    now apply update_drone_outside.
  - rewrite U in G. discriminate.
Qed.

(** A check that finds nothing changes nothing. *)
Lemma check_errors_inside drone :
  0 < battery drone ->
  Rabs (x drone) <= workspace_bounds ->
  Rabs (y drone) <= workspace_bounds ->
  z drone <= max_height ->
  check_errors drone = drone.
Proof.
  intros Hb Hx Hy Hz. unfold check_errors, Rgtb.
  replace (Rleb (battery drone) 0) with false by (symmetry; now apply Rleb_false).
  replace (Rltb workspace_bounds (Rabs (x drone))) with false
    by (symmetry; now apply Rltb_false).
  replace (Rltb workspace_bounds (Rabs (y drone))) with false
    by (symmetry; now apply Rltb_false).
  replace (Rltb max_height (z drone)) with false by (symmetry; now apply Rltb_false).
  reflexivity.
Qed.

Lemma drained_full : drained 100 = 100 - 1 / 200.
Proof.
  unfold drained, battery_drain_rate, dt, tick_rate. rewrite Rmax_right; lra.
Qed.

(** A fresh drone that the noise carries three metres along x. *)
Lemma tick_forces_error_outside_witness :
  status (update_drone 0 (noise_far 0) (new_drone "d1")) = ERROR.
Proof.
  apply (tick_forces_error_outside 0 noise_far [("d1"%string, new_drone "d1")] "d1"%string).
  - reflexivity.
  - left. rewrite update_drone_stages. cbn [x set_last_update].
    rewrite (proj1 (proj2 (check_errors_keeps _))).
    cbn. unfold workspace_bounds. rewrite Rabs_right; lra.
Defined.

(** C3 as stated fails for the lower bound of [z]: a fresh swarm of one
    drone, one tick, one centimetre of downward noise; the drone is below
    the floor, outside the workspace invariant, and still [IDLE]. *)
Lemma tick_ignores_negative_height :
  exists drone,
    get (_update_drones 0 noise_down (snd (create_swarm 1 "run" []))) "d1" = Some drone /\
    z drone < 0 /\
    ~ within_workspace drone /\
    status drone = IDLE /\ status drone <> ERROR.
Proof.
  eexists. split; [ reflexivity | ].
  rewrite update_drone_stages.
  rewrite check_errors_inside.
  - cbn. unfold within_workspace. cbn.
    split; [ lra | split; [ intros (_ & _ & H & _); lra | split; [ reflexivity | discriminate ] ] ].
  - cbn. rewrite drained_full. lra.
  - cbn. unfold workspace_bounds. rewrite Rabs_right; lra.
  - cbn. unfold workspace_bounds. rewrite Rabs_right; lra.
  - cbn. unfold max_height. lra.
Qed.

(** *** The battery *)

Lemma battery_of_modify drones drone_id f other :
  (forall drone, battery (f drone) = battery drone) ->
  battery_of (modify drones drone_id f) other = battery_of drones other.
Proof.
  intros Hf. unfold battery_of. rewrite get_modify.
  destruct (String.eqb other drone_id); [ | reflexivity ].
  destruct (get drones other); cbn [option_map]; [ now rewrite Hf | reflexivity ].
Qed.

Lemma battery_of_tick current_time noise drones drone_id :
  battery_of (_update_drones current_time noise drones) drone_id
  = option_map drained (battery_of drones drone_id).
Proof.
  unfold battery_of, _update_drones.
  pose proof (get_update_loop current_time noise drones drone_id 0%nat) as U.
  destruct (get drones drone_id) as [d |].
  - destruct U as [j ->]. cbn [option_map]. now rewrite update_drone_battery.
  - now rewrite U.
Qed.

(** The commands that keep the drones do not touch a battery. *)
Lemma battery_of_command drones op drone_id :
  keeps_drones op = true ->
  (forall current_time noise, op <> Tick current_time noise) ->
  battery_of (apply_operation drones op) drone_id = battery_of drones drone_id.
Proof.
  intros Hop Hnt. destruct op; try discriminate; cbn [apply_operation].
  - now contradiction (Hnt current_time noise).
  - unfold takeoff. destruct (get drones drone_id0); [ | reflexivity ].
    destruct (negb _); [ reflexivity | ]. cbn [snd]. now apply battery_of_modify.
  - unfold goto. destruct (get drones drone_id0); [ | reflexivity ].
    destruct (negb _); [ reflexivity | ]. cbn [snd]. now apply battery_of_modify.
  - unfold land. destruct (get drones drone_id0); [ | reflexivity ].
    destruct (negb _); [ reflexivity | ]. cbn [snd]. now apply battery_of_modify.
  - unfold battery_of, set_formation.
    destruct (filter _ drones) as [| kd rest]; [ reflexivity | ]. cbn [snd].
    pose proof (get_assign_targets drones drone_id
                  (_calculate_formation_positions formation (length (kd :: rest))
                                                  parameters)) as G.
    destruct (get drones drone_id) as [d |].
    + destruct G as (d' & -> & S). cbn [option_map]. f_equal. symmetry. apply S.
    + now rewrite G.
  - unfold battery_of. rewrite get_emergency_stop.
    now destruct (get drones drone_id).
Qed.

Lemma create_loop_battery run_id (l : list nat) :
  forall drone_ids drones drone_id b,
  battery_of
    (snd (fold_left
            (fun (st : list string * registry) (i : nat) =>
               let drone_id := ("d" ++ string_of_nat (i + 1))%string in
               let drone := new_drone drone_id in
               let drone := set_run_id drone run_id in
               (fst st ++ [drone_id], dict_set (snd st) drone_id drone))
            l (drone_ids, drones))) drone_id = Some b ->
  b = 100 \/ battery_of drones drone_id = Some b.
Proof.
  induction l as [| i l IH]; intros drone_ids drones drone_id b H; [ now right | ].
  cbn [fold_left fst snd] in H. apply IH in H. destruct H as [H | H]; [ now left | ].
  unfold battery_of in H.
  destruct (string_dec drone_id ("d" ++ string_of_nat (i + 1))) as [-> | Hne].
  - rewrite get_dict_set_same in H. left. now injection H as <-.
  - rewrite get_dict_set_other in H by exact Hne. now right.
Qed.

(** No battery of a session is ever negative. *)
Lemma reachable_battery_nonneg drones :
  reachable drones ->
  forall drone_id b, battery_of drones drone_id = Some b -> 0 <= b.
Proof.
  induction 1 as [| drones op _ IH]; intros drone_id b H; [ discriminate | ].
  destruct op as [current_time noise | count run | | | | | | ];
    [ | | | | | | | discriminate ];
    try (rewrite battery_of_command in H by (reflexivity || discriminate);
         now apply (IH drone_id)).
  - cbn [apply_operation] in H. rewrite battery_of_tick in H.
    destruct (battery_of drones drone_id); [ | discriminate ].
    injection H as <-. apply drained_nonneg.
  - cbn [apply_operation] in H. unfold create_swarm in H.
    apply create_loop_battery in H. destruct H as [-> | H]; [ lra | ].
    now apply (IH drone_id).
Qed.

Lemma battery_step drones op drone_id b :
  reachable drones ->
  keeps_drones op = true ->
  battery_of drones drone_id = Some b ->
  exists b', battery_of (apply_operation drones op) drone_id = Some b' /\ b' <= b.
Proof.
  intros R Hop H.
  assert (Hb : 0 <= b) by now apply (reachable_battery_nonneg drones R drone_id).
  destruct op; try discriminate;
    try (exists b; split; [ | lra ];
         rewrite battery_of_command by (reflexivity || discriminate); exact H).
  exists (drained b). cbn [apply_operation]. rewrite battery_of_tick, H.
  split; [ reflexivity | now apply drained_le ].
Qed.

(** C8, amended.  In a session, no tick and no command other than
    [create_swarm] and [reset] increases the battery registered under an
    identifier; a tick takes [battery_drain_rate * dt] from it, stopping at
    0; and so the battery does not increase along any run of such
    operations. *)
Theorem battery_never_increases :
  forall drones drone_id b,
  reachable drones ->
  battery_of drones drone_id = Some b ->
  (forall op, keeps_drones op = true ->
     exists b', battery_of (apply_operation drones op) drone_id = Some b' /\ b' <= b) /\
  (forall current_time noise,
     battery_of (apply_operation drones (Tick current_time noise)) drone_id
     = Some (Rmax 0 (b - battery_drain_rate * dt))) /\
  (forall ops, forallb keeps_drones ops = true ->
     exists b', battery_of (run drones ops) drone_id = Some b' /\ b' <= b).
Proof.
  intros drones drone_id b R H. split; [ | split ].
  - intros op Hop. now apply battery_step.
  - intros current_time noise. cbn [apply_operation]. now rewrite battery_of_tick, H.
  - intros ops. revert drones b R H. unfold run.
    induction ops as [| op ops IH]; intros drones b R H Hops.
    + exists b. split; [ exact H | lra ].
    + cbn [forallb] in Hops. apply andb_true_iff in Hops. destruct Hops as [Hop Hops].
      destruct (battery_step drones op drone_id b R Hop H) as (b1 & H1 & L1).
      destruct (IH (apply_operation drones op) b1 (reachable_step _ op R) H1 Hops)
        as (b2 & H2 & L2).
      exists b2. cbn [fold_left]. split; [ exact H2 | lra ].
Qed.

Lemma reachable_run drones ops : reachable drones -> reachable (run drones ops).
Proof.
  unfold run. revert drones.
  induction ops as [| op ops IH]; intros drones R; [ exact R | ].
  cbn [fold_left]. apply IH. now constructor.
Qed.

(** A fresh swarm of one drone: its first tick leaves 99.995 per cent. *)
Lemma battery_never_increases_witness :
  battery_of (apply_operation (run [] [CreateSwarm 1 "run"]) (Tick 0 (fun _ => no_noise))) "d1"
  = Some (Rmax 0 (100 - battery_drain_rate * dt)).
Proof.
  apply (proj1 (proj2 (battery_never_increases (run [] [CreateSwarm 1 "run"]) "d1"%string 100
                         (reachable_run [] _ reachable_init) eq_refl))).
Defined.

(** C8 as stated fails: [create_swarm] is a command other than [reset],
    and a second swarm registers a fresh drone under [d1], whose battery is
    back at 100. *)
Lemma create_swarm_refills_battery :
  exists b b',
    battery_of (run [] [CreateSwarm 1 "first"; Tick 0 (fun _ => no_noise)]) "d1" = Some b /\
    battery_of (apply_operation (run [] [CreateSwarm 1 "first"; Tick 0 (fun _ => no_noise)])
                                (CreateSwarm 1 "second")) "d1" = Some b' /\
    b < b'.
Proof.
  exists (drained 100), 100. split; [ | split ].
  - change (run [] [CreateSwarm 1 "first"; Tick 0 (fun _ => no_noise)])
      with (_update_drones 0 (fun _ => no_noise) (run [] [CreateSwarm 1 "first"])).
    rewrite battery_of_tick. reflexivity.
  - reflexivity.
  - rewrite drained_full. lra.
Qed.

(** *** Formations *)

(** What the line pattern computes: [count] positions, the i-th at
    [(i - (count - 1) / 2) * spacing] along x, on the axis [y = 0], all at the
    height 0.6 whatever the parameters say. *)
Lemma line_positions count parameters :
  length (_calculate_formation_positions "line" count parameters) = count /\
  forall i, (i < count)%nat ->
    nth i (_calculate_formation_positions "line" count parameters) (0, 0, 0)
    = ((INR i - (INR count - 1) / 2) * parameters_get parameters "spacing" (5 / 10),
       0, 6 / 10).
Proof.
  change (_calculate_formation_positions "line" count parameters)
    with (map (fun i : nat =>
                 ((INR i - (INR count - 1) / 2) * parameters_get parameters "spacing" (5 / 10),
                  0, 6 / 10))
              (seq 0 count)).
  split; [ now rewrite length_map, length_seq | ].
  intros i Hi.
  rewrite (nth_indep _ (0, 0, 0)
             ((INR 0 - (INR count - 1) / 2) * parameters_get parameters "spacing" (5 / 10),
              0, 6 / 10))
    by now rewrite length_map, length_seq.
  rewrite (map_nth (fun i : nat =>
                      ((INR i - (INR count - 1) / 2)
                       * parameters_get parameters "spacing" (5 / 10), 0, 6 / 10))
                   (seq 0 count) 0%nat i).
  now rewrite seq_nth.
Qed.

(** C9 at its failing input: a line of one drone asked for at the height
    of one metre is placed at 0.6, the height the parameters are given
    being 1. *)
Theorem line_ignores_height :
  _calculate_formation_positions "line" 1 line_parameters
  = [((0 - (1 - 1) / 2) * (5 / 10), 0, 6 / 10)] /\
  parameters_get line_parameters "height" (6 / 10) = 1 /\
  6 / 10 <> 1.
Proof.
  split; [ reflexivity | split; [ reflexivity | lra ] ].
Qed.

(** The sibling patterns do read the height: a circle of one drone with
    the same parameters is at one metre. *)
Lemma circle_reads_height :
  map snd (_calculate_formation_positions "circle" 1 line_parameters) = [1].
Proof. reflexivity. Qed.

End SimulatorProofs.

(** ** The path planner: further properties *)

Module PlannerFacts.
Import Planner PlannerSpec PlannerTerms PlannerProofs.

(** *** The distance to a segment *)

(** X1.  [_point_to_line_distance] is the least Euclidean distance from
    the point to the points of the segment: it is the distance to one of
    them and no point of the segment is closer. *)
Theorem point_to_line_distance_is_minimum :
  forall line_start line_end point,
  (exists t, 0 <= t <= 1 /\
     _point_to_line_distance line_start line_end point
     = euclid point (point_on line_start line_end t)) /\
  (forall u, 0 <= u <= 1 ->
     _point_to_line_distance line_start line_end point
     <= euclid point (point_on line_start line_end u)).
Proof.
  intros line_start line_end point. split.
  - apply distance_attained.
  - intros u Hu. now apply distance_minimal.
Qed.

Lemma point_on_reverse (a b : Point) (u : R) : point_on a b u = point_on b a (1 - u).
Proof. unfold point_on. f_equal; [ f_equal | ]; ring. Qed.

Lemma distance_reverse_le (a b point : Point) :
  _point_to_line_distance a b point <= _point_to_line_distance b a point.
Proof.
  destruct (distance_attained b a point) as (t & Ht & ->).
  rewrite point_on_reverse. apply distance_minimal. lra.
Qed.

(** X2.  The distance does not depend on the direction of the segment. *)
Theorem point_to_line_distance_symmetric :
  forall a b point,
  _point_to_line_distance a b point = _point_to_line_distance b a point.
Proof.
  intros a b point. apply Rle_antisym; apply distance_reverse_le.
Qed.

(** *** What [plan_path] returns *)

(** X3.  A path [plan_path] returns has at least two waypoints, begins at
    the start and ends at the goal. *)
Theorem plan_path_endpoints :
  forall fuel self start goal obstacles path,
  plan_path fuel self start goal obstacles = Some path ->
  (2 <= length path)%nat /\ hd_error path = Some start /\ last path start = goal.
Proof.
  intros fuel self start goal obstacles path H.
  apply plan_path_sound in H. destruct H as [[middle ->] _].
  split; [ | split ].
  - cbn [length]. rewrite length_app. simpl. lia.
  - reflexivity.
  - change (start :: middle ++ [goal]) with ((start :: middle) ++ [goal]).
    apply last_last.
Qed.

Lemma plan_path_endpoints_witness :
  hd_error [scenario_start; (1, 0, 95 / 100); scenario_goal] = Some scenario_start /\
  last [scenario_start; (1, 0, 95 / 100); scenario_goal] scenario_start = scenario_goal.
Proof.
  exact (proj2 (plan_path_endpoints 1 default_planner scenario_start scenario_goal
                  scenario_obstacles _ scenario_plan)).
Defined.

(** X4.  The answer does not depend on the recursion depth available:
    a path found within one depth is the path found within any larger
    one, so two depths that both suffice give the same path. *)
Theorem plan_path_depth_independent :
  forall fuel fuel' self start goal obstacles path,
  plan_path fuel self start goal obstacles = Some path ->
  (forall path', plan_path fuel' self start goal obstacles = Some path' -> path' = path) /\
  ((fuel <= fuel')%nat -> plan_path fuel' self start goal obstacles = Some path).
Proof.
  intros fuel fuel' self start goal obstacles path H.
  assert (Up : forall n m p, (n <= m)%nat ->
                 plan_path n self start goal obstacles = Some p ->
                 plan_path m self start goal obstacles = Some p).
  { intros n m p Hle. unfold plan_path.
    destruct (_is_path_clear self _ _ obstacles); [ auto | ].
    intros D. now apply (find_detour_path_more_fuel n). }
  split.
  - intros path' H'. destruct (Nat.le_ge_cases fuel fuel') as [Hle | Hle].
    + apply (Up _ _ _ Hle) in H. congruence.
    + apply (Up _ _ _ Hle) in H'. congruence.
  - intros Hle. now apply (Up fuel).
Qed.

Lemma plan_path_depth_independent_witness :
  plan_path 7 default_planner scenario_start scenario_goal scenario_obstacles
  = Some [scenario_start; (1, 0, 95 / 100); scenario_goal].
Proof.
  apply (proj2 (plan_path_depth_independent 1 7 default_planner scenario_start
                  scenario_goal scenario_obstacles _ scenario_plan)).
  lia.
Defined.

Lemma closest_loop_nonempty start goal obstacle rest :
  exists closest, fst (closest_loop start goal (obstacle :: rest) (None, PInf)) = Some closest.
Proof.
  cbn [closest_loop snd xltb].
  destruct (closest_loop_some start goal rest obstacle
              (Fin (_point_to_line_distance start goal obstacle))) as (o' & m' & ->).
  now exists o'.
Qed.

Lemma midpoint_of_point self p obstacle : _calculate_detour_midpoint self p p obstacle = p.
Proof.
  unfold _calculate_detour_midpoint. cbn [c0 c1 c2 fst snd].
  now replace (Reqb (sq (c0 p - c0 p) + sq (c1 p - c1 p) + sq (c2 p - c2 p)) 0) with true
    by (symmetry; apply Reqb_true; unfold sq; ring).
Qed.

(** X5.  When start and goal are one point and an obstacle is within the
    safety radius of it, the detour point is that point again and the search
    calls itself on the same segment: no depth suffices. *)
Theorem plan_path_blocked_point_never_returns :
  forall self p obstacles,
  _is_path_clear self p p obstacles = false ->
  forall fuel, plan_path fuel self p p obstacles = None.
Proof.
  intros self p obstacles C fuel. unfold plan_path. rewrite !point_eta, C.
  induction fuel as [| fuel IH]; [ reflexivity | ].
  cbn [_find_detour_path].
  destruct obstacles as [| o rest]; [ discriminate | ].
  destruct (closest_loop_nonempty p p o rest) as [closest ->].
  cbv zeta. rewrite midpoint_of_point, C. cbn [andb negb]. now rewrite IH.
Qed.

Lemma plan_path_blocked_point_never_returns_witness :
  plan_path 1000 default_planner (0, 0, 0) (0, 0, 0) [(1 / 10, 0, 0)] = None.
Proof.
  apply plan_path_blocked_point_never_returns.
  cbn [_is_path_clear]. unfold _point_to_line_distance. cbn [c0 c1 c2 fst snd].
  replace (Reqb _ 0) with true by (symmetry; apply Reqb_true; unfold sq; lra).
  replace (sq _ + sq _ + sq _) with (1 / 10 * (1 / 10)) by (unfold sq; lra).
  rewrite sqrt_square by lra.
  now replace (Rltb _ _) with true by (symmetry; apply Rltb_true; simpl; lra).
Defined.

(** *** What [validate_path] reports *)

Lemma fold_left_map_any {A B C : Type} (f : A -> B -> A) (g : C -> B) (l : list C) (a : A) :
  fold_left (fun acc c => f acc (g c)) l a = fold_left f (map g l) a.
Proof. revert a. induction l as [| c l IH]; intros a; simpl; [ reflexivity | apply IH ]. Qed.

Lemma fold_left_flat_map {A B C : Type} (f : A -> B -> A) (g : C -> list B)
    (l : list C) (a : A) :
  fold_left (fun acc c => fold_left f (g c) acc) l a = fold_left f (flat_map g l) a.
Proof.
  revert a. induction l as [| c l IH]; intros a; simpl; [ reflexivity | ].
  now rewrite fold_left_app, IH.
Qed.

Lemma fold_left_pointwise {A B : Type} (f g : A -> B -> A) (l : list B) (a : A) :
  (forall acc b, f acc b = g acc b) -> fold_left f l a = fold_left g l a.
Proof.
  intros E. revert a. induction l as [| b l IH]; intros a; simpl; [ reflexivity | ].
  now rewrite E, IH.
Qed.

(** The two loops of [validate_path] are one minimum over the pairs. *)
Lemma min_separation_by_pairs self path obstacles :
  (2 <= length path)%nat ->
  minSeparation (validate_path self path obstacles)
  = fold_left (fun m d => xmin m (Fin d)) (pair_distances path obstacles) PInf.
Proof.
  intros H. unfold validate_path.
  replace (length path <? 2)%nat with false by (symmetry; now apply Nat.ltb_ge).
  cbn [minSeparation]. rewrite separation_loop_by_segments.
  unfold pair_distances. rewrite <- fold_left_flat_map.
  apply fold_left_pointwise. intros acc seg.
  apply (fold_left_map_any (fun m d => xmin m (Fin d))).
Qed.

Lemma xmin_cases (acc : xfloat) (d : R) :
  xle (xmin acc (Fin d)) d /\
  (forall a, acc = Fin a -> xle (xmin acc (Fin d)) a) /\
  (xmin acc (Fin d) = acc \/ xmin acc (Fin d) = Fin d).
Proof.
  unfold xmin. destruct acc as [a |]; cbn [xltb].
  - destruct (Rltb d a) eqn:E; cbn [xle].
    + apply Rltb_true in E. repeat split; [ lra | | now right ].
      intros a' [= <-]. lra.
    + apply Rltb_false in E. repeat split; [ lra | | now left ].
      intros a' [= <-]. lra.
  - cbn [xle]. repeat split; [ lra | discriminate | now right ].
Qed.

Lemma xle_trans (m : xfloat) (a d : R) : xle m a -> a <= d -> xle m d.
Proof. destruct m; cbn [xle]; [ lra | easy ]. Qed.

(** The running minimum is below its start and below every element, and
    it is its start or one of the elements. *)
Lemma min_fold_spec (l : list R) :
  forall acc,
  (forall d, In d l -> xle (fold_left (fun m d => xmin m (Fin d)) l acc) d) /\
  (forall a, acc = Fin a -> xle (fold_left (fun m d => xmin m (Fin d)) l acc) a) /\
  (fold_left (fun m d => xmin m (Fin d)) l acc = acc \/
   exists d, In d l /\ fold_left (fun m d => xmin m (Fin d)) l acc = Fin d).
Proof.
  induction l as [| d l IH]; intros acc.
  - cbn [fold_left]. repeat split; [ intros d [] | | now left ].
    intros a ->. cbn [xle]. lra.
  - cbn [fold_left].
    destruct (IH (xmin acc (Fin d))) as (Hall & Hacc & Hatt).
    destruct (xmin_cases acc d) as (Hd & Ha & Hc).
    assert (Hfin : exists v, xmin acc (Fin d) = Fin v /\ v <= d).
    { destruct (xmin acc (Fin d)) as [v |]; [ now exists v | contradiction ]. }
    destruct Hfin as (v & Ev & Lv).
    split; [ | split ].
    + intros d' [<- | Hin]; [ | now apply Hall ].
      apply (xle_trans _ v); [ now apply Hacc | exact Lv ].
    + intros a Ea. apply (xle_trans _ v); [ now apply Hacc | ].
      specialize (Ha a Ea). rewrite Ev in Ha. exact Ha.
    + destruct Hatt as [E | (d' & Hin & E)].
      * destruct Hc as [Hc | Hc]; rewrite E, Hc; [ now left | ].
        right. exists d. split; [ now left | reflexivity ].
      * right. exists d'. split; [ now right | exact E ].
Qed.

Lemma min_separation_is_least_aux self path obstacles :
  (2 <= length path)%nat ->
  (forall d, In d (pair_distances path obstacles) ->
     xle (minSeparation (validate_path self path obstacles)) d) /\
  ((minSeparation (validate_path self path obstacles) = PInf /\
    pair_distances path obstacles = []) \/
   exists d, In d (pair_distances path obstacles) /\
             minSeparation (validate_path self path obstacles) = Fin d).
Proof.
  intros H.
  rewrite min_separation_by_pairs by exact H.
  destruct (min_fold_spec (pair_distances path obstacles) PInf) as (Hall & _ & Hatt).
  split; [ exact Hall | ].
  destruct Hatt as [E | Hex]; [ left | now right ].
  split; [ exact E | ].
  destruct (pair_distances path obstacles) as [| d l]; [ reflexivity | ].
  specialize (Hall d (or_introl eq_refl)). rewrite E in Hall. contradiction.
Qed.

(** X6.  For a path of at least two waypoints, [minSeparation] is the least
    of the distances between a segment of the path and an obstacle: it is
    below each of them, and it is one of them, or infinite when there is
    none. *)
Theorem min_separation_is_least :
  forall self path obstacles,
  (2 <= length path)%nat ->
  (forall d, In d (pair_distances path obstacles) ->
     xle (minSeparation (validate_path self path obstacles)) d) /\
  ((minSeparation (validate_path self path obstacles) = PInf /\
    pair_distances path obstacles = []) \/
   exists d, In d (pair_distances path obstacles) /\
             minSeparation (validate_path self path obstacles) = Fin d).
Proof.
  intros self path obstacles H. now apply min_separation_is_least_aux.
Qed.

(** The straight path of the scenario against the obstacle in its middle:
    the one distance is 0, and so is the reported minimum. *)
Lemma min_separation_is_least_witness :
  xle (minSeparation (validate_path default_planner [scenario_start; scenario_goal]
                                    scenario_obstacles)) 0.
Proof.
  apply (proj1 (min_separation_is_least default_planner [scenario_start; scenario_goal]
                  scenario_obstacles (le_n 2))).
  unfold pair_distances, scenario_obstacles. cbn [segments flat_map map app fst snd].
  left. apply scenario_direct_distance.
Defined.

Lemma clearance_by_pairs self path obstacles :
  Forall (keeps_clearance self obstacles) (segments path) <->
  (forall d, In d (pair_distances path obstacles) -> safety_radius self <= d).
Proof.
  unfold pair_distances, keeps_clearance. rewrite Forall_forall. split.
  - intros H d Hin. apply in_flat_map in Hin. destruct Hin as (seg & Hseg & Hin).
    apply in_map_iff in Hin. destruct Hin as (o & <- & Ho).
    specialize (H seg Hseg). rewrite Forall_forall in H. now apply H.
  - intros H seg Hseg. rewrite Forall_forall. intros o Ho. apply H.
    apply in_flat_map. exists seg. split; [ exact Hseg | ].
    apply in_map_iff. now exists o.
Qed.

(** X7.  [validate_path] calls a path valid exactly when it has at least
    two waypoints and each of its segments keeps the safety radius from each
    obstacle; [success] is the same flag. *)
Theorem validate_path_valid_iff :
  forall self path obstacles,
  (valid (validate_path self path obstacles) = true <->
   (2 <= length path)%nat /\ Forall (keeps_clearance self obstacles) (segments path)) /\
  success (validate_path self path obstacles) = valid (validate_path self path obstacles).
Proof.
  intros self path obstacles. split.
  2:{ unfold validate_path. now destruct (length path <? 2)%nat. }
  destruct (Nat.ltb_spec (length path) 2) as [Hlt | Hge].
  - unfold validate_path.
    replace (length path <? 2)%nat with true by (symmetry; now apply Nat.ltb_lt).
    cbn [valid]. split; [ discriminate | intros [H _]; lia ].
  - assert (V : valid (validate_path self path obstacles)
                = xgeb (minSeparation (validate_path self path obstacles))
                       (safety_radius self)).
    { unfold validate_path.
      now replace (length path <? 2)%nat with false by (symmetry; now apply Nat.ltb_ge). }
    rewrite V. split.
    + intros G. split; [ exact Hge | ].
      apply clearance_by_pairs. intros d Hin.
      destruct (min_separation_is_least_aux self path obstacles Hge) as [Hall _].
      specialize (Hall d Hin).
      destruct (minSeparation (validate_path self path obstacles)) as [m |];
        cbn [xle xgeb] in *; [ | contradiction ].
      apply Rleb_true in G. lra.
    + intros [_ C]. unfold validate_path.
      replace (length path <? 2)%nat with false by (symmetry; now apply Nat.ltb_ge).
      cbn [minSeparation]. rewrite separation_loop_by_segments.
      now apply separation_of_clear_segments.
Qed.

(** *** The detour point *)

Lemma distinct_points_length (a b : Point) :
  a <> b -> sq (c0 b - c0 a) + sq (c1 b - c1 a) + sq (c2 b - c2 a) <> 0.
Proof.
  intros Hne H. apply sum_squares_zero in H. destruct H as (H0 & H1 & H2).
  apply Hne. destruct a as [[a0 a1] a2], b as [[b0 b1] b2]. cbn [c0 c1 c2 fst snd] in *.
  f_equal; [ f_equal | ]; lra.
Qed.

Lemma sqrt_zero_inv (v : R) : 0 <= v -> sqrt v = 0 -> v = 0.
Proof. intros Hv H. now apply sqrt_eq_0. Qed.



(** X9.  When the obstacle projects inside the segment between distinct
    end points, the detour point is at least [1.5 * safety_radius] away from
    the obstacle it is computed for. *)
Theorem detour_midpoint_clears_obstacle :
  forall self start goal obstacle,
  0 <= safety_radius self ->
  start <> goal ->
  0 <= projection_parameter start goal obstacle <= 1 ->
  safety_radius self * (15 / 10)
  <= euclid (_calculate_detour_midpoint self start goal obstacle) obstacle.
Proof.
  intros self start goal obstacle Hr Hne Hq.
  apply distinct_points_length in Hne.
  unfold projection_parameter in Hq.
  unfold _calculate_detour_midpoint. cbn [c0 c1 c2 fst snd].
  replace (Reqb (sq (c0 goal - c0 start) + sq (c1 goal - c1 start) + sq (c2 goal - c2 start)) 0)
    with false by (symmetry; now apply Reqb_false).
  set (g0 := c0 goal - c0 start) in *.
  set (g1 := c1 goal - c1 start) in *.
  set (g2 := c2 goal - c2 start) in *.
  set (L := sq g0 + sq g1 + sq g2) in *.
  set (q := ((c0 obstacle - c0 start) * g0 + (c1 obstacle - c1 start) * g1 +
             (c2 obstacle - c2 start) * g2) / L) in *.
  rewrite (Rmin_right 1 q) by lra. rewrite (Rmax_right 0 q) by lra.
  assert (HqL : (c0 obstacle - c0 start) * g0 + (c1 obstacle - c1 start) * g1 +
                (c2 obstacle - c2 start) * g2 = q * L) by (unfold q; field; exact Hne).
  set (k := safety_radius self * (15 / 10)).
  assert (Hk : 0 <= k) by (unfold k; lra).
  set (o0 := c0 obstacle - (c0 start + q * g0)).
  set (o1 := c1 obstacle - (c1 start + q * g1)).
  set (o2 := c2 obstacle - (c2 start + q * g2)).
  assert (Hgo : g0 * o0 + g1 * o1 + g2 * o2 = 0).
  { unfold o0, o1, o2.
    transitivity ((c0 obstacle - c0 start) * g0 + (c1 obstacle - c1 start) * g1 +
                  (c2 obstacle - c2 start) * g2 - q * L); [ unfold L, sq; ring | lra ]. }
  unfold _cross_product. cbn [c0 c1 c2 fst snd].
  set (x0 := g1 * o2 - g2 * o1).
  set (x1 := g2 * o0 - g0 * o2).
  set (x2 := g0 * o1 - g1 * o0).
  set (len := sqrt (sq x0 + sq x1 + sq x2)).
  assert (Hsum : 0 <= sq x0 + sq x1 + sq x2) by (unfold sq; nra).
  assert (Lagrange : L * (sq o0 + sq o1 + sq o2)
                     = sq x0 + sq x1 + sq x2 + sq (g0 * o0 + g1 * o1 + g2 * o2)).
  { unfold L, x0, x1, x2, sq. ring. }
  rewrite <- (sqrt_square k) at 1 by exact Hk.
  unfold euclid.
  destruct (Reqb len 0) eqn:E.
  - apply Reqb_true in E. apply sqrt_zero_inv in E; [ | exact Hsum ].
    rewrite E, Hgo in Lagrange.
    assert (Ho : sq o0 + sq o1 + sq o2 = 0).
    { apply (Rmult_eq_reg_l L); [ | exact Hne ]. rewrite Lagrange. unfold sq. ring. }
    apply sum_squares_zero in Ho. destruct Ho as (Ho0 & Ho1 & Ho2).
    apply Req_le. f_equal.
    unfold o0, o1, o2 in Ho0, Ho1, Ho2.
    destruct (Reqb g2 0); cbn [c0 c1 c2 fst snd];
      replace (c0 obstacle) with (c0 start + q * g0) by lra;
      replace (c1 obstacle) with (c1 start + q * g1) by lra;
      replace (c2 obstacle) with (c2 start + q * g2) by lra;
      unfold sq; field.
  - apply Reqb_false in E. cbn [c0 c1 c2 fst snd].
    assert (Hlen : len * len = sq x0 + sq x1 + sq x2) by now apply sqrt_sqrt.
    apply sqrt_le_1_alt.
    match goal with |- _ <= ?v =>
      replace v with (sq o0 + sq o1 + sq o2
                      - 2 * k * (o0 * x0 + o1 * x1 + o2 * x2) / len
                      + k * k * ((sq x0 + sq x1 + sq x2) / (len * len)))
        by (unfold o0, o1, o2, sq; field; exact E)
    end.
    rewrite <- Hlen.
    replace (o0 * x0 + o1 * x1 + o2 * x2) with 0 by (unfold x0, x1, x2; ring).
    replace (k * k * (len * len / (len * len))) with (k * k) by (field; exact E).
    assert (0 <= sq o0 + sq o1 + sq o2) by (unfold sq; nra).
    replace (2 * k * 0 / len) with 0 by (field; exact E).
    lra.
Qed.

Lemma scenario_points_distinct : scenario_start <> scenario_goal.
Proof. unfold scenario_start, scenario_goal. intros [= H]. lra. Qed.

Lemma scenario_projection :
  projection_parameter scenario_start scenario_goal (1, 0, 5 / 10) = 1 / 2.
Proof.
  unfold projection_parameter, scenario_start, scenario_goal. cbn [c0 c1 c2 fst snd].
  unfold sq. field.
Qed.


(** The scenario: the detour point is 0.45 from the obstacle. *)
Lemma detour_midpoint_clears_obstacle_witness :
  safety_radius default_planner * (15 / 10)
  <= euclid (_calculate_detour_midpoint default_planner scenario_start scenario_goal
                                        (1, 0, 5 / 10)) (1, 0, 5 / 10).
Proof.
  apply detour_midpoint_clears_obstacle.
  - simpl. lra.
  - exact scenario_points_distinct.
  - rewrite scenario_projection. lra.
Defined.

(** *** Lengths *)

Lemma sq_nonneg (v : R) : 0 <= sq v.
Proof. apply Rle_0_sqr. Qed.

Lemma sqrt_upper (v t : R) : 0 <= t -> v <= t * t -> sqrt v <= t.
Proof.
  intros Ht Hv. rewrite <- (sqrt_square t) by exact Ht.
  destruct (Rle_dec 0 v) as [Hv0 | Hv0].
  - now apply sqrt_le_1_alt.
  - rewrite sqrt_neg_0 by lra. apply sqrt_pos.
Qed.

Lemma cauchy_schwarz (u0 u1 u2 v0 v1 v2 : R) :
  u0 * v0 + u1 * v1 + u2 * v2
  <= sqrt (sq u0 + sq u1 + sq u2) * sqrt (sq v0 + sq v1 + sq v2).
Proof.
  pose proof (sq_nonneg u0). pose proof (sq_nonneg u1). pose proof (sq_nonneg u2).
  pose proof (sq_nonneg v0). pose proof (sq_nonneg v1). pose proof (sq_nonneg v2).
  rewrite <- sqrt_mult by lra.
  destruct (Rle_dec (u0 * v0 + u1 * v1 + u2 * v2) 0) as [Hneg | Hpos].
  - eapply Rle_trans; [ exact Hneg | apply sqrt_pos ].
  - apply sqrt_lower; [ lra | ].
    assert (Lagrange : (sq u0 + sq u1 + sq u2) * (sq v0 + sq v1 + sq v2)
                       - (u0 * v0 + u1 * v1 + u2 * v2) * (u0 * v0 + u1 * v1 + u2 * v2)
                       = sq (u1 * v2 - u2 * v1) + sq (u2 * v0 - u0 * v2)
                         + sq (u0 * v1 - u1 * v0)) by (unfold sq; ring).
    pose proof (sq_nonneg (u1 * v2 - u2 * v1)).
    pose proof (sq_nonneg (u2 * v0 - u0 * v2)).
    pose proof (sq_nonneg (u0 * v1 - u1 * v0)).
    lra.
Qed.

Lemma euclid_triangle (a b c : Point) : euclid a c <= euclid a b + euclid b c.
Proof.
  unfold euclid.
  set (u0 := c0 a - c0 b). set (u1 := c1 a - c1 b). set (u2 := c2 a - c2 b).
  set (v0 := c0 b - c0 c). set (v1 := c1 b - c1 c). set (v2 := c2 b - c2 c).
  pose proof (cauchy_schwarz u0 u1 u2 v0 v1 v2) as CS.
  set (A := sq u0 + sq u1 + sq u2) in *. set (B := sq v0 + sq v1 + sq v2) in *.
  assert (HA : 0 <= A)
    by (pose proof (sq_nonneg u0); pose proof (sq_nonneg u1); pose proof (sq_nonneg u2);
        unfold A; lra).
  assert (HB : 0 <= B)
    by (pose proof (sq_nonneg v0); pose proof (sq_nonneg v1); pose proof (sq_nonneg v2);
        unfold B; lra).
  pose proof (sqrt_pos A) as PA. pose proof (sqrt_pos B) as PB.
  pose proof (sqrt_sqrt A HA) as SA. pose proof (sqrt_sqrt B HB) as SB.
  apply sqrt_upper; [ lra | ].
  replace (sq (c0 a - c0 c) + sq (c1 a - c1 c) + sq (c2 a - c2 c))
    with (A + B + 2 * (u0 * v0 + u1 * v1 + u2 * v2))
    by (unfold A, B, u0, u1, u2, v0, v1, v2, sq; ring).
  nra.
Qed.

Lemma euclid_self (a : Point) : euclid a a = 0.
Proof.
  unfold euclid. replace (sq _ + sq _ + sq _) with 0 by (unfold sq; ring). apply sqrt_0.
Qed.

Lemma sum_consecutive_lower (path : list Point) :
  forall first, euclid first (last path first) <= euclid first (hd first path)
                                                  + sum_consecutive path.
Proof.
  induction path as [| a rest IH]; intros first.
  - cbn. rewrite euclid_self. lra.
  - destruct rest as [| b rest'].
    + cbn. lra.
    + change (last (a :: b :: rest') first) with (last (b :: rest') first).
      change (sum_consecutive (a :: b :: rest'))
        with (euclid a b + sum_consecutive (b :: rest')).
      cbn [hd].
      specialize (IH a). cbn [hd] in IH.
      replace (last (b :: rest') first) with (last (b :: rest') a)
        by (clear; revert b; induction rest' as [| x l IHl]; intros b;
            [ reflexivity | exact (IHl x) ]).
      pose proof (euclid_triangle first a (last (b :: rest') a)). lra.
Qed.

(** X10.  The reported [pathLength] of a path of at least two waypoints is
    never less than the straight distance from its first to its last
    waypoint. *)
Theorem path_length_at_least_direct :
  forall self path obstacles first,
  (2 <= length path)%nat ->
  hd_error path = Some first ->
  euclid first (last path first) <= pathLength (validate_path self path obstacles).
Proof.
  intros self path obstacles first H Hhd.
  unfold validate_path.
  replace (length path <? 2)%nat with false by (symmetry; now apply Nat.ltb_ge).
  cbn [pathLength]. rewrite length_loop_by_segments.
  pose proof (sum_consecutive_lower path first) as S.
  destruct path as [| a rest]; [ discriminate | ].
  injection Hhd as ->. cbn [hd] in S. rewrite euclid_self in S. lra.
Qed.

(** The detour of the scenario is at least the two metres of the straight
    way. *)
Lemma path_length_at_least_direct_witness :
  euclid scenario_start scenario_goal
  <= pathLength (validate_path default_planner
                   [scenario_start; (1, 0, 95 / 100); scenario_goal] scenario_obstacles).
Proof.
  apply (path_length_at_least_direct default_planner
           [scenario_start; (1, 0, 95 / 100); scenario_goal] scenario_obstacles
           scenario_start).
  - simpl. lia.
  - reflexivity.
Defined.

End PlannerFacts.

(** ** The simulator: further properties *)

Module SimulatorFacts.
Import Simulator SimulatorSpec SimulatorTerms SimulatorProofs.

(** *** Commands *)

Lemma takeoff_cases drones drone_id height duration now :
  match get drones drone_id with
  | None => takeoff drones drone_id height duration now = (false, drones)
  | Some drone =>
      match status drone with
      | IDLE =>
          takeoff drones drone_id height duration now
          = (true, modify drones drone_id
                     (fun drone =>
                        set_takeoff_start
                          (set_takeoff_duration
                             (set_takeoff_height (set_status drone TAKING_OFF) height)
                             duration) now))
      | _ => takeoff drones drone_id height duration now = (false, drones)
      end
  end.
Proof.
  unfold takeoff. destruct (get drones drone_id) as [d |]; [ | reflexivity ].
  destruct (status d); reflexivity.
Qed.

(** X11.  [takeoff] returns true exactly when the identifier is registered
    and its drone is [IDLE]; the drone is then [TAKING_OFF] with the given
    height and duration and the current time as start, at the position and
    with the battery it had, and no other drone changes; otherwise the
    registry is the one given. *)
Theorem takeoff_contract :
  forall drones drone_id height duration now,
  (fst (takeoff drones drone_id height duration now) = true <->
   exists drone, get drones drone_id = Some drone /\ status drone = IDLE) /\
  (fst (takeoff drones drone_id height duration now) = true ->
   exists drone drone',
     get drones drone_id = Some drone /\
     get (snd (takeoff drones drone_id height duration now)) drone_id = Some drone' /\
     status drone' = TAKING_OFF /\ takeoff_height drone' = height /\
     takeoff_duration drone' = duration /\ takeoff_start drone' = now /\
     x drone' = x drone /\ y drone' = y drone /\ z drone' = z drone /\
     battery drone' = battery drone /\ target_of drone' = target_of drone /\
     forall other, other <> drone_id ->
       get (snd (takeoff drones drone_id height duration now)) other = get drones other) /\
  (fst (takeoff drones drone_id height duration now) = false ->
   snd (takeoff drones drone_id height duration now) = drones).
Proof.
  intros drones drone_id height duration now.
  pose proof (takeoff_cases drones drone_id height duration now) as C.
  destruct (get drones drone_id) as [d |] eqn:G.
  - destruct (status d) eqn:S;
      try (rewrite C; cbn [fst snd]; repeat split; try discriminate;
           intros (d' & [= <-] & H); congruence).
    split; [ | split ].
    + rewrite C. cbn [fst]. split; [ | reflexivity ]. intros _. now exists d.
    + intros _. rewrite C. cbn [snd].
      exists d. eexists. rewrite get_modify_same, G. cbn [option_map].
      split; [ reflexivity | split; [ reflexivity | ] ].
      cbn. repeat split. intros other Hne. now apply get_modify_other.
    + rewrite C. discriminate.
  - rewrite C. cbn [fst snd]. repeat split; try discriminate.
    intros (d & [=] & _).
Qed.

Lemma land_cases drones drone_id now :
  match get drones drone_id with
  | None => land drones drone_id now = (false, drones)
  | Some drone =>
      match status drone with
      | FLYING | TAKING_OFF =>
          land drones drone_id now
          = (true, modify drones drone_id
                     (fun drone => set_land_start (set_status drone LANDING) now))
      | _ => land drones drone_id now = (false, drones)
      end
  end.
Proof.
  unfold land. destruct (get drones drone_id) as [d |]; [ | reflexivity ].
  destruct (status d); reflexivity.
Qed.

(** X12.  [land] returns true exactly when the identifier is registered and
    its drone is [FLYING] or [TAKING_OFF]; the drone is then [LANDING] with
    the current time as [land_start], where it was, and no other drone
    changes; otherwise the registry is the one given. *)
Theorem land_contract :
  forall drones drone_id now,
  (fst (land drones drone_id now) = true <->
   exists drone, get drones drone_id = Some drone /\
                 (status drone = FLYING \/ status drone = TAKING_OFF)) /\
  (fst (land drones drone_id now) = true ->
   exists drone drone',
     get drones drone_id = Some drone /\
     get (snd (land drones drone_id now)) drone_id = Some drone' /\
     status drone' = LANDING /\ land_start drone' = now /\
     x drone' = x drone /\ y drone' = y drone /\ z drone' = z drone /\
     battery drone' = battery drone /\ target_of drone' = target_of drone /\
     forall other, other <> drone_id ->
       get (snd (land drones drone_id now)) other = get drones other) /\
  (fst (land drones drone_id now) = false -> snd (land drones drone_id now) = drones).
Proof.
  intros drones drone_id now.
  pose proof (land_cases drones drone_id now) as C.
  assert (Accepted :
            forall d, get drones drone_id = Some d ->
            land drones drone_id now
            = (true, modify drones drone_id
                       (fun drone => set_land_start (set_status drone LANDING) now)) ->
            exists drone drone',
              get drones drone_id = Some drone /\
              get (snd (land drones drone_id now)) drone_id = Some drone' /\
              status drone' = LANDING /\ land_start drone' = now /\
              x drone' = x drone /\ y drone' = y drone /\ z drone' = z drone /\
              battery drone' = battery drone /\ target_of drone' = target_of drone /\
              forall other, other <> drone_id ->
                get (snd (land drones drone_id now)) other = get drones other).
  { intros d G E. rewrite E. cbn [snd].
    exists d. eexists. rewrite get_modify_same, G. cbn [option_map].
    split; [ reflexivity | split; [ reflexivity | ] ].
    cbn. repeat split. intros other Hne. now apply get_modify_other. }
  destruct (get drones drone_id) as [d |] eqn:G.
  - destruct (status d) eqn:S;
      try (rewrite C; cbn [fst snd]; repeat split; try discriminate;
           intros (d' & [= <-] & [H | H]); congruence).
    + split; [ | split ].
      * rewrite C. cbn [fst]. split; [ | reflexivity ]. intros _. exists d. auto.
      * intros _. now apply (Accepted d).
      * rewrite C. discriminate.
    + split; [ | split ].
      * rewrite C. cbn [fst]. split; [ | reflexivity ]. intros _. exists d. auto.
      * intros _. now apply (Accepted d).
      * rewrite C. discriminate.
  - rewrite C. cbn [fst snd]. repeat split; try discriminate.
    intros (d & [=] & _).
Qed.

(** X13.  [emergency_stop] leaves every registered drone [IDLE] with zero
    velocity, where it was and with its battery and target, drones in
    [ERROR] included; it registers and removes none, and a second stop
    changes nothing. *)
Theorem emergency_stop_effect :
  forall drones,
  (forall drone_id drone,
     get drones drone_id = Some drone ->
     exists drone',
       get (emergency_stop drones) drone_id = Some drone' /\
       status drone' = IDLE /\ vx drone' = 0 /\ vy drone' = 0 /\ vz drone' = 0 /\
       x drone' = x drone /\ y drone' = y drone /\ z drone' = z drone /\
       battery drone' = battery drone /\ target_of drone' = target_of drone) /\
  map fst (emergency_stop drones) = map fst drones /\
  emergency_stop (emergency_stop drones) = emergency_stop drones.
Proof.
  intros drones. split; [ | split ].
  - intros drone_id drone G. rewrite get_emergency_stop, G. cbn [option_map].
    eexists. split; [ reflexivity | ]. cbn. repeat split.
  - unfold emergency_stop. rewrite map_map. apply map_ext. now intros [k d].
  - unfold emergency_stop. rewrite map_map. apply map_ext. now intros [k d].
Qed.

(** *** The drones of a session *)

Lemma keys_modify drones drone_id f : map fst (modify drones drone_id f) = map fst drones.
Proof.
  induction drones as [| [k d] rest IH]; [ reflexivity | ].
  cbn [modify]. destruct (String.eqb k drone_id); cbn [map fst]; [ reflexivity | ].
  now rewrite IH.
Qed.

Lemma keys_update_loop current_time noise drones :
  forall k, map fst (update_loop current_time noise k drones) = map fst drones.
Proof.
  induction drones as [| [key d] rest IH]; intros k; [ reflexivity | ].
  cbn [update_loop map fst]. now rewrite IH.
Qed.

Lemma keys_assign_targets drones :
  forall positions, map fst (assign_targets positions drones) = map fst drones.
Proof.
  induction drones as [| [k d] rest IH]; intros positions; [ reflexivity | ].
  cbn [assign_targets].
  destruct (status_eqb (status d) FLYING); [ destruct positions | ];
    cbn [map fst]; now rewrite IH.
Qed.

Lemma operation_keeps_identifiers drones op :
  keeps_drones op = true ->
  map fst (apply_operation drones op) = map fst drones.
Proof.
  intros Hop. destruct op; try discriminate; cbn [apply_operation].
  - apply keys_update_loop.
  - unfold takeoff. destruct (get drones drone_id); [ | reflexivity ].
    destruct (negb _); [ reflexivity | apply keys_modify ].
  - unfold goto. destruct (get drones drone_id); [ | reflexivity ].
    destruct (negb _); [ reflexivity | apply keys_modify ].
  - unfold land. destruct (get drones drone_id); [ | reflexivity ].
    destruct (negb _); [ reflexivity | apply keys_modify ].
  - unfold set_formation. destruct (filter _ drones); [ reflexivity | ].
    apply keys_assign_targets.
  - unfold emergency_stop. rewrite map_map. apply map_ext. now intros [k d].
Qed.

(** X14.  A tick and every command but [create_swarm] and [reset] keep the
    identifiers of the registry, in their order: no other operation adds or
    removes a drone. *)
Theorem operations_keep_identifiers :
  forall drones ops,
  forallb keeps_drones ops = true ->
  map fst (run drones ops) = map fst drones.
Proof.
  intros drones ops. revert drones. unfold run.
  induction ops as [| op ops IH]; intros drones H; [ reflexivity | ].
  cbn [forallb] in H. apply andb_true_iff in H. destruct H as [Hop Hops].
  cbn [fold_left]. rewrite IH by exact Hops.
  now apply operation_keeps_identifiers.
Qed.

Lemma operations_keep_identifiers_witness :
  map fst (run [("d1"%string, flying_drone); ("d2"%string, errored_drone)]
               [Tick 1 (fun _ => no_noise); Land "d1" 2; EmergencyStop])
  = ["d1"%string; "d2"%string].
Proof.
  apply (operations_keep_identifiers
           [("d1"%string, flying_drone); ("d2"%string, errored_drone)]).
  reflexivity.
Defined.

(** *** [create_swarm] *)

Lemma string_of_nat_inj n m : string_of_nat n = string_of_nat m -> n = m.
Proof.
  unfold string_of_nat. intros H.
  apply Unsigned.to_uint_inj.
  assert (E : NilEmpty.uint_of_string (NilEmpty.string_of_uint (Nat.to_uint n))
              = NilEmpty.uint_of_string (NilEmpty.string_of_uint (Nat.to_uint m)))
    by now rewrite H.
  rewrite !NilEmpty.usu in E. now injection E.
Qed.

Lemma swarm_id_inj i j : swarm_id i = swarm_id j -> i = j.
Proof.
  unfold swarm_id. cbn [append]. intros [= H]. apply string_of_nat_inj in H. lia.
Qed.

Lemma swarm_ids_distinct (l : list nat) : NoDup l -> NoDup (map swarm_id l).
Proof.
  induction 1 as [| i l Hi _ IH]; cbn [map]; constructor; [ | exact IH ].
  intros Hin. apply in_map_iff in Hin. destruct Hin as (j & E & Hj).
  apply swarm_id_inj in E. now subst j.
Qed.

Lemma create_loop_ids run_id (l : list nat) :
  forall drone_ids drones,
  fst (fold_left
         (fun (st : list string * registry) (i : nat) =>
            let drone_id := ("d" ++ string_of_nat (i + 1))%string in
            let drone := new_drone drone_id in
            let drone := set_run_id drone run_id in
            (fst st ++ [drone_id], dict_set (snd st) drone_id drone))
         l (drone_ids, drones))
  = drone_ids ++ map swarm_id l.
Proof.
  induction l as [| i l IH]; intros drone_ids drones; cbn [fold_left fst snd map].
  - now rewrite app_nil_r.
  - rewrite IH, <- app_assoc. reflexivity.
Qed.

Lemma create_loop_get run_id (l : list nat) :
  forall drone_ids drones drone_id,
  get (snd (fold_left
              (fun (st : list string * registry) (i : nat) =>
                 let drone_id := ("d" ++ string_of_nat (i + 1))%string in
                 let drone := new_drone drone_id in
                 let drone := set_run_id drone run_id in
                 (fst st ++ [drone_id], dict_set (snd st) drone_id drone))
              l (drone_ids, drones))) drone_id
  = if in_dec string_dec drone_id (map swarm_id l)
    then Some (fresh_drone drone_id run_id)
    else get drones drone_id.
Proof.
  induction l as [| i l IH]; intros drone_ids drones drone_id; [ reflexivity | ].
  cbn [fold_left fst snd]. rewrite IH.
  destruct (in_dec string_dec drone_id (map swarm_id l)) as [Hin | Hnin];
    destruct (in_dec string_dec drone_id (map swarm_id (i :: l))) as [Hin' | Hnin'];
    try reflexivity.
  - exfalso. apply Hnin'. now right.
  - cbn [map] in Hin'. destruct Hin' as [<- | Hin']; [ | contradiction ].
    apply get_dict_set_same.
  - apply get_dict_set_other. intros ->. apply Hnin'. now left.
Qed.

Lemma keys_dict_set_new drones drone_id drone :
  ~ In drone_id (map fst drones) ->
  map fst (dict_set drones drone_id drone) = map fst drones ++ [drone_id].
Proof.
  induction drones as [| [k d] rest IH]; intros Hnin; [ reflexivity | ].
  cbn [dict_set]. destruct (String.eqb k drone_id) eqn:E.
  - apply String.eqb_eq in E. subst k. exfalso. apply Hnin. now left.
  - cbn [map fst app]. rewrite IH; [ reflexivity | ].
    intros Hin. apply Hnin. now right.
Qed.

Lemma create_loop_keys run_id (l : list nat) :
  NoDup l ->
  forall drone_ids drones,
  (forall i, In i l -> ~ In (swarm_id i) (map fst drones)) ->
  map fst (snd (fold_left
                  (fun (st : list string * registry) (i : nat) =>
                     let drone_id := ("d" ++ string_of_nat (i + 1))%string in
                     let drone := new_drone drone_id in
                     let drone := set_run_id drone run_id in
                     (fst st ++ [drone_id], dict_set (snd st) drone_id drone))
                  l (drone_ids, drones)))
  = map fst drones ++ map swarm_id l.
Proof.
  induction 1 as [| i l Hi _ IH]; intros drone_ids drones Hfresh;
    cbn [fold_left fst snd map].
  - now rewrite app_nil_r.
  - rewrite IH.
    + rewrite keys_dict_set_new by (apply Hfresh; now left).
      now rewrite <- app_assoc.
    + intros j Hj. rewrite keys_dict_set_new by (apply Hfresh; now left).
      intros Hin. apply in_app_or in Hin. destruct Hin as [Hin | [E | []]].
      * apply (Hfresh j); [ now right | exact Hin ].
      * apply swarm_id_inj in E. subst j. contradiction.
Qed.

(** X15.  [create_swarm(count, run_id)] returns the [count] distinct
    identifiers [d1, ..., dcount]; each of them is then registered with a
    fresh drone of that run ([IDLE], battery 100, at the origin), whatever
    was registered under it before; every other identifier keeps its drone;
    and on an empty registry the registry holds those [count] drones in
    that order. *)
Theorem create_swarm_effect :
  forall count run_id drones,
  fst (create_swarm count run_id drones) = map swarm_id (seq 0 count) /\
  length (fst (create_swarm count run_id drones)) = count /\
  NoDup (fst (create_swarm count run_id drones)) /\
  (forall drone_id,
     In drone_id (fst (create_swarm count run_id drones)) ->
     get (snd (create_swarm count run_id drones)) drone_id
     = Some (fresh_drone drone_id run_id)) /\
  (forall drone_id,
     ~ In drone_id (fst (create_swarm count run_id drones)) ->
     get (snd (create_swarm count run_id drones)) drone_id = get drones drone_id) /\
  map fst (snd (create_swarm count run_id [])) = map swarm_id (seq 0 count).
Proof.
  intros count run_id drones.
  assert (Ids : fst (create_swarm count run_id drones) = map swarm_id (seq 0 count)).
  { unfold create_swarm. now rewrite create_loop_ids. }
  rewrite Ids.
  split; [ reflexivity | split; [ | split; [ | split; [ | split ] ] ] ].
  - now rewrite length_map, length_seq.
  - apply swarm_ids_distinct, seq_NoDup.
  - intros drone_id Hin. unfold create_swarm. rewrite create_loop_get.
    now destruct (in_dec string_dec drone_id (map swarm_id (seq 0 count))).
  - intros drone_id Hnin. unfold create_swarm. rewrite create_loop_get.
    now destruct (in_dec string_dec drone_id (map swarm_id (seq 0 count))).
  - unfold create_swarm. rewrite create_loop_keys; [ reflexivity | apply seq_NoDup | ].
    intros i _ [].
Qed.

(** The drones of a fresh swarm of three. *)
Lemma create_swarm_three :
  fst (create_swarm 3 "run" []) = ["d1"; "d2"; "d3"]%string.
Proof. reflexivity. Qed.

(** *** Landing *)

Lemma update_landing_done drone current_time :
  Rabs (z drone) <= 5 / 100 ->
  _update_landing drone current_time = set_status (set_vz (set_z drone 0) 0) IDLE.
Proof.
  intros H. unfold _update_landing, Rgtb. cbv zeta.
  replace (Rltb (5 / 100) (Rabs (0 - z drone))) with false; [ reflexivity | ].
  symmetry. apply Rltb_false.
  replace (0 - z drone) with (- z drone) by ring. now rewrite Rabs_Ropp.
Qed.

Lemma clamp_cases (e : R) :
  (e <= - max_speed /\ Rmin max_speed (Rmax (- max_speed) e) = - max_speed) \/
  (- max_speed <= e <= max_speed /\ Rmin max_speed (Rmax (- max_speed) e) = e) \/
  (max_speed <= e /\ Rmin max_speed (Rmax (- max_speed) e) = max_speed).
Proof.
  unfold max_speed, Rmin, Rmax.
  destruct (Rle_dec (- (1)) e); destruct (Rle_dec 1 _); lra.
Qed.

Lemma update_landing_descends drone current_time :
  5 / 100 < Rabs (z drone) ->
  status (_update_landing drone current_time) = status drone /\
  Rabs (z (_update_landing drone current_time)) <= Rabs (z drone) - 5 / 1000 /\
  Rabs (vz (_update_landing drone current_time)) <= max_speed.
Proof.
  intros H. unfold _update_landing, Rgtb. cbv zeta.
  replace (Rltb (5 / 100) (Rabs (0 - z drone))) with true.
  2:{ symmetry. apply Rltb_true.
      replace (0 - z drone) with (- z drone) by ring. now rewrite Rabs_Ropp. }
  cbn. split; [ reflexivity | ].
  destruct (clamp_cases ((0 - z drone) * 2)) as [[He ->] | [[He ->] | [He ->]]];
    revert H He; unfold max_speed, dt, tick_rate, Rabs;
    repeat match goal with
           | |- context [Rcase_abs ?a] => destruct (Rcase_abs a)
           end; intros; split; lra.
Qed.

Lemma phase_update_idle current_time drone :
  status drone = IDLE -> phase_update current_time drone = drone.
Proof. intros H. unfold phase_update. now rewrite H. Qed.

(** X16.  Landing without noise comes to an end: a [LANDING] drone at
    height [|z| <= 0.05 + 0.005 n] is [IDLE] on the ground, [z = 0] and
    [vz = 0], after [n + 1] phase updates; each update before that brings it
    at least 5 mm closer to the ground. *)
Theorem landing_reaches_ground :
  forall n current_time drone,
  status drone = LANDING ->
  Rabs (z drone) <= 5 / 100 + INR n * (5 / 1000) ->
  status (Nat.iter (S n) (phase_update current_time) drone) = IDLE /\
  z (Nat.iter (S n) (phase_update current_time) drone) = 0 /\
  vz (Nat.iter (S n) (phase_update current_time) drone) = 0.
Proof.
  induction n as [| n IH]; intros current_time drone S H.
  - cbn [Nat.iter nat_rect]. unfold phase_update. rewrite S.
    rewrite update_landing_done by (simpl in H; lra). now cbn.
  - rewrite Nat.iter_succ_r.
    destruct (Rle_dec (Rabs (z drone)) (5 / 100)) as [Hlow | Hhigh].
    + assert (E : phase_update current_time drone
                  = set_status (set_vz (set_z drone 0) 0) IDLE).
      { unfold phase_update. rewrite S. now apply update_landing_done. }
      rewrite E.
      assert (Fix : forall m d, status d = IDLE ->
                      Nat.iter m (phase_update current_time) d = d).
      { induction m as [| m IHm]; intros d Hd; [ reflexivity | ].
        rewrite Nat.iter_succ_r, phase_update_idle by exact Hd. now apply IHm. }
      rewrite Fix by reflexivity. now cbn.
    + assert (Hz : 5 / 100 < Rabs (z drone)) by lra.
      destruct (update_landing_descends drone current_time Hz) as (S' & D & _).
      assert (E : phase_update current_time drone = _update_landing drone current_time).
      { unfold phase_update. now rewrite S. }
      rewrite E. apply IH.
      * now rewrite S'.
      * rewrite S_INR in H. lra.
Qed.

(** A drone 10 cm up is on the ground within eleven updates. *)
Lemma landing_reaches_ground_witness :
  status (Nat.iter 11 (phase_update 0)
            (set_status (set_z (new_drone "d1") (10 / 100)) LANDING)) = IDLE.
Proof.
  apply (landing_reaches_ground 10 0 (set_status (set_z (new_drone "d1") (10 / 100)) LANDING)).
  - reflexivity.
  - cbn [z set_status set_z]. rewrite Rabs_right by lra.
    replace (INR 10) with 10 by (simpl; lra). lra.
Defined.

(** *** Flying *)

(** X17.  A flying step goes straight at the target and stops short of it:
    beyond 5 cm the distance to the target shrinks by exactly
    [max_speed * min(1, distance / 0.1) * dt], which is positive and at most
    5 cm; within 5 cm the drone keeps its position with zero velocity. *)
Theorem flying_step_approaches_target :
  forall drone current_time,
  (5 / 100 < distance_to_target drone ->
   distance_to_target (_update_flying drone current_time)
   = distance_to_target drone
     - max_speed * Rmin 1 (distance_to_target drone / (1 / 10)) * dt /\
   0 < max_speed * Rmin 1 (distance_to_target drone / (1 / 10)) * dt <= 5 / 100) /\
  (distance_to_target drone <= 5 / 100 ->
   _update_flying drone current_time = set_vz (set_vy (set_vx drone 0) 0) 0).
Proof.
  intros drone current_time. unfold distance_to_target, _update_flying, Rgtb. cbv zeta.
  set (dx := target_x drone - x drone).
  set (dy := target_y drone - y drone).
  set (dz := target_z drone - z drone).
  set (D := sqrt (sq dx + sq dy + sq dz)).
  split.
  - intros HD.
    replace (Rltb (5 / 100) D) with true by (symmetry; now apply Rltb_true).
    cbn [x y z target_x target_y target_z vx vy vz
         set_vx set_vy set_vz set_x set_y set_z].
    fold dx dy dz.
    set (s := max_speed * Rmin 1 (D / (1 / 10)) * dt).
    assert (Hs : 0 < s <= 5 / 100).
    { unfold s, max_speed, dt, tick_rate, Rmin.
      destruct (Rle_dec 1 (D / (1 / 10))); lra. }
    split; [ | exact Hs ].
    assert (HS : 0 <= sq dx + sq dy + sq dz).
    { unfold sq. nra. }
    assert (HDD : D * D = sq dx + sq dy + sq dz) by now apply sqrt_sqrt.
    replace (sq (target_x drone - (x drone + dx / D * (max_speed * Rmin 1 (D / (1 / 10))) * dt))
             + sq (target_y drone
                   - (y drone + dy / D * (max_speed * Rmin 1 (D / (1 / 10))) * dt))
             + sq (target_z drone
                   - (z drone + dz / D * (max_speed * Rmin 1 (D / (1 / 10))) * dt)))
      with ((sq dx + sq dy + sq dz) / (D * D) * ((D - s) * (D - s)))
      by (unfold s, dx, dy, dz, sq; field; lra).
    rewrite <- HDD.
    replace (D * D / (D * D) * ((D - s) * (D - s))) with ((D - s) * (D - s))
      by (field; lra).
    rewrite sqrt_square by lra. reflexivity.
  - intros HD.
    now replace (Rltb (5 / 100) D) with false by (symmetry; now apply Rltb_false).
Qed.

(** *** When a tick raises [ERROR] *)

Lemma phase_update_error_inv current_time drone :
  status (phase_update current_time drone) = ERROR -> status drone = ERROR.
Proof.
  unfold phase_update. destruct (status drone) eqn:S; try (intros H; congruence).
  - unfold _update_takeoff. cbv zeta. destruct (Rgeb _ _); cbn; congruence.
  - rewrite (proj2 (update_flying_keeps drone current_time)). congruence.
  - unfold _update_landing. cbv zeta. destruct (Rgtb _ _); cbn; congruence.
Qed.

Lemma check_errors_cases drone :
  (battery drone <= 0 \/ outside_checked_bounds drone) /\
  check_errors drone = set_status drone ERROR
  \/
  (0 < battery drone /\ ~ outside_checked_bounds drone) /\ check_errors drone = drone.
Proof.
  unfold check_errors, outside_checked_bounds, Rgtb.
  destruct (Rleb (battery drone) 0) eqn:Eb.
  { apply Rleb_true in Eb. left. auto. }
  apply Rleb_false in Eb.
  destruct (Rltb workspace_bounds (Rabs (x drone))) eqn:Ex.
  { apply Rltb_true in Ex. left. cbn [orb]. split; [ right; left; lra | reflexivity ]. }
  destruct (Rltb workspace_bounds (Rabs (y drone))) eqn:Ey.
  { apply Rltb_true in Ey. left. cbn [orb].
    split; [ right; right; left; lra | reflexivity ]. }
  destruct (Rltb max_height (z drone)) eqn:Ez.
  { apply Rltb_true in Ez. left. cbn [orb].
    split; [ right; right; right; lra | reflexivity ]. }
  apply Rltb_false in Ex, Ey, Ez. right. cbn [orb].
  split; [ split; [ exact Eb | lra ] | reflexivity ].
Qed.

Lemma tick_error_cases :
  forall current_time n drone,
  status (update_drone current_time n drone) = ERROR <->
  status drone = ERROR \/
  drained (battery drone) <= 0 \/
  outside_checked_bounds (update_drone current_time n drone).
Proof.
  intros current_time n drone. split.
  - intros H.
    destruct (Rle_dec (drained (battery drone)) 0) as [Hb | Hb]; [ auto | ].
    rewrite update_drone_stages in *. cbn [status set_last_update] in H.
    set (d3 := add_noise n (phase_update current_time
                              (set_battery drone (drained (battery drone))))) in *.
    destruct (check_errors_cases d3) as [[[Hc | Hc] E] | [[_ Hin] E]].
    + exfalso. apply Hb. revert Hc. unfold d3.
      cbn [battery add_noise set_vz set_vy set_vx set_z set_y set_x].
      now rewrite phase_update_battery.
    + right. right. unfold outside_checked_bounds in *.
      cbn [x y z set_last_update]. rewrite E. exact Hc.
    + left. rewrite E in H. unfold d3 in H.
      cbn [status add_noise set_vz set_vy set_vx set_z set_y set_x] in H.
      apply phase_update_error_inv in H. exact H.
  - intros [H | [H | H]].
    + now apply update_drone_error.
    + rewrite update_drone_stages. cbn [status set_last_update].
      set (d3 := add_noise n (phase_update current_time
                                (set_battery drone (drained (battery drone))))).
      destruct (check_errors_cases d3) as [[_ E] | [[Hpos _] E]]; [ now rewrite E | ].
      exfalso. revert Hpos. unfold d3.
      cbn [battery add_noise set_vz set_vy set_vx set_z set_y set_x].
      rewrite phase_update_battery. cbn [battery set_battery]. lra.
    + now apply update_drone_outside.
Qed.


(** X18.  A tick leaves a drone in [ERROR] exactly when it was in [ERROR]
    before, or its battery after the drain is at most 0, or its position
    after the noise has [|x|] or [|y|] above the workspace bound or [z]
    above the maximum height: nothing else puts a drone in [ERROR]. *)
Theorem tick_error_iff :
  forall current_time n drone,
  status (update_drone current_time n drone) = ERROR <->
  status drone = ERROR \/
  drained (battery drone) <= 0 \/
  outside_checked_bounds (update_drone current_time n drone).
Proof. exact tick_error_cases. Qed.

(** *** The battery over a run *)






(** *** Formations *)

Lemma formation_count formation count parameters :
  length (_calculate_formation_positions formation count parameters)
  = if known_formation formation then count else 0%nat.
Proof.
  unfold _calculate_formation_positions, known_formation.
  destruct (String.eqb formation "line"); cbn [orb];
    [ now rewrite length_map, length_seq | ].
  destruct (String.eqb formation "circle"); cbn [orb];
    [ now rewrite length_map, length_seq | ].
  destruct (String.eqb formation "grid"); cbn [orb];
    [ now rewrite length_map, length_seq | ].
  destruct (String.eqb formation "vshape"); cbn [orb];
    [ now rewrite length_map, length_seq | reflexivity ].
Qed.

Lemma assign_no_positions drones : assign_targets [] drones = drones.
Proof.
  induction drones as [| [k d] rest IH]; [ reflexivity | ].
  cbn [assign_targets]. destruct (status_eqb (status d) FLYING); now rewrite IH.
Qed.

Lemma assign_targets_grounded drones drone_id drone :
  forall positions,
  get drones drone_id = Some drone ->
  status drone <> FLYING ->
  get (assign_targets positions drones) drone_id = Some drone.
Proof.
  induction drones as [| [k d] rest IH]; intros positions G S; [ discriminate | ].
  cbn [get] in G. cbn [assign_targets].
  destruct (String.eqb k drone_id) eqn:E.
  - injection G as ->.
    replace (status_eqb (status drone) FLYING) with false
      by (destruct (status drone); try reflexivity; congruence).
    cbn [get]. now rewrite E.
  - destruct (status_eqb (status d) FLYING); [ destruct positions | ];
      cbn [get]; rewrite E; now apply IH.
Qed.

Lemma position_eta (p : Position) : (fst (fst p), snd (fst p), snd p) = p.
Proof. now destruct p as [[a b] c]. Qed.

Lemma assign_targets_flying drones :
  forall positions,
  length positions = length (filter is_flying drones) ->
  map (fun kd => target_of (snd kd)) (filter is_flying (assign_targets positions drones))
  = positions.
Proof.
  induction drones as [| [k d] rest IH]; intros positions L.
  - destruct positions; [ reflexivity | discriminate ].
  - cbn [assign_targets filter] in *. unfold is_flying at 1 in L. cbn [snd] in L.
    destruct (status_eqb (status d) FLYING) eqn:S.
    + destruct positions as [| p ps]; [ discriminate | ].
      cbn [filter]. unfold is_flying at 1.
      cbn [snd status set_target_z set_target_y set_target_x].
      rewrite S. cbn [map snd]. unfold target_of at 1.
      cbn [target_x target_y target_z set_target_z set_target_y set_target_x].
      rewrite position_eta. f_equal. apply IH. now injection L.
    + cbn [filter]. unfold is_flying at 1. cbn [snd]. rewrite S. now apply IH.
Qed.

(** X20.  [set_formation] returns false exactly when no drone is [FLYING],
    and the registry is then the one given; it never changes anything but
    targets, and never a drone that is not [FLYING]; with a pattern name it
    does not know it changes nothing, and still returns true when a drone is
    flying. *)
Theorem set_formation_contract :
  forall drones formation parameters,
  (fst (set_formation drones formation parameters) = false <->
   filter is_flying drones = []) /\
  (fst (set_formation drones formation parameters) = false ->
   snd (set_formation drones formation parameters) = drones) /\
  (forall drone_id drone,
     get drones drone_id = Some drone ->
     exists drone',
       get (snd (set_formation drones formation parameters)) drone_id = Some drone' /\
       same_but_target drone drone' /\
       (status drone <> FLYING -> drone' = drone)) /\
  (known_formation formation = false ->
   snd (set_formation drones formation parameters) = drones).
Proof.
  intros drones formation parameters. unfold set_formation.
  change (fun kd : string * DroneState => status_eqb (status (snd kd)) FLYING)
    with is_flying.
  destruct (filter is_flying drones) as [| kd rest] eqn:F; cbn [fst snd].
  - repeat split; try reflexivity.
    intros drone_id drone G. exists drone.
    split; [ exact G | split; [ apply same_but_target_refl | reflexivity ] ].
  - split; [ split; discriminate | split; [ discriminate | split ] ].
    + intros drone_id drone G.
      pose proof (get_assign_targets drones drone_id
                    (_calculate_formation_positions formation (length (kd :: rest))
                                                    parameters)) as A.
      rewrite G in A. destruct A as (d' & Gd & Sd).
      exists d'. split; [ exact Gd | split; [ exact Sd | ] ].
      intros Hs.
      rewrite (assign_targets_grounded drones drone_id drone _ G Hs) in Gd.
      now injection Gd.
    + intros K.
      pose proof (formation_count formation (length (kd :: rest)) parameters) as L.
      rewrite K in L.
      destruct (_calculate_formation_positions formation (length (kd :: rest)) parameters);
        [ apply assign_no_positions | discriminate ].
Qed.

(** X21.  With a pattern it knows, [set_formation] gives the flying
    drones, in the order of the registry, the positions computed for their
    number, one each. *)
Theorem set_formation_assigns :
  forall drones formation parameters,
  known_formation formation = true ->
  fst (set_formation drones formation parameters) = true ->
  map (fun kd => target_of (snd kd))
      (filter is_flying (snd (set_formation drones formation parameters)))
  = _calculate_formation_positions formation (length (filter is_flying drones)) parameters.
Proof.
  intros drones formation parameters K. unfold set_formation.
  change (fun kd : string * DroneState => status_eqb (status (snd kd)) FLYING)
    with is_flying.
  destruct (filter is_flying drones) as [| kd rest] eqn:F; cbn [fst snd];
    [ discriminate | intros _ ].
  rewrite <- F. apply assign_targets_flying.
  now rewrite formation_count, K.
Qed.

(** Two flying drones and one on the ground, set in line: the flying ones
    take the two ends. *)
Lemma set_formation_assigns_witness :
  map (fun kd => target_of (snd kd))
      (filter is_flying
         (snd (set_formation [("d1"%string, flying_drone); ("d2"%string, new_drone "d2");
                              ("d3"%string, flying_drone)] "line" [])))
  = _calculate_formation_positions "line" 2 [].
Proof.
  apply (set_formation_assigns
           [("d1"%string, flying_drone); ("d2"%string, new_drone "d2");
            ("d3"%string, flying_drone)] "line" []); reflexivity.
Defined.

(** *** Where the patterns put the drones *)

Lemma nth_map_seq {A : Type} (f : nat -> A) (count i : nat) (d : A) :
  (i < count)%nat -> nth i (map f (seq 0 count)) d = f i.
Proof.
  intros H. rewrite (nth_indep _ d (f 0%nat)) by now rewrite length_map, length_seq.
  rewrite (map_nth f (seq 0 count) 0%nat i). now rewrite seq_nth.
Qed.

Lemma NoDup_map_on {A B : Type} (f : A -> B) (l : list A) :
  (forall a b, In a l -> In b l -> f a = f b -> a = b) ->
  NoDup l -> NoDup (map f l).
Proof.
  intros Inj H. induction H as [| a l Ha _ IH]; cbn [map]; constructor.
  - intros Hin. apply in_map_iff in Hin. destruct Hin as (b & E & Hb).
    assert (b = a) by (apply Inj; [ now right | now left | exact E ]).
    now subst b.
  - apply IH. intros x y Hx Hy. apply Inj; now right.
Qed.

(** X22.  The circle pattern puts every drone on the circle of the given
    radius around the vertical axis, at the given height: [count] positions
    with [x^2 + y^2 = radius^2] and [z = height]. *)
Theorem circle_positions_on_circle :
  forall count parameters,
  length (_calculate_formation_positions "circle" count parameters) = count /\
  Forall (fun p : Position =>
            sq (fst (fst p)) + sq (snd (fst p)) = sq (parameters_get parameters "radius" 1) /\
            snd p = parameters_get parameters "height" (6 / 10))
         (_calculate_formation_positions "circle" count parameters).
Proof.
  intros count parameters.
  split; [ now rewrite formation_count | ].
  change (_calculate_formation_positions "circle" count parameters)
    with (map (fun i : nat =>
                 (parameters_get parameters "radius" 1 * cos (2 * PI * INR i / INR count),
                  parameters_get parameters "radius" 1 * sin (2 * PI * INR i / INR count),
                  parameters_get parameters "height" (6 / 10)))
              (seq 0 count)).
  apply Forall_forall. intros p Hin. apply in_map_iff in Hin.
  destruct Hin as (i & <- & _). cbn [fst snd]. split; [ | reflexivity ].
  pose proof (sin2_cos2 (2 * PI * INR i / INR count)) as T. unfold Rsqr in T.
  unfold sq. nra.
Qed.

(** X23.  The line pattern is evenly spaced and centred: neighbours are
    [spacing] apart along x, and the i-th position from one end mirrors the
    i-th from the other. *)
Theorem line_positions_spaced :
  forall count parameters i,
  (S i < count)%nat ->
  fst (fst (nth (S i) (_calculate_formation_positions "line" count parameters) (0, 0, 0)))
  - fst (fst (nth i (_calculate_formation_positions "line" count parameters) (0, 0, 0)))
  = parameters_get parameters "spacing" (5 / 10) /\
  fst (fst (nth i (_calculate_formation_positions "line" count parameters) (0, 0, 0)))
  + fst (fst (nth (count - 1 - i)
                  (_calculate_formation_positions "line" count parameters) (0, 0, 0)))
  = 0.
Proof.
  intros count parameters i H.
  change (_calculate_formation_positions "line" count parameters)
    with (map (fun i : nat =>
                 ((INR i - (INR count - 1) / 2) * parameters_get parameters "spacing" (5 / 10),
                  0, 6 / 10))
              (seq 0 count)).
  rewrite !nth_map_seq by lia. cbn [fst]. rewrite S_INR.
  replace (INR (count - 1 - i)) with (INR count - 1 - INR i)
    by (rewrite !minus_INR by lia; simpl; ring).
  split; field.
Qed.

Lemma line_positions_spaced_witness :
  fst (fst (nth 1 (_calculate_formation_positions "line" 3 []) (0, 0, 0)))
  - fst (fst (nth 0 (_calculate_formation_positions "line" 3 []) (0, 0, 0)))
  = 5 / 10.
Proof.
  apply (proj1 (line_positions_spaced 3 [] 0 ltac:(lia))).
Defined.

Lemma ceil_sqrt_positive count : (1 <= count)%nat -> (1 <= ceil_sqrt count)%nat.
Proof.
  intros H. unfold ceil_sqrt.
  destruct (Nat.sqrt count * Nat.sqrt count =? count)%nat eqn:E; [ | lia ].
  apply Nat.eqb_eq in E. destruct (Nat.sqrt count); simpl in E; lia.
Qed.

Lemma scaled_offset_inj (a b c s : R) : s <> 0 -> (a - c) * s = (b - c) * s -> a = b.
Proof. intros Hs H. apply Rmult_eq_reg_r in H; [ lra | exact Hs ]. Qed.

(** X24.  With a spacing other than 0 the line, grid and vshape patterns
    never give two drones one position. *)
Theorem spaced_positions_distinct :
  forall formation count parameters,
  formation = "line"%string \/ formation = "grid"%string \/ formation = "vshape"%string ->
  parameters_get parameters "spacing" (5 / 10) <> 0 ->
  NoDup (_calculate_formation_positions formation count parameters).
Proof.
  intros formation count parameters F Hs.
  set (s := parameters_get parameters "spacing" (5 / 10)) in *.
  destruct F as [-> | [-> | ->]].
  - change (_calculate_formation_positions "line" count parameters)
      with (map (fun i : nat => ((INR i - (INR count - 1) / 2) * s, 0, 6 / 10))
                (seq 0 count)).
    apply NoDup_map_on; [ | apply seq_NoDup ].
    intros i j _ _ [= E]. apply scaled_offset_inj in E; [ | exact Hs ].
    now apply INR_eq.
  - change (_calculate_formation_positions "grid" count parameters)
      with (map (fun i : nat =>
                   ((INR (i mod ceil_sqrt count) - (INR (ceil_sqrt count) - 1) / 2) * s,
                    (INR (i / ceil_sqrt count)
                     - (INR (count / ceil_sqrt count) - 1) / 2) * s,
                    parameters_get parameters "height" (6 / 10)))
                (seq 0 count)).
    apply NoDup_map_on; [ | apply seq_NoDup ].
    intros i j Hi _ [= Ex Ey].
    apply scaled_offset_inj in Ex; [ | exact Hs ].
    apply scaled_offset_inj in Ey; [ | exact Hs ].
    apply INR_eq in Ex. apply INR_eq in Ey.
    rewrite (Nat.div_mod_eq i (ceil_sqrt count)), (Nat.div_mod_eq j (ceil_sqrt count)).
    now rewrite Ex, Ey.
  - change (_calculate_formation_positions "vshape" count parameters)
      with (map (fun i : nat =>
                   if (i =? 0)%nat
                   then (0, 0, parameters_get parameters "height" (6 / 10))
                   else (INR ((i + 1) / 2) * s,
                         (if (i mod 2 =? 1)%nat then 1 else -1) * INR ((i + 1) / 2) * s
                         * (5 / 10),
                         parameters_get parameters "height" (6 / 10)))
                (seq 0 count)).
    apply NoDup_map_on; [ | apply seq_NoDup ].
    assert (Row : forall i, i <> 0%nat -> 1 <= INR ((i + 1) / 2)).
    { intros i Hi. change 1 with (INR 1). apply le_INR.
      apply (Nat.div_le_lower_bound (i + 1) 2 1); lia. }
    intros i j _ _.
    destruct (Nat.eqb_spec i 0) as [-> | Hi]; destruct (Nat.eqb_spec j 0) as [-> | Hj];
      [ reflexivity | | | ]; intros E;
      pose proof (f_equal (fun p : Position => fst (fst p)) E) as Ex;
      pose proof (f_equal (fun p : Position => snd (fst p)) E) as Ey;
      cbn [fst snd] in Ex, Ey.
    + exfalso. specialize (Row j Hj).
      assert (INR ((j + 1) / 2) = 0)
        by (apply (Rmult_eq_reg_r s); [ rewrite Rmult_0_l; now symmetry | exact Hs ]).
      lra.
    + exfalso. specialize (Row i Hi).
      assert (INR ((i + 1) / 2) = 0)
        by (apply (Rmult_eq_reg_r s); [ rewrite Rmult_0_l; exact Ex | exact Hs ]).
      lra.
    + assert (Er : INR ((i + 1) / 2) = INR ((j + 1) / 2))
        by (apply (Rmult_eq_reg_r s); [ exact Ex | exact Hs ]).
      pose proof (Row i Hi) as Ri.
      rewrite <- Er in Ey. apply INR_eq in Er.
      assert (Es : (if (i mod 2 =? 1)%nat then 1 else -1)
                   = (if (j mod 2 =? 1)%nat then 1 else -1) :> R).
      { apply (Rmult_eq_reg_r (INR ((i + 1) / 2) * s * (5 / 10))); [ lra | ].
        apply Rmult_integral_contrapositive_currified; [ | lra ].
        apply Rmult_integral_contrapositive_currified; [ lra | exact Hs ]. }
      assert (Em : (i mod 2 = j mod 2)%nat).
      { pose proof (Nat.mod_upper_bound i 2 ltac:(lia)).
        pose proof (Nat.mod_upper_bound j 2 ltac:(lia)).
        destruct (Nat.eqb_spec (i mod 2) 1); destruct (Nat.eqb_spec (j mod 2) 1);
          try lia; lra. }
      pose proof (Nat.div_mod_eq (i + 1) 2). pose proof (Nat.div_mod_eq (j + 1) 2).
      pose proof (Nat.div_mod_eq i 2). pose proof (Nat.div_mod_eq j 2).
      assert ((i + 1) mod 2 = (j + 1) mod 2)%nat.
      { rewrite <- (Nat.Div0.add_mod_idemp_l i 1 2), <- (Nat.Div0.add_mod_idemp_l j 1 2).
        now rewrite Em. }
      lia.
Qed.

(** The default spacing of half a metre. *)
Lemma spaced_positions_distinct_witness :
  NoDup (_calculate_formation_positions "grid" 5 []).
Proof.
  apply spaced_positions_distinct.
  - right. now left.
  - cbn [parameters_get]. lra.
Defined.

(** *** Vertical speed *)

Lemma clamp_bounded (e : R) : Rabs (Rmin max_speed (Rmax (- max_speed) e)) <= max_speed.
Proof.
  destruct (clamp_cases e) as [[He ->] | [[He ->] | [He ->]]];
    revert He; unfold max_speed, Rabs;
    match goal with |- context [Rcase_abs ?a] => destruct (Rcase_abs a) end; intros; lra.
Qed.

(** X25.  The vertical speed a takeoff or a landing update commands never
    exceeds [max_speed] in either direction. *)
Theorem vertical_speed_clamped :
  forall current_time drone,
  status drone = TAKING_OFF \/ status drone = LANDING ->
  Rabs (vz (phase_update current_time drone)) <= max_speed.
Proof.
  intros current_time drone [S | S]; unfold phase_update; rewrite S.
  - unfold _update_takeoff. cbv zeta. destruct (Rgeb _ _); cbn.
    + rewrite Rabs_R0. unfold max_speed. lra.
    + apply clamp_bounded.
  - unfold _update_landing. cbv zeta. destruct (Rgtb _ _); cbn.
    + apply clamp_bounded.
    + rewrite Rabs_R0. unfold max_speed. lra.
Qed.

Lemma vertical_speed_clamped_witness :
  Rabs (vz (phase_update 11 climbing_drone)) <= max_speed.
Proof.
  apply vertical_speed_clamped. now left.
Defined.

(** *** From the command to the first tick after the takeoff time *)

(** X26.  An [IDLE] drone told to take off is, after the first tick at or
    after the end of the takeoff duration, at the commanded height plus that
    tick's noise, and [FLYING] unless that tick's battery or bounds check
    put it in [ERROR]. *)
Theorem takeoff_then_tick :
  forall drones drone_id drone height duration now current_time noise,
  get drones drone_id = Some drone ->
  status drone = IDLE ->
  current_time - now >= duration ->
  exists drone' j,
    get (_update_drones current_time noise
           (snd (takeoff drones drone_id height duration now))) drone_id = Some drone' /\
    z drone' = height + noise_z (noise j) /\
    vz drone' = 0 + noise_vz (noise j) /\
    (status drone' = FLYING \/ status drone' = ERROR) /\
    (0 < drained (battery drone) -> ~ outside_checked_bounds drone' ->
     status drone' = FLYING).
Proof.
  intros drones drone_id drone height duration now current_time noise G S Ht.
  pose proof (takeoff_cases drones drone_id height duration now) as C.
  rewrite G, S in C. rewrite C. cbn [snd]. unfold _update_drones.
  set (started := set_takeoff_start
                    (set_takeoff_duration
                       (set_takeoff_height (set_status drone TAKING_OFF) height) duration)
                    now).
  pose proof (get_update_loop current_time noise
                (modify drones drone_id
                   (fun drone => set_takeoff_start
                                   (set_takeoff_duration
                                      (set_takeoff_height (set_status drone TAKING_OFF) height)
                                      duration) now))
                drone_id 0%nat) as U.
  rewrite get_modify_same, G in U. cbn [option_map] in U. fold started in U.
  destruct U as [j U]. exists (update_drone current_time (noise j) started), j.
  split; [ exact U | ].
  rewrite update_drone_stages. cbn [z vz status set_last_update].
  assert (P : phase_update current_time (set_battery started (drained (battery started)))
              = set_status (set_vz (set_z (set_battery started (drained (battery started)))
                                          height) 0) FLYING).
  { unfold phase_update. cbn [status set_battery started set_takeoff_start
                              set_takeoff_duration set_takeoff_height set_status].
    rewrite update_takeoff_done; [ reflexivity | ]. cbn. lra. }
  rewrite P.
  set (d3 := add_noise (noise j) _).
  destruct (check_errors_keeps d3) as (_ & _ & _ & -> & ->).
  split; [ reflexivity | split; [ reflexivity | ] ].
  destruct (check_errors_cases d3) as [[_ E] | [[Hpos Hin] E]]; rewrite E.
  - split; [ now right | ].
    intros Hb Hout. exfalso.
    destruct (check_errors_cases d3) as [[[Hc | Hc] _] | [_ E']].
    + revert Hc. unfold d3. cbn. lra.
    + apply Hout. unfold outside_checked_bounds in *.
      cbn [x y z set_last_update set_status]. exact Hc.
    + rewrite E' in E. apply (f_equal status) in E. revert E. unfold d3. now cbn.
  - split; [ now left | reflexivity ].
Qed.

(** A fresh drone sent to 0.6 m in 2 s, ticked without noise 2 s later. *)
Lemma takeoff_then_tick_witness :
  exists drone' j,
    get (_update_drones 12 (fun _ => no_noise)
           (snd (takeoff [("d1"%string, new_drone "d1")] "d1" (6 / 10) 2 10))) "d1"
    = Some drone' /\
    z drone' = 6 / 10 + noise_z ((fun _ : nat => no_noise) j).
Proof.
  destruct (takeoff_then_tick [("d1"%string, new_drone "d1")] "d1"%string (new_drone "d1")
              (6 / 10) 2 10 12 (fun _ => no_noise) eq_refl eq_refl ltac:(lra))
    as (d' & j & G & Hz & _).
  exists d', j. split; [ exact G | exact Hz ].
Defined.

(** *** The identifiers of a session *)

Lemma keys_dict_set_old drones drone_id drone :
  In drone_id (map fst drones) ->
  map fst (dict_set drones drone_id drone) = map fst drones.
Proof.
  induction drones as [| [k d] rest IH]; intros Hin; [ contradiction | ].
  cbn [dict_set]. destruct (String.eqb k drone_id) eqn:E; cbn [map fst]; [ reflexivity | ].
  rewrite IH; [ reflexivity | ].
  destruct Hin as [Hk | Hin]; [ | exact Hin ].
  cbn [fst] in Hk. subst k. rewrite String.eqb_refl in E. discriminate.
Qed.

Lemma create_loop_range run_id (c : nat) :
  forall a n drone_ids drones,
  map fst drones = map swarm_id (seq 0 n) ->
  (a <= n)%nat ->
  map fst (snd (fold_left
                  (fun (st : list string * registry) (i : nat) =>
                     let drone_id := ("d" ++ string_of_nat (i + 1))%string in
                     let drone := new_drone drone_id in
                     let drone := set_run_id drone run_id in
                     (fst st ++ [drone_id], dict_set (snd st) drone_id drone))
                  (seq a c) (drone_ids, drones)))
  = map swarm_id (seq 0 (Nat.max n (a + c))).
Proof.
  induction c as [| c IH]; intros a n drone_ids drones K Ha.
  - cbn [seq fold_left snd]. now replace (Nat.max n (a + 0)) with n by lia.
  - cbn [seq fold_left fst snd].
    destruct (Nat.eq_dec a n) as [-> | Hlt].
    + rewrite (IH (S n) (S n)); [ f_equal; f_equal; lia | | lia ].
      rewrite keys_dict_set_new.
      * rewrite K, seq_S, map_app. reflexivity.
      * rewrite K. intros Hin. apply in_map_iff in Hin. destruct Hin as (j & E & Hj).
        apply swarm_id_inj in E. subst j. apply in_seq in Hj. lia.
    + rewrite (IH (S a) n); [ f_equal; f_equal; lia | | lia ].
      rewrite keys_dict_set_old; [ exact K | ].
      rewrite K. apply (in_map swarm_id (seq 0 n) a). apply in_seq. lia.
Qed.

(** X27.  In every session the registered identifiers are [d1, ..., dn] for
    some [n], in that order and each once: no identifier is ever registered
    twice, and a second [create_swarm] reuses the identifiers of the first. *)
Theorem session_identifiers :
  forall drones,
  reachable drones ->
  (exists n, map fst drones = map swarm_id (seq 0 n)) /\ NoDup (map fst drones).
Proof.
  intros drones R.
  assert (E : exists n, map fst drones = map swarm_id (seq 0 n)).
  { induction R as [| drones op _ [n K]]; [ now exists 0%nat | ].
    destruct (keeps_drones op) eqn:Kd.
    - exists n. now rewrite operation_keeps_identifiers.
    - destruct op; try discriminate; cbn [apply_operation].
      + exists (Nat.max n (0 + count)). unfold create_swarm.
        apply create_loop_range; [ exact K | lia ].
      + now exists 0%nat. }
  split; [ exact E | ].
  destruct E as [n ->]. apply swarm_ids_distinct, seq_NoDup.
Qed.

(** Two swarms in one session, of three and of two drones. *)
Lemma session_identifiers_witness :
  NoDup (map fst (run [] [CreateSwarm 3 "first"; CreateSwarm 2 "second"])).
Proof.
  apply (session_identifiers (run [] [CreateSwarm 3 "first"; CreateSwarm 2 "second"])).
  apply reachable_run. constructor.
Defined.

End SimulatorFacts.

(** ** The HTTP layer: properties *)

Module ApiFacts.
Import Planner PlannerSpec PlannerProofs PlannerFacts.
Import Simulator SimulatorSpec SimulatorTerms SimulatorProofs SimulatorFacts.

Lemma verify_token_rejects config credentials :
  credentials <> Some (Api.BEARER_TOKEN config) ->
  exists detail, Api.verify_token config credentials = Api.HTTPException 401 detail.
Proof.
  intros H. unfold Api.verify_token. destruct credentials as [token |]; [ | eauto ].
  destruct (String.eqb token (Api.BEARER_TOKEN config)) eqn:E; cbn [negb]; [ | eauto ].
  apply String.eqb_eq in E. congruence.
Qed.

Lemma verify_token_accepts config credentials token :
  Api.verify_token config credentials = Api.Returned token ->
  credentials = Some (Api.BEARER_TOKEN config).
Proof.
  unfold Api.verify_token. destruct credentials as [t |]; [ | discriminate ].
  destruct (String.eqb t (Api.BEARER_TOKEN config)) eqn:E; cbn [negb]; [ | discriminate ].
  apply String.eqb_eq in E. now subst t.
Qed.

(** X28.  Without the configured bearer token no handler that changes the
    simulator touches it: each replies 401 and the simulator is as it was;
    nor does the planner validation run. *)
Theorem unauthorized_changes_nothing :
  forall config simulator credentials,
  credentials <> Some (Api.BEARER_TOKEN config) ->
  exists detail,
    (forall count run_id,
       Api.create_swarm config simulator credentials count run_id
       = (Api.HTTPException 401 detail, simulator)) /\
    (forall drone_id height duration now,
       Api.takeoff config simulator credentials drone_id height duration now
       = (Api.HTTPException 401 detail, simulator)) /\
    (forall drone_id gx gy gz speed,
       Api.goto config simulator credentials drone_id gx gy gz speed
       = (Api.HTTPException 401 detail, simulator)) /\
    (forall drone_id now,
       Api.land config simulator credentials drone_id now
       = (Api.HTTPException 401 detail, simulator)) /\
    (forall formation parameters,
       Api.set_formation config simulator credentials formation parameters
       = (Api.HTTPException 401 detail, simulator)) /\
    Api.emergency_stop config simulator credentials
    = (Api.HTTPException 401 detail, simulator) /\
    Api.reset_simulation config simulator credentials
    = (Api.HTTPException 401 detail, simulator) /\
    (forall fuel algorithm testCases clock,
       Api.validate_algorithm fuel config credentials algorithm testCases clock
       = Some (Api.HTTPException 401 detail)).
Proof.
  intros config simulator credentials H.
  destruct (verify_token_rejects config credentials H) as [detail V].
  exists detail.
  unfold Api.create_swarm, Api.takeoff, Api.goto, Api.land, Api.set_formation,
    Api.emergency_stop, Api.reset_simulation, Api.validate_algorithm.
  rewrite V. repeat split.
Qed.

(** A request with another token. *)
Lemma unauthorized_changes_nothing_witness :
  exists detail,
    Api.emergency_stop (Api.mkConfig 10 "demo-token") (Some [("d1"%string, flying_drone)])
                       (Some "guess"%string)
    = (Api.HTTPException 401 detail, Some [("d1"%string, flying_drone)]).
Proof.
  destruct (unauthorized_changes_nothing (Api.mkConfig 10 "demo-token")
              (Some [("d1"%string, flying_drone)]) (Some "guess"%string))
    as (detail & _ & _ & _ & _ & _ & E & _).
  - cbn. intros E. discriminate E.
  - now exists detail.
Defined.


(** *** Planner validation *)

Lemma handler_length_is_sum (path : list Point) :
  Api.handler_path_length path = sum_consecutive path.
Proof.
  unfold Api.handler_path_length.
  destruct (Nat.ltb_spec 1 (length path)) as [H | H].
  - apply length_loop_by_segments.
  - destruct path as [| a [| b rest]]; [ reflexivity | reflexivity | simpl in H; lia ].
Qed.

Lemma validate_cases_results fuel clock (testCases : list Api.TestCase) :
  forall k results,
  Api.validate_cases fuel clock k testCases = Some results ->
  map Api.testCase results = testCases /\
  Forall (fun r : Api.CaseResult =>
            plan_path fuel Api.planner (Api.start (Api.testCase r))
                      (Api.goal (Api.testCase r)) (Api.get_obstacles (Api.testCase r))
            = Some (Api.path r) /\
            Api.pathLengthM r = sum_consecutive (Api.path r) /\
            Api.success r = (0 <? length (Api.path r))%nat)
         results.
Proof.
  induction testCases as [| tc rest IH]; intros k results H.
  - injection H as <-. split; [ reflexivity | constructor ].
  - cbn [Api.validate_cases] in H. cbv zeta in H.
    destruct (plan_path fuel Api.planner (Api.start tc) (Api.goal tc) (Api.get_obstacles tc))
      as [p |] eqn:P; [ | discriminate ].
    destruct (Api.validate_cases fuel clock (S k) rest) as [rs |] eqn:V; [ | discriminate ].
    injection H as <-. destruct (IH (S k) rs V) as [M F].
    split; [ cbn [map Api.testCase]; now rewrite M | ].
    constructor; [ | exact F ].
    cbn [Api.testCase Api.path Api.pathLengthM Api.success].
    split; [ exact P | split; [ apply handler_length_is_sum | reflexivity ] ].
Qed.

(** X30.  When the planner validation returns, the request had the token
    and named the algorithm, there is one result per test case in order, and
    in each the path is the planner's for that case, from its start to its
    goal, [success] is true, the path passes [validate_path] against the
    case's obstacles, and [pathLengthM] is the [pathLength] that
    [validate_path] reports, at least the straight distance from start to
    goal. *)
Theorem validate_algorithm_results :
  forall fuel config credentials algorithm testCases clock results,
  Api.validate_algorithm fuel config credentials algorithm testCases clock
  = Some (Api.Returned results) ->
  credentials = Some (Api.BEARER_TOKEN config) /\
  algorithm = "simple_collision_avoidance"%string /\
  map Api.testCase results = testCases /\
  Forall (fun r : Api.CaseResult =>
            let tc := Api.testCase r in
            plan_path fuel Api.planner (Api.start tc) (Api.goal tc) (Api.get_obstacles tc)
            = Some (Api.path r) /\
            hd_error (Api.path r) = Some (Api.start tc) /\
            last (Api.path r) (Api.start tc) = Api.goal tc /\
            Api.success r = true /\
            valid (validate_path Api.planner (Api.path r) (Api.get_obstacles tc)) = true /\
            Api.pathLengthM r
            = pathLength (validate_path Api.planner (Api.path r) (Api.get_obstacles tc)) /\
            euclid (Api.start tc) (Api.goal tc) <= Api.pathLengthM r)
         results.
Proof.
  intros fuel config credentials algorithm testCases clock results H.
  unfold Api.validate_algorithm in H.
  destruct (Api.verify_token config credentials) as [token | code detail] eqn:V;
    [ | discriminate ].
  apply verify_token_accepts in V.
  destruct (String.eqb algorithm "simple_collision_avoidance") eqn:A; cbn [negb] in H;
    [ | discriminate ].
  apply String.eqb_eq in A.
  destruct (Api.validate_cases fuel clock 0 testCases) as [rs |] eqn:C; [ | discriminate ].
  injection H as <-.
  destruct (validate_cases_results fuel clock testCases 0%nat rs C) as [M F].
  split; [ exact V | split; [ exact A | split; [ exact M | ] ] ].
  eapply Forall_impl; [ | exact F ].
  intros r (P & Len & Suc). cbv zeta.
  destruct (plan_path_sound _ _ _ _ _ _ P) as [[middle Shape] Clear].
  assert (L : (length (Api.path r) <? 2)%nat = false).
  { apply Nat.ltb_ge. rewrite Shape. cbn [length]. rewrite length_app. simpl. lia. }
  split; [ exact P | ].
  split; [ now rewrite Shape | ].
  split.
  { rewrite Shape.
    change (Api.start (Api.testCase r) :: middle ++ [Api.goal (Api.testCase r)])
      with ((Api.start (Api.testCase r) :: middle) ++ [Api.goal (Api.testCase r)]).
    apply last_last. }
  split.
  { rewrite Suc. apply Nat.ltb_lt. rewrite Shape. simpl. lia. }
  split.
  { unfold validate_path. rewrite L. cbn [valid].
    rewrite separation_loop_by_segments. now apply separation_of_clear_segments. }
  assert (PL : pathLength (validate_path Api.planner (Api.path r)
                             (Api.get_obstacles (Api.testCase r)))
               = sum_consecutive (Api.path r)).
  { unfold validate_path. rewrite L. cbn [pathLength]. apply length_loop_by_segments. }
  split; [ now rewrite PL | ].
  rewrite Len.
  pose proof (sum_consecutive_lower (Api.path r) (Api.start (Api.testCase r))) as S.
  rewrite Shape in S at 2. cbn [hd] in S. rewrite euclid_self in S.
  replace (last (Api.path r) (Api.start (Api.testCase r))) with (Api.goal (Api.testCase r))
    in S; [ lra | ].
  rewrite Shape.
  change (Api.start (Api.testCase r) :: middle ++ [Api.goal (Api.testCase r)])
    with ((Api.start (Api.testCase r) :: middle) ++ [Api.goal (Api.testCase r)]).
  now rewrite last_last.
Qed.

Lemma scenario_validated :
  Api.validate_algorithm 1 (Api.mkConfig 10 "demo-token") (Some "demo-token"%string)
    "simple_collision_avoidance"
    [Api.mkTestCase scenario_start scenario_goal (Some scenario_obstacles)]
    (fun _ => (0, 1 / 1000))
  = Some (Api.Returned
            [Api.mkCaseResult
               (Api.mkTestCase scenario_start scenario_goal (Some scenario_obstacles))
               [scenario_start; (1, 0, 95 / 100); scenario_goal]
               ((1 / 1000 - 0) * 1000)
               (Api.handler_path_length [scenario_start; (1, 0, 95 / 100); scenario_goal])
               true]).
Proof.
  unfold Api.validate_algorithm.
  change (Api.verify_token (Api.mkConfig 10 "demo-token") (Some "demo-token"%string))
    with (Api.Returned "demo-token"%string).
  change (negb (String.eqb "simple_collision_avoidance" "simple_collision_avoidance"))
    with false.
  cbn [Api.validate_cases Api.start Api.goal Api.get_obstacles Api.obstacles].
  unfold Api.planner. rewrite scenario_plan. reflexivity.
Qed.

(** The scenario sent as the one test case. *)
Lemma validate_algorithm_results_witness :
  exists results,
    Api.validate_algorithm 1 (Api.mkConfig 10 "demo-token") (Some "demo-token"%string)
      "simple_collision_avoidance"
      [Api.mkTestCase scenario_start scenario_goal (Some scenario_obstacles)]
      (fun _ => (0, 1 / 1000))
    = Some (Api.Returned results) /\
    map Api.testCase results
    = [Api.mkTestCase scenario_start scenario_goal (Some scenario_obstacles)].
Proof.
  eexists. split; [ exact scenario_validated | ].
  exact (proj1 (proj2 (proj2 (validate_algorithm_results _ _ _ _ _ _ _ scenario_validated)))).
Defined.

End ApiFacts.
